(** * Widget_Classes: gauge widgets and the two-step RPM-bound entry panel

    A shallow embedding of [src/Widget_Classes.py].  The four gauge classes
    ([Temp_Gauge], [Tachometer], [Fuel_Gauge], [Speedometer]) hold an integer
    value and a maximum; [Variable_Section] holds the digit-entry state of the
    two-step panel; [Menu] holds a list of mode names and the selected one;
    [Rotating_Image] holds a list of image paths, a counter and a label.
    Python integers are [Z], Python floats are IEEE-754
    binary64 numbers ([spec_float] at precision 53), Python lists are Rocq
    lists indexed with stdpp's lookup and insert, and a method is a function
    of the object that returns the new object, the events it produced and,
    where Python would raise, the exception. *)

From stdpp Require Import base option list strings.
From Stdlib Require Import ZArith Lia.
From Stdlib Require Import Floats.SpecFloat.

#[local] Open Scope Z_scope.

(** ** Python runtime: exceptions, events, the method monad *)

Inductive exn := ZeroDivisionError | OverflowError | IndexError | ValueError.

Inductive result (A : Type) := Ok (a : A) | Raise (e : exn).
Arguments Ok {A} a.
Arguments Raise {A} e.

(** What a method does besides changing its object: [self.update()] asks Qt
    for a redraw, [print] writes a line to standard output.  The two-step
    panel hands its bounds over with [print("TWO STEP BOUNDS ARE: ", bounds)];
    that line is [PrintBounds]. *)
Inductive event :=
| Update
| Print (msg : string)
| PrintBounds (msg : string) (bounds : list Z).

(** A method of a class whose instances are [St].  In every method below an
    exception can only be raised before the first assignment to [self], so
    the object an exception leaves behind is the one the method started
    with and [Raise] does not carry it. *)
Definition M (St A : Type) : Type := St -> result (A * St * list event).

#[global] Instance M_ret St : MRet (M St) := fun A a s => Ok (a, s, []).

#[global] Instance M_bind St : MBind (M St) := fun A B k m s =>
  match m s with
  | Ok (a, s', l) =>
      match k a s' with
      | Ok (b, s'', l') => Ok (b, s'', l ++ l')
      | Raise e => Raise e
      end
  | Raise e => Raise e
  end.

Definition get {St} : M St St := fun s => Ok (s, s, []).
Definition put {St} (s : St) : M St unit := fun _ => Ok (tt, s, []).
Definition modify {St} (f : St -> St) : M St unit := fun s => Ok (tt, f s, []).
Definition emit {St} (e : event) : M St unit := fun s => Ok (tt, s, [e]).
Definition lift {St A} (r : result A) : M St A := fun s =>
  match r with
  | Ok a => Ok (a, s, [])
  | Raise e => Raise e
  end.

(** Run a method of class [S] on an object that is one case of a larger
    type [T]. *)
Definition zoom {S T A} (wrap : S -> T) (m : M S A) (s : S)
  : result (A * T * list event) :=
  match m s with
  | Ok (a, s', l) => Ok (a, wrap s', l)
  | Raise e => Raise e
  end.

#[global] Instance result_ret : MRet result := fun A a => Ok a.

#[global] Instance result_bind : MBind result := fun A B k r =>
  match r with
  | Ok a => k a
  | Raise e => Raise e
  end.

(** [a % b] on Python integers: the result has the sign of [b], and a zero
    [b] raises. *)
Definition py_mod (a b : Z) : result Z :=
  if decide (b = 0) then Raise ZeroDivisionError else Ok (a mod b).

(** [l[i]] and [l[i] = v] for a non-negative index. *)
Definition getitem {A} (l : list A) (i : nat) : result A :=
  match l !! i with
  | Some x => Ok x
  | None => Raise IndexError
  end.

Definition setitem {A} (l : list A) (i : nat) (v : A) : result (list A) :=
  if decide (i < length l)%nat then Ok (<[i:=v]> l) else Raise IndexError.

(** [l.index(x)]: the position of the first element equal to [x]. *)
Fixpoint py_index (x : string) (l : list string) : result nat :=
  match l with
  | [] => Raise ValueError
  | y :: l' =>
      if decide (y = x) then Ok O
      else match py_index x l' with
           | Ok i => Ok (S i)
           | Raise e => Raise e
           end
  end.

(** ** Python floats

    A Python float is an IEEE-754 binary64 number: [spec_float] at
    precision 53 with exponent bound 1024, whose operations round to
    nearest, ties to even.  Arithmetic on floats never raises except for a
    division by zero; an integer that meets a float is converted first, and
    that conversion raises when the integer is too large. *)

Definition f64_mul : spec_float -> spec_float -> spec_float := SFmul 53 1024.
Definition f64_div : spec_float -> spec_float -> spec_float := SFdiv 53 1024.
Definition f64_sub : spec_float -> spec_float -> spec_float := SFsub 53 1024.

Definition is_zero (x : spec_float) : bool :=
  match x with
  | S754_zero _ => true
  | _ => false
  end.

(** The float nearest to the integer [n]; infinite when [n] is out of
    range. *)
Definition f64_of (n : Z) : spec_float := binary_normalize 53 1024 n 0 false.

(** [float(n)], also the conversion of an integer operand that meets a
    float: the nearest float, or [OverflowError]. *)
Definition float_of_int (n : Z) : result spec_float :=
  match f64_of n with
  | S754_infinity _ => Raise OverflowError
  | x => Ok x
  end.

(** An integer as mantissa with exponent 0, of any size. *)
Definition exact_int (n : Z) : spec_float :=
  match n with
  | Z0 => S754_zero false
  | Zpos p => S754_finite false p 0
  | Zneg p => S754_finite true p 0
  end.

(** [a / b] on two integers: the quotient of the integers themselves,
    rounded once. *)
Definition int_truediv (a b : Z) : result spec_float :=
  if decide (b = 0) then Raise ZeroDivisionError
  else match f64_div (exact_int a) (exact_int b) with
       | S754_infinity _ => Raise OverflowError
       | q => Ok q
       end.

(** [x / y] on two floats. *)
Definition float_truediv (x y : spec_float) : result spec_float :=
  if is_zero y then Raise ZeroDivisionError else Ok (f64_div x y).

(** Mixed operands: [n * x], [x * n], [n / x], [n - x]. *)
Definition int_mul_float (n : Z) (x : spec_float) : result spec_float :=
  y ← float_of_int n; mret (f64_mul y x).

Definition float_mul_int (x : spec_float) (n : Z) : result spec_float :=
  y ← float_of_int n; mret (f64_mul x y).

Definition int_div_float (n : Z) (x : spec_float) : result spec_float :=
  y ← float_of_int n; float_truediv y x.

Definition int_sub_float (n : Z) (x : spec_float) : result spec_float :=
  y ← float_of_int n; mret (f64_sub y x).

(** A decimal literal [n]e-[k], such as [.5] or [0.7]: the float nearest to
    the decimal number. *)
Definition decimal (n : Z) (k : Z) : spec_float :=
  f64_div (exact_int n) (exact_int (10 ^ k)).

(** Python compares an integer with a float by value, without rounding the
    integer.  [None] is the unordered case of a NaN. *)
Definition compare_float_int (x : spec_float) (n : Z) : option comparison :=
  match x with
  | S754_nan => None
  | S754_infinity s => Some (if s then Lt else Gt)
  | S754_zero _ => Some (0 ?= n)
  | S754_finite s m e =>
      let z := if s then Zneg m else Zpos m in
      Some match e with
           | Zneg k => z ?= n * 2 ^ Zpos k
           | _ => z * 2 ^ e ?= n
           end
  end.

(** [x < n], [x >= n], [n >= x], [n > x] *)
Definition float_lt_int (x : spec_float) (n : Z) : bool :=
  match compare_float_int x n with
  | Some Lt => true
  | _ => false
  end.

Definition float_ge_int (x : spec_float) (n : Z) : bool :=
  match compare_float_int x n with
  | Some (Eq | Gt) => true
  | _ => false
  end.

Definition int_ge_float (n : Z) (x : spec_float) : bool :=
  match compare_float_int x n with
  | Some (Eq | Lt) => true
  | _ => false
  end.

Definition int_gt_float (n : Z) (x : spec_float) : bool :=
  match compare_float_int x n with
  | Some Lt => true
  | _ => false
  end.

(** [int(x)]: the integer part, towards zero. *)
Definition py_int (x : spec_float) : result Z :=
  match x with
  | S754_nan => Raise ValueError
  | S754_infinity _ => Raise OverflowError
  | S754_zero _ => Ok 0
  | S754_finite s m e =>
      let a := match e with
               | Zneg k => Zpos m / 2 ^ Zpos k
               | _ => Zpos m * 2 ^ e
               end in
      Ok (if s then - a else a)
  end.

(** The exponent of the format at magnitude [e], and the float that
    rounding yields from a mantissa and an exponent it has settled on. *)
Definition fexp64 (e : Z) : Z := fexp 53 1024 e.

Definition round_result (s : bool) (m e : Z) : spec_float :=
  match m with
  | Z0 => S754_zero s
  | Zpos p => if e <=? 1024 - 53 then S754_finite s p e else S754_infinity s
  | Zneg _ => S754_nan
  end.

(** The magnitude of a mantissa and exponent: the exponent of the least
    power of two above the number. *)
Definition magnitude (m e : Z) : Z := Zdigits2 m + e.

(** A float with sign bit [b] that is not a NaN; a float that is zero or
    finite; a finite float in the form the format prescribes. *)
Definition has_sign (b : bool) (x : spec_float) : Prop :=
  match x with
  | S754_zero s | S754_finite s _ _ | S754_infinity s => s = b
  | S754_nan => False
  end.

Definition is_finite (x : spec_float) : Prop :=
  match x with
  | S754_zero _ | S754_finite _ _ _ => True
  | _ => False
  end.

Definition canonical (x : spec_float) : Prop :=
  match x with
  | S754_finite _ m e => e = fexp64 (magnitude (Zpos m) e) /\ e <= 971
  | _ => True
  end.

(** [n] is the integer part of [x]: the integer nearest to zero-side of
    [x], so that [|n| <= |x| < |n| + 1] with the sign of [x]. *)
Definition truncation_of (x : spec_float) (n : Z) : Prop :=
  match compare_float_int x 0 with
  | Some Lt =>
      n <= 0 /\
      (compare_float_int x n = Some Lt \/ compare_float_int x n = Some Eq) /\
      compare_float_int x (n - 1) = Some Gt
  | Some _ =>
      0 <= n /\
      (compare_float_int x n = Some Gt \/ compare_float_int x n = Some Eq) /\
      compare_float_int x (n + 1) = Some Lt
  | None => False
  end.

(** The magnitude of a finite float is at most [bound]. *)
Definition magnitude_le (x : spec_float) (bound : Z) : Prop :=
  match x with
  | S754_finite _ m e => magnitude (Zpos m) e <= bound
  | _ => True
  end.

(** ** What a paint event hands to the painter

    Of each [paintEvent] the model keeps the pen changes, the primitive that
    shows the value (the fill) and the texts, in the order of the calls.
    The pixel coordinates of the primitives, the pen widths and the fonts
    are left out; so are the backing and tick primitives, whose arguments
    are coordinates only.  A paint that raises is [Raise]. *)

Inductive color := RGB (r g b : Z).

Definition Qt_green : color := RGB 0 255 0.
Definition Qt_yellow : color := RGB 255 255 0.
Definition Qt_red : color := RGB 255 0 0.

(** The stops of a [QLinearGradient], kept in the order of their
    positions; a position outside [0, 1] is ignored and a stop set twice at
    one position is replaced. *)
Definition gradient := list (spec_float * color).

Fixpoint insert_stop (pos : spec_float) (c : color) (stops : gradient) : gradient :=
  match stops with
  | [] => [(pos, c)]
  | (p, c') :: rest =>
      match SFcompare pos p with
      | Some Lt => (pos, c) :: (p, c') :: rest
      | Some Eq => (pos, c) :: rest
      | _ => (p, c') :: insert_stop pos c rest
      end
  end.

Definition setColorAt (pos : spec_float) (c : color) (stops : gradient) : gradient :=
  if float_ge_int pos 0 && int_ge_float 1 pos then insert_stop pos c stops else stops.

Inductive brush :=
| Solid (c : color)
| Gradient (stops : gradient).

(** A numeric argument: Python passes an [int] or a [float]. *)
Inductive num :=
| IntNum (n : Z)
| FloatNum (x : spec_float).

(** The text of a [drawText] call: a string, or an integer formatted by an
    f-string, followed by a suffix. *)
Inductive text :=
| Str (s : string)
| Int (n : Z) (suffix : string).

(** [f"{n}"] on an integer: the conversion to decimal digits.  CPython
    refuses to convert an integer of more than 4300 digits (the default
    of [sys.int_max_str_digits]) and raises [ValueError].  The speed
    readout formats its value as it is stored.  The other three gauges
    format integers that an earlier step of the same paint has converted
    to a float or divided into one, which raises [OverflowError] far below
    that size; there the text is [Int n suffix] directly. *)
Definition int_max_str_digits : Z := 4300.

Definition format_int (n : Z) (suffix : string) : result text :=
  if decide (Z.abs n < 10 ^ int_max_str_digits) then Ok (Int n suffix)
  else Raise ValueError.

Inductive paint_cmd :=
| SetPen (b : brush)
| FillLine (length : spec_float)
| FillArc (start span : num)
| DrawText (t : text).

Definition texts (cmds : list paint_cmd) : list text :=
  omap (fun c => match c with DrawText t => Some t | _ => None end) cmds.

(** The pen in force at the fill primitive, if one is drawn. *)
Fixpoint fill_pen_from (pen : option brush) (cmds : list paint_cmd) : option brush :=
  match cmds with
  | [] => None
  | SetPen b :: rest => fill_pen_from (Some b) rest
  | (FillLine _ | FillArc _ _) :: _ => pen
  | DrawText _ :: rest => fill_pen_from pen rest
  end.

Definition fill_pen (cmds : list paint_cmd) : option brush := fill_pen_from None cmds.

(** The arcs among the fill primitives of a paint. *)
Definition arcs (cmds : list paint_cmd) : list paint_cmd :=
  List.filter (fun c => match c with FillArc _ _ => true | _ => false end) cmds.

(** The fill primitives of a paint. *)
Definition fills (cmds : list paint_cmd) : list paint_cmd :=
  List.filter (fun c => match c with FillLine _ | FillArc _ _ => true | _ => false end) cmds.

(** Reading a numeric argument: its order against an integer, its place in
    a closed interval, a lower clamp, and the conversion from degrees to the
    sixteenths of a degree [drawArc] takes. *)
Definition compare_num_int (x : num) (n : Z) : option comparison :=
  match x with
  | IntNum k => Some (k ?= n)
  | FloatNum f => compare_float_int f n
  end.

Definition in_interval (lo hi : Z) (x : num) : Prop :=
  (compare_num_int x lo = Some Gt \/ compare_num_int x lo = Some Eq) /\
  (compare_num_int x hi = Some Lt \/ compare_num_int x hi = Some Eq).

Definition clamp_below (bound : Z) (a : spec_float) : num :=
  if float_lt_int a bound then IntNum bound else FloatNum a.

Definition sixteenths (x : num) : result num :=
  match x with
  | IntNum k => Ok (IntNum (k * 16))
  | FloatNum f => y ← float_mul_int f 16; mret (FloatNum y)
  end.

(** ** The gauge classes

    Each class stores [value] and [max_value]; [__init__] stores the
    maximum it is given without looking at it.  The calls into Qt made by
    the constructors (style sheet, font loading) do not touch these fields
    and are left out.  [paintEvent] takes the width and height Qt reports
    for the widget. *)

Module Temp_Gauge.

Record t := { value : Z; max_value : Z }.

Definition default_max_value : Z := 300.

Definition __init__ (max_value : Z) : result t :=
  Ok {| value := 0; max_value := max_value |}.

Definition add_to_value (change : Z) : M t unit :=
  self ← get;
  v ← lift (py_mod (value self + change) (max_value self + 1));
  put {| value := v; max_value := max_value self |};;
  emit Update.

Definition update_value (new_value : Z) : M t unit :=
  self ← get;
  v ← lift (py_mod new_value (max_value self + 1));
  put {| value := v; max_value := max_value self |};;
  emit Update.

(** [int(self.max_value * k / 5)]: the product of the integers, divided
    by 5 as a float, then cut to its integer part. *)
Definition tick_label (self : t) (k : Z) : result Z :=
  q ← int_truediv (max_value self * k) 5;
  py_int q.

(** The stops set on [self.gaugeGrad], in the order of the calls:
    [setColorAt(1, Qt.green)], [setColorAt(0.2, Qt.yellow)],
    [setColorAt(0, Qt.red)]. *)
Definition gaugeGrad : gradient :=
  setColorAt (f64_of 0) Qt_red
    (setColorAt (decimal 2 1) Qt_yellow
       (setColorAt (f64_of 1) Qt_green [])).

(** [length = (self.value / (self.max_value*.5)) * size_factor] *)
Definition fill_length (self : t) (size_factor : spec_float) : result spec_float :=
  half_max ← int_mul_float (max_value self) (decimal 5 1);
  ratio ← int_div_float (value self) half_max;
  mret (f64_mul ratio size_factor).

Definition paintEvent (width height : Z) (self : t) : result (list paint_cmd) :=
  center_x ← int_truediv width 2;
  center_y ← int_truediv height 2;
  half ← int_truediv (Z.min width height) 2;
  let size_factor := f64_mul half (decimal 7 1) in
  length ← fill_length self size_factor;
  l4 ← tick_label self 4;
  l3 ← tick_label self 3;
  l2 ← tick_label self 2;
  l1 ← tick_label self 1;
  mret ([SetPen (Solid (RGB 150 150 150));
         SetPen (Gradient gaugeGrad)]
        ++ (if float_ge_int length 0 then [FillLine length] else [])
        ++ [SetPen (Solid (RGB 255 255 255));
            DrawText (Int (max_value self) "");
            DrawText (Int l4 "");
            DrawText (Int l3 "");
            DrawText (Int l2 "");
            DrawText (Int l1 "");
            DrawText (Int 0 "");
            SetPen (Solid Qt_green);
            SetPen (Solid (RGB 255 255 255));
            DrawText (Int (value self) "");
            SetPen (Solid (RGB 255 255 255));
            DrawText (Str "°C")]).

End Temp_Gauge.

Module Tachometer.

Record t := { value : Z; max_value : Z }.

Definition default_max_value : Z := 5000.

Definition __init__ (max_value : Z) : result t :=
  Ok {| value := 0; max_value := max_value |}.

Definition add_to_value (change : Z) : M t unit :=
  self ← get;
  v ← lift (py_mod (value self + change) (max_value self + 1));
  put {| value := v; max_value := max_value self |};;
  emit Update.

Definition update_value (new_value : Z) : M t unit :=
  self ← get;
  v ← lift (py_mod new_value (max_value self + 1));
  put {| value := v; max_value := max_value self |};;
  emit Update.

(** [int(self.max_value * k / 5)]: the product of the integers, divided
    by 5 as a float, then cut to its integer part. *)
Definition tick_label (self : t) (k : Z) : result Z :=
  q ← int_truediv (max_value self * k) 5;
  py_int q.

(** The stops set on [self.gaugeGrad], in the order of the calls:
    [setColorAt(0, Qt.green)], [setColorAt(0.8, Qt.yellow)],
    [setColorAt(1, Qt.red)]. *)
Definition gaugeGrad : gradient :=
  setColorAt (f64_of 1) Qt_red
    (setColorAt (decimal 8 1) Qt_yellow
       (setColorAt (f64_of 0) Qt_green [])).

(** [arc_value = -1 * ((self.value / (self.max_value*.5)) * 90)], in
    degrees. *)
Definition arc_value (self : t) : result spec_float :=
  half_max ← int_mul_float (max_value self) (decimal 5 1);
  ratio ← int_div_float (value self) half_max;
  scaled ← float_mul_int ratio 90;
  int_mul_float (-1) scaled.

(** The arc section of the fill: [drawArc] takes the start and the span in
    sixteenths of a degree. *)
Definition fill_arc (self : t) : result paint_cmd :=
  arc_value ← arc_value self;
  if float_lt_int arc_value (-90) then
    mret (FillArc (IntNum (180 * 16)) (IntNum (-90 * 16)))
  else
    span ← float_mul_int arc_value 16;
    mret (FillArc (IntNum (180 * 16)) (FloatNum span)).

(** The line section of the fill, drawn above half scale. *)
Definition fill_line (self : t) (size_factor : spec_float) : result (list paint_cmd) :=
  half_max ← int_mul_float (max_value self) (decimal 5 1);
  if int_gt_float (value self) half_max then
    half_max1 ← int_mul_float (max_value self) (decimal 5 1);
    above ← int_sub_float (value self) half_max1;
    half_max2 ← int_mul_float (max_value self) (decimal 5 1);
    ratio ← float_truediv above half_max2;
    mret [FillLine (f64_mul ratio size_factor)]
  else mret [].

Definition paintEvent (width height : Z) (self : t) : result (list paint_cmd) :=
  center_x ← int_truediv width 2;
  center_y ← int_truediv height 2;
  half ← int_truediv (Z.min width height) 2;
  let size_factor := f64_mul half (decimal 8 1) in
  arc ← fill_arc self;
  line ← fill_line self size_factor;
  l4 ← tick_label self 4;
  l3 ← tick_label self 3;
  l2 ← tick_label self 2;
  l1 ← tick_label self 1;
  mret ([SetPen (Solid (RGB 150 150 150));
         SetPen (Gradient gaugeGrad);
         arc]
        ++ line
        ++ [SetPen (Solid (RGB 255 255 255));
            DrawText (Int (max_value self) "");
            DrawText (Int l4 "");
            DrawText (Int l3 "");
            DrawText (Int l2 "");
            DrawText (Int l1 "");
            DrawText (Int 0 "");
            SetPen (Solid (RGB 255 255 255));
            DrawText (Int (value self) " RPM")]).

End Tachometer.

Module Fuel_Gauge.

Record t := { value : Z; max_value : Z }.

Definition default_max_value : Z := 100.

Definition __init__ (max_value : Z) : result t :=
  Ok {| value := 0; max_value := max_value |}.

Definition add_to_value (change : Z) : M t unit :=
  self ← get;
  v ← lift (py_mod (value self + change) (max_value self + 1));
  put {| value := v; max_value := max_value self |};;
  emit Update.

Definition update_value (new_value : Z) : M t unit :=
  self ← get;
  v ← lift (py_mod new_value (max_value self + 1));
  put {| value := v; max_value := max_value self |};;
  emit Update.

(** The pen of the value indicator, chosen from the value. *)
Definition indicator_pen (self : t) : result brush :=
  t4 ← int_mul_float (max_value self) (decimal 4 1);
  if int_ge_float (value self) t4 then mret (Solid (RGB 0 255 0))
  else
    t2 ← int_mul_float (max_value self) (decimal 2 1);
    if int_ge_float (value self) t2 then mret (Solid (RGB 255 255 0))
    else if decide (value self >= 0) then mret (Solid (RGB 255 0 0))
    else mret (Solid (RGB 255 0 255)).

(** [arc_value = ((self.value / (self.max_value)) * 200)], in degrees. *)
Definition arc_value (self : t) : result spec_float :=
  ratio ← int_truediv (value self) (max_value self);
  float_mul_int ratio 200.

Definition paintEvent (width height : Z) (self : t) : result (list paint_cmd) :=
  center_x ← int_truediv width 2;
  center_y ← int_truediv height 2;
  half ← int_truediv (Z.min width height) 2;
  let size_factor := f64_mul half (decimal 8 1) in
  pen ← indicator_pen self;
  arc_value ← arc_value self;
  span ← float_mul_int arc_value 16;
  mret [SetPen (Solid (RGB 150 150 150));
        SetPen pen;
        FillArc (IntNum (170 * 16)) (FloatNum span);
        SetPen (Solid (RGB 255 255 255));
        DrawText (Str "E");
        DrawText (Str "F");
        SetPen (Solid (RGB 255 255 255));
        DrawText (Int (value self) "%")].

End Fuel_Gauge.

Module Speedometer.

Record t := { value : Z; max_value : Z }.

Definition default_max_value : Z := 200.

Definition __init__ (max_value : Z) : result t :=
  Ok {| value := 0; max_value := max_value |}.

Definition add_to_value (change : Z) : M t unit :=
  self ← get;
  v ← lift (py_mod (value self + change) (max_value self + 1));
  put {| value := v; max_value := max_value self |};;
  emit Update.

Definition update_value (new_value : Z) : M t unit :=
  self ← get;
  v ← lift (py_mod new_value (max_value self + 1));
  put {| value := v; max_value := max_value self |};;
  emit Update.

(** The three branches on the number of digits differ in the position of
    the text only; each formats the value, of whatever size, with
    [f"{self.value}"]. *)
Definition paintEvent (width height : Z) (self : t) : result (list paint_cmd) :=
  center_x ← int_truediv width 2;
  center_y ← int_truediv height 2;
  size_factor ← int_truediv (Z.min width height) 2;
  shown ← format_int (value self) "";
  mret [SetPen (Solid (RGB 255 255 255));
        DrawText shown;
        DrawText (Str "MPH")].

End Speedometer.

(** A gauge widget is an instance of one of the four classes; a method call
    on it dispatches on the class. *)
Inductive gauge_class := Temp | Tach | Fuel | Speed.

Inductive gauge_widget :=
| TempW (g : Temp_Gauge.t)
| TachW (g : Tachometer.t)
| FuelW (g : Fuel_Gauge.t)
| SpeedW (g : Speedometer.t).

Definition class_of (w : gauge_widget) : gauge_class :=
  match w with
  | TempW _ => Temp
  | TachW _ => Tach
  | FuelW _ => Fuel
  | SpeedW _ => Speed
  end.

Definition widget_value (w : gauge_widget) : Z :=
  match w with
  | TempW g => Temp_Gauge.value g
  | TachW g => Tachometer.value g
  | FuelW g => Fuel_Gauge.value g
  | SpeedW g => Speedometer.value g
  end.

Definition widget_max_value (w : gauge_widget) : Z :=
  match w with
  | TempW g => Temp_Gauge.max_value g
  | TachW g => Tachometer.max_value g
  | FuelW g => Fuel_Gauge.max_value g
  | SpeedW g => Speedometer.max_value g
  end.

Definition widget_init (c : gauge_class) (max_value : Z) : result gauge_widget :=
  match c with
  | Temp => match Temp_Gauge.__init__ max_value with Ok g => Ok (TempW g) | Raise e => Raise e end
  | Tach => match Tachometer.__init__ max_value with Ok g => Ok (TachW g) | Raise e => Raise e end
  | Fuel => match Fuel_Gauge.__init__ max_value with Ok g => Ok (FuelW g) | Raise e => Raise e end
  | Speed => match Speedometer.__init__ max_value with Ok g => Ok (SpeedW g) | Raise e => Raise e end
  end.

Definition widget_add_to_value (change : Z) : M gauge_widget unit := fun w =>
  match w with
  | TempW g => zoom TempW (Temp_Gauge.add_to_value change) g
  | TachW g => zoom TachW (Tachometer.add_to_value change) g
  | FuelW g => zoom FuelW (Fuel_Gauge.add_to_value change) g
  | SpeedW g => zoom SpeedW (Speedometer.add_to_value change) g
  end.

Definition widget_update_value (new_value : Z) : M gauge_widget unit := fun w =>
  match w with
  | TempW g => zoom TempW (Temp_Gauge.update_value new_value) g
  | TachW g => zoom TachW (Tachometer.update_value new_value) g
  | FuelW g => zoom FuelW (Fuel_Gauge.update_value new_value) g
  | SpeedW g => zoom SpeedW (Speedometer.update_value new_value) g
  end.

Definition widget_paintEvent (width height : Z) (w : gauge_widget)
  : result (list paint_cmd) :=
  match w with
  | TempW g => Temp_Gauge.paintEvent width height g
  | TachW g => Tachometer.paintEvent width height g
  | FuelW g => Fuel_Gauge.paintEvent width height g
  | SpeedW g => Speedometer.paintEvent width height g
  end.

(** The widget of class [c] holding [value] and [max_value]. *)
Definition widget_of (c : gauge_class) (value max_value : Z) : gauge_widget :=
  match c with
  | Temp => TempW {| Temp_Gauge.value := value; Temp_Gauge.max_value := max_value |}
  | Tach => TachW {| Tachometer.value := value; Tachometer.max_value := max_value |}
  | Fuel => FuelW {| Fuel_Gauge.value := value; Fuel_Gauge.max_value := max_value |}
  | Speed => SpeedW {| Speedometer.value := value; Speedometer.max_value := max_value |}
  end.

(** The label drawn for the fraction [k/5] of [max_value] is [n]: the
    float quotient of [max_value * k] by 5, cut to its integer part. *)
Definition label_of (max_value k n : Z) : Prop :=
  exists q, int_truediv (max_value * k) 5 = Ok q /\ py_int q = Ok n /\ truncation_of q n.

(** The fill of every paint of class [c] uses one pen, whatever the value
    between 0 and the maximum.  The width and height are those of a Qt
    widget, C integers that are not negative. *)
Definition fill_pen_fixed (c : gauge_class) : Prop :=
  forall (width height max_value v1 v2 : Z) (cmds1 cmds2 : list paint_cmd),
    0 <= width < 2 ^ 31 -> 0 <= height < 2 ^ 31 ->
    0 <= v1 <= max_value -> 0 <= v2 <= max_value ->
    widget_paintEvent width height (widget_of c v1 max_value) = Ok cmds1 ->
    widget_paintEvent width height (widget_of c v2 max_value) = Ok cmds2 ->
    fill_pen cmds1 = fill_pen cmds2.

(** [add_to_value] called once for each element of [changes], in order. *)
Fixpoint add_all (changes : list Z) : M gauge_widget unit :=
  match changes with
  | [] => mret tt
  | c :: cs => widget_add_to_value c;; add_all cs
  end.

Definition sum_changes (changes : list Z) : Z := foldr Z.add 0 changes.

(** The invariant of the data model: the value lies between 0 and the
    maximum. *)
Definition in_range (w : gauge_widget) : Prop :=
  0 <= widget_value w <= widget_max_value w.


(** ** Panels and menus: the painter as an object

    The panel of [Variable_Section] and the [Menu] draw rectangles and
    texts placed in rectangles.  For them the painter is the list of the
    calls made on it so far, each call with its arguments: a draw method is
    a method of the painter. *)

(** [x / n] on a float and an integer. *)
Definition float_div_int (x : spec_float) (n : Z) : result spec_float :=
  y ← float_of_int n; float_truediv x y.

(** [l[i]] for any integer index: a negative index counts from the end. *)
Definition py_getitem {A} (l : list A) (i : Z) : result A :=
  if decide (0 <= i) then getitem l (Z.to_nat i)
  else if decide (- Z.of_nat (length l) <= i) then getitem l (Z.to_nat (Z.of_nat (length l) + i))
  else Raise IndexError.

Record rect := QRect { rect_x : num; rect_y : num; rect_width : num; rect_height : num }.

Inductive text_flags :=
| AlignCenter
| TextWordWrap_AlignLeft_AlignTop.

(** [setPen(QPen(color))] and [setPen(QPen(color, width))],
    [setFont(QFont(family, size))] and [setFont(QFont(family, size,
    QFont.Bold))], [fillRect(rect, QBrush(color))], [drawRect(rect)] and
    [drawText] with a rectangle, flags and a text. *)
Inductive canvas_cmd :=
| setPen (c : color) (width : option num)
| setFont (family : string) (size : spec_float) (bold : bool)
| fillRect (r : rect) (c : color)
| drawRect (r : rect)
| drawText (r : rect) (flags : text_flags) (t : text).

Definition painter := list canvas_cmd.

(** A call on the painter. *)
Definition paint (c : canvas_cmd) : M painter unit := modify (fun p => p ++ [c]).

(** Readers of a painter: the texts with their rectangles, and the
    rectangles outlined by [drawRect]. *)
Definition placed_texts (p : painter) : list (rect * text) :=
  omap (fun c => match c with drawText r _ t => Some (r, t) | _ => None end) p.

Definition outlined (p : painter) : list rect :=
  omap (fun c => match c with drawRect r => Some r | _ => None end) p.
(** ** Variable_Section: the two-step panel

    The fields written by [__init__] and [change_widget] and read by
    [update_two_step] and [move_two_step].  The phase and the cursor are
    Python strings, as in the source; [widget_types] is never read and is
    left out. *)

Module Variable_Section.

Record t := {
  current_widget : string;
  new_two_step_bounds : list Z;
  two_step_digit_list : list string;
  selected_two_step_digit : string;
  two_step_bound : string;
  two_step_current_digit_values : list Z;
  two_step_value_up : bool;
  two_step_bad_input : bool
}.

Definition set_current_widget (x : string) (s : t) : t :=
  {| current_widget := x;
     new_two_step_bounds := new_two_step_bounds s;
     two_step_digit_list := two_step_digit_list s;
     selected_two_step_digit := selected_two_step_digit s;
     two_step_bound := two_step_bound s;
     two_step_current_digit_values := two_step_current_digit_values s;
     two_step_value_up := two_step_value_up s;
     two_step_bad_input := two_step_bad_input s |}.

Definition set_new_two_step_bounds (x : list Z) (s : t) : t :=
  {| current_widget := current_widget s;
     new_two_step_bounds := x;
     two_step_digit_list := two_step_digit_list s;
     selected_two_step_digit := selected_two_step_digit s;
     two_step_bound := two_step_bound s;
     two_step_current_digit_values := two_step_current_digit_values s;
     two_step_value_up := two_step_value_up s;
     two_step_bad_input := two_step_bad_input s |}.

Definition set_selected_two_step_digit (x : string) (s : t) : t :=
  {| current_widget := current_widget s;
     new_two_step_bounds := new_two_step_bounds s;
     two_step_digit_list := two_step_digit_list s;
     selected_two_step_digit := x;
     two_step_bound := two_step_bound s;
     two_step_current_digit_values := two_step_current_digit_values s;
     two_step_value_up := two_step_value_up s;
     two_step_bad_input := two_step_bad_input s |}.

Definition set_two_step_bound (x : string) (s : t) : t :=
  {| current_widget := current_widget s;
     new_two_step_bounds := new_two_step_bounds s;
     two_step_digit_list := two_step_digit_list s;
     selected_two_step_digit := selected_two_step_digit s;
     two_step_bound := x;
     two_step_current_digit_values := two_step_current_digit_values s;
     two_step_value_up := two_step_value_up s;
     two_step_bad_input := two_step_bad_input s |}.

Definition set_two_step_current_digit_values (x : list Z) (s : t) : t :=
  {| current_widget := current_widget s;
     new_two_step_bounds := new_two_step_bounds s;
     two_step_digit_list := two_step_digit_list s;
     selected_two_step_digit := selected_two_step_digit s;
     two_step_bound := two_step_bound s;
     two_step_current_digit_values := x;
     two_step_value_up := two_step_value_up s;
     two_step_bad_input := two_step_bad_input s |}.

Definition set_two_step_value_up (x : bool) (s : t) : t :=
  {| current_widget := current_widget s;
     new_two_step_bounds := new_two_step_bounds s;
     two_step_digit_list := two_step_digit_list s;
     selected_two_step_digit := selected_two_step_digit s;
     two_step_bound := two_step_bound s;
     two_step_current_digit_values := two_step_current_digit_values s;
     two_step_value_up := x;
     two_step_bad_input := two_step_bad_input s |}.

Definition set_two_step_bad_input (x : bool) (s : t) : t :=
  {| current_widget := current_widget s;
     new_two_step_bounds := new_two_step_bounds s;
     two_step_digit_list := two_step_digit_list s;
     selected_two_step_digit := selected_two_step_digit s;
     two_step_bound := two_step_bound s;
     two_step_current_digit_values := two_step_current_digit_values s;
     two_step_value_up := two_step_value_up s;
     two_step_bad_input := x |}.

Definition digit_names : list string :=
  ["first_digit"; "second_digit"; "third_digit"; "forth_digit"; "rmp_digit"].

(** The object [__init__] builds. *)
Definition initial : t :=
  {| current_widget := "Startup";
     new_two_step_bounds := [0; 0];
     two_step_digit_list := digit_names;
     selected_two_step_digit := "first_digit";
     two_step_bound := "Upper";
     two_step_current_digit_values := [0; 0; 0; 0];
     two_step_value_up := true;
     two_step_bad_input := false |}.

Definition __init__ : result t := Ok initial.

Definition change_widget (new_widget : string) : M t unit :=
  modify (set_current_widget new_widget);;
  (if decide (new_widget = "Two-Step") then
     modify (set_new_two_step_bounds [0; 0]);;
     modify (set_selected_two_step_digit "first_digit");;
     modify (set_two_step_bound "Upper");;
     modify (set_two_step_current_digit_values [0; 0; 0; 0]);;
     modify (set_two_step_value_up true);;
     modify (set_two_step_bad_input false)
   else mret tt);;
  emit Update.

(** [self.two_step_current_digit_values[i] =
     (self.two_step_current_digit_values[i] + value) % 10] *)
Definition bump_digit (i : nat) (value : Z) : M t unit :=
  self ← get;
  d ← lift (getitem (two_step_current_digit_values self) i);
  v ← lift (py_mod (d + value) 10);
  ds ← lift (setitem (two_step_current_digit_values self) i v);
  modify (set_two_step_current_digit_values ds).

Definition update_two_step (value : Z) : M t unit :=
  self ← get;
  (if decide (selected_two_step_digit self = "first_digit") then bump_digit 0 value
   else if decide (selected_two_step_digit self = "second_digit") then bump_digit 1 value
   else if decide (selected_two_step_digit self = "third_digit") then bump_digit 2 value
   else if decide (selected_two_step_digit self = "forth_digit") then bump_digit 3 value
   else if decide (selected_two_step_digit self = "rmp_digit") then mret tt
   else emit (Print "BAD INDEX ON 2 STEP SELECTOR"));;
  emit Update.

(** [digits[0]*1000 + digits[1]*100 + digits[2]*10 + digits[3]] *)
Definition digits_number (digits : list Z) : result Z :=
  match getitem digits 0 with
  | Raise e => Raise e
  | Ok d0 =>
  match getitem digits 1 with
  | Raise e => Raise e
  | Ok d1 =>
  match getitem digits 2 with
  | Raise e => Raise e
  | Ok d2 =>
  match getitem digits 3 with
  | Raise e => Raise e
  | Ok d3 => Ok (d0 * 1000 + d1 * 100 + d2 * 10 + d3)
  end end end end.

Definition move_two_step : M t unit :=
  self ← get;
  (if decide (selected_two_step_digit self = "rmp_digit") then
     if decide (two_step_bound self = "Upper") then
       n ← lift (digits_number (two_step_current_digit_values self));
       bounds ← lift (setitem (new_two_step_bounds self) 0%nat n);
       modify (set_new_two_step_bounds bounds);;
       modify (set_two_step_bound "Lower");;
       modify (set_two_step_current_digit_values [0; 0; 0; 0]);;
       modify (set_selected_two_step_digit "first_digit")
     else if decide (two_step_bound self = "Lower") then
       n ← lift (digits_number (two_step_current_digit_values self));
       bounds ← lift (setitem (new_two_step_bounds self) 1%nat n);
       modify (set_new_two_step_bounds bounds);;
       lower ← lift (getitem bounds 1%nat);
       upper ← lift (getitem bounds 0%nat);
       if decide (lower >= upper) then
         modify (set_two_step_bad_input true)
       else
         change_widget "Competition";;
         self' ← get;
         emit (PrintBounds "TWO STEP BOUNDS ARE: " (new_two_step_bounds self'))
     else emit (Print "ERROR BAD self.two_step_bound")
   else
     i ← lift (py_index (selected_two_step_digit self) (two_step_digit_list self));
     next ← lift (getitem (two_step_digit_list self) (i + 1)%nat);
     modify (set_selected_two_step_digit next));;
  emit Update.

(** Readers of the session: the digit at a position, the number the four
    digits spell, and the two stored bounds. *)
Definition digit (s : t) (i : nat) : Z :=
  default 0 (two_step_current_digit_values s !! i).

Definition entered_number (s : t) : Z :=
  digit s 0 * 1000 + digit s 1 * 100 + digit s 2 * 10 + digit s 3.

Definition captured_upper (s : t) : Z := default 0 (new_two_step_bounds s !! 0%nat).
Definition captured_lower (s : t) : Z := default 0 (new_two_step_bounds s !! 1%nat).

(** The calls a user of the panel can make. *)
Inductive op :=
| AdjustDigit (value : Z)
| Advance
| ChangeWidget (new_widget : string).

Definition run_op (o : op) : M t unit :=
  match o with
  | AdjustDigit value => update_two_step value
  | Advance => move_two_step
  | ChangeWidget new_widget => change_widget new_widget
  end.

Fixpoint run_ops (os : list op) : M t unit :=
  match os with
  | [] => mret tt
  | o :: os' => run_op o;; run_ops os'
  end.

(** [update_two_step] called [n] times with the same argument. *)
Fixpoint repeat_update (n : nat) (value : Z) : M t unit :=
  match n with
  | O => mret tt
  | S n' => update_two_step value;; repeat_update n' value
  end.

(** Digit adjustment and cursor movement, the two calls open to the user
    while the panel stays on screen. *)
Definition entry_op (o : op) : Prop :=
  match o with
  | AdjustDigit _ | Advance => True
  | ChangeWidget _ => False
  end.

(** Any call except re-entering the mode. *)
Definition no_reset (o : op) : Prop :=
  match o with
  | ChangeWidget new_widget => new_widget <> "Two-Step"
  | _ => True
  end.

(** The lines printed by a run, without the redraw requests. *)
Definition is_print (e : event) : bool :=
  match e with
  | Update => false
  | Print _ | PrintBounds _ _ => true
  end.

Definition printed (log : list event) : list event := List.filter is_print log.

(** A run commits the pair [(upper, lower)]: it returns, the one line it
    prints is the pair, and the panel has left the two-step screen. *)
Definition commits (out : result (unit * t * list event)) (upper lower : Z) : Prop :=
  exists s' log,
    out = Ok (tt, s', log) /\
    printed log = [PrintBounds "TWO STEP BOUNDS ARE: " [upper; lower]] /\
    current_widget s' = "Competition".

(** The key presses of the commit example: open the panel, enter the digits
    0,1,0,0 and confirm, enter the digits 0,0,5,0 and confirm. *)
Definition commit_example : list op :=
  [ChangeWidget "Two-Step";
   Advance; AdjustDigit 1; Advance; Advance; Advance; Advance;
   Advance; Advance;
   AdjustDigit 1; AdjustDigit 1; AdjustDigit 1; AdjustDigit 1; AdjustDigit 1;
   Advance; Advance; Advance].

(** The object [__init__] and [change_widget] build and the methods keep:
    four decimal digits, two bounds, the cursor on one of the five
    positions, the phase one of the two names. *)
Record session (s : t) : Prop := {
  session_names : two_step_digit_list s = digit_names;
  session_cursor : selected_two_step_digit s ∈ digit_names;
  session_phase : two_step_bound s = "Upper" \/ two_step_bound s = "Lower";
  session_digits : length (two_step_current_digit_values s) = 4%nat;
  session_digit_range : Forall (fun d => 0 <= d <= 9) (two_step_current_digit_values s);
  session_bounds : length (new_two_step_bounds s) = 2%nat
}.

(** *** Painting the panel

    [self.size_factor], the attribute [paintEvent] assigns and the draw
    methods read, is handed to the draw methods as an argument and returned
    by [paintEvent]; [width] and [height] are what Qt reports for the
    widget. *)

Definition startup_string : string :=
"HID Control Manual: 
    The center button will pull up a menu in the bottom of the dash that can be navigated using the left and right buttons. 
    When the option you want is in the center slot of the 3 shown press the middle/select button to change the variable section (this one).
    For the Two-step controls use the top and bottom buttons to increment or decrement the highlighted digit and use left and right to select another digit.
    After the values are set correctly press the middle button to set the values and ... (Return to competition widget?)
        
Switch Control Manual:
    Open: Green
    Semi: Blue
    Locked: Red
".

Definition error_string : string := "ERROR WITH VARIABLE WIDGET. PLEASE HELP! :(".

Definition draw_Startup (width height : Z) (size_factor : spec_float) : M painter unit :=
  paint (setPen (RGB 255 255 255) None);;
  size ← lift (float_div_int size_factor 13);
  paint (setFont "Sans Sariff" size true);;
  paint (drawText (QRect (IntNum 0) (IntNum 0) (IntNum width) (IntNum height))
           TextWordWrap_AlignLeft_AlignTop (Str startup_string)).

Definition draw_Competition : M painter unit := mret tt.

Definition draw_Rear_Steer : M painter unit := mret tt.

Definition draw_Lap_Time : M painter unit := mret tt.

Definition draw_Error (width height : Z) (size_factor : spec_float) : M painter unit :=
  paint (setPen (RGB 255 255 255) None);;
  size ← lift (float_div_int size_factor 12);
  paint (setFont "Sans Sariff" size true);;
  paint (drawText (QRect (IntNum 0) (IntNum 0) (IntNum width) (IntNum height))
           TextWordWrap_AlignLeft_AlignTop (Str error_string)).

(** [QRect(x, self.size_factor*.5, self.width()/5,
    self.height()-self.size_factor*.5)]: the column of a digit, below the
    title. *)
Definition digit_rect (x : num) (width height : Z) (size_factor : spec_float)
  : result rect :=
  w ← int_truediv width 5;
  h ← int_sub_float height (f64_mul size_factor (decimal 5 1));
  mret (QRect x (FloatNum (f64_mul size_factor (decimal 5 1))) (FloatNum w) (FloatNum h)).

(** [QRect(0, 0, self.width(), self.size_factor*.5)]: the title bar. *)
Definition title_rect (width : Z) (size_factor : spec_float) : rect :=
  QRect (IntNum 0) (IntNum 0) (IntNum width) (FloatNum (f64_mul size_factor (decimal 5 1))).

Definition draw_Two_Step (width height : Z) (size_factor : spec_float) (self : t)
  : M painter unit :=
  paint (setPen (RGB 255 255 255) (Some (IntNum 15)));;
  paint (fillRect (QRect (IntNum 0) (IntNum 0) (IntNum width) (IntNum height))
           (RGB 200 200 200));;
  h ← lift (int_sub_float height (f64_mul size_factor (decimal 5 1)));
  paint (fillRect (QRect (IntNum 0) (FloatNum (f64_mul size_factor (decimal 5 1)))
                     (IntNum width) (FloatNum h))
           (RGB 255 255 255));;
  paint (setPen (RGB 0 0 0) (Some (IntNum 15)));;
  (if two_step_bad_input self then
     paint (setFont "Sans Sariff" (f64_mul size_factor (decimal 1 1)) true);;
     paint (drawText (title_rect width size_factor) AlignCenter
              (Str "BAD BOUNDS REOPEN FROM MENU"))
   else
     paint (setFont "Sans Sariff" (f64_mul size_factor (decimal 15 2)) true);;
     if decide (two_step_bound self = "Upper") then
       paint (drawText (title_rect width size_factor) AlignCenter
                (Str "Upper 2-Step Bound"))
     else if decide (two_step_bound self = "Lower") then
       paint (drawText (title_rect width size_factor) AlignCenter
                (Str "Lower 2-Step Bound"))
     else emit (Print "ERROR BAD 2 Step Bound"));;
  first_digit_rect ← lift (digit_rect (IntNum 0) width height size_factor);
  x ← lift (int_truediv width 5);
  second_digit_rect ← lift (digit_rect (FloatNum x) width height size_factor);
  x ← lift (w ← int_truediv width 5; float_mul_int w 2);
  third_digit_rect ← lift (digit_rect (FloatNum x) width height size_factor);
  x ← lift (w ← int_truediv width 5; float_mul_int w 3);
  forth_digit_rect ← lift (digit_rect (FloatNum x) width height size_factor);
  x ← lift (w ← int_truediv width 5; float_mul_int w 4);
  rmp_digit_rect ← lift (digit_rect (FloatNum x) width height size_factor);
  paint (setPen (RGB 0 0 0) (Some (IntNum 15)));;
  paint (setFont "Baja" (f64_mul size_factor (decimal 2 1)) true);;
  paint (drawText rmp_digit_rect AlignCenter (Str "RPM"));;
  paint (setPen (RGB 0 0 0) (Some (FloatNum (f64_mul size_factor (decimal 5 2)))));;
  (if decide (selected_two_step_digit self = "first_digit") then
     paint (drawRect first_digit_rect)
   else if decide (selected_two_step_digit self = "second_digit") then
     paint (drawRect second_digit_rect)
   else if decide (selected_two_step_digit self = "third_digit") then
     paint (drawRect third_digit_rect)
   else if decide (selected_two_step_digit self = "forth_digit") then
     paint (drawRect forth_digit_rect)
   else if decide (selected_two_step_digit self = "rmp_digit") then
     paint (drawRect rmp_digit_rect)
   else emit (Print "BAD INDEX ON 2 STEP SELECTOR"));;
  paint (setFont "Baja" (f64_mul size_factor (decimal 4 1)) true);;
  d ← lift (getitem (two_step_current_digit_values self) 0);
  paint (drawText first_digit_rect AlignCenter (Int d ""));;
  d ← lift (getitem (two_step_current_digit_values self) 1);
  paint (drawText second_digit_rect AlignCenter (Int d ""));;
  d ← lift (getitem (two_step_current_digit_values self) 2);
  paint (drawText third_digit_rect AlignCenter (Int d ""));;
  d ← lift (getitem (two_step_current_digit_values self) 3);
  paint (drawText forth_digit_rect AlignCenter (Int d "")).

(** The paint event: a new painter, the size factor, then the draw method
    of the current widget.  It returns the size factor it has stored, the
    painter and what it has printed. *)
Definition paintEvent (width height : Z) (self : t)
  : result (spec_float * painter * list event) :=
  center_x ← int_truediv width 2;
  center_y ← int_truediv height 2;
  half ← int_truediv (Z.min width height) 2;
  let size_factor := f64_mul half (decimal 8 1) in
  match
    (if decide (current_widget self = "Startup") then
       draw_Startup width height size_factor
     else if decide (current_widget self = "Competition") then mret tt
     else if decide (current_widget self = "Rear Steer") then mret tt
     else if decide (current_widget self = "Two-Step") then
       draw_Two_Step width height size_factor self
     else if decide (current_widget self = "Lap Time") then mret tt
     else draw_Error width height size_factor) []
  with
  | Ok (_, p, log) => Ok (size_factor, p, log)
  | Raise e => Raise e
  end.

(** The names [__init__] lists in [widget_types]. *)
Definition widget_types : list string :=
  ["Startup"; "Competition"; "Rear Steer"; "Two-Step"; "Lap Time"].

End Variable_Section.

(** ** Menu: the mode bar

    The menu holds the list of mode names it is given, the length the list
    had at construction and the name of the selected mode, which starts as
    ["Startup"] whatever the list holds. *)

Module Menu.

Record t := { modes : list string; num_of_modes : Z; state : string }.

Definition default_modes : list string := [].

Definition __init__ (modes : list string) : result t :=
  Ok {| modes := modes; num_of_modes := Z.of_nat (length modes); state := "Startup" |}.

Definition set_state (x : string) (self : t) : t :=
  {| modes := modes self; num_of_modes := num_of_modes self; state := x |}.

Definition update_value (move_value : Z) : M t unit :=
  self ← get;
  i ← lift (py_index (state self) (modes self));
  (if decide (Z.of_nat i + move_value < num_of_modes self) then
     j ← lift (py_index (state self) (modes self));
     x ← lift (py_getitem (modes self) (Z.of_nat j + move_value));
     modify (set_state x)
   else
     x ← lift (py_getitem (modes self) 0);
     modify (set_state x));;
  emit Update.

(** [14/15*height] *)
Definition bar_top (height : Z) : result spec_float :=
  f ← int_truediv 14 15; float_mul_int f height.

(** The three slots of the bar: [QRect(x, 14/15*height, width/3,
    height/15)]. *)
Definition item_rect (x : num) (width height : Z) : result rect :=
  y ← bar_top height;
  w ← int_truediv width 3;
  h ← int_truediv height 15;
  mret (QRect x (FloatNum y) (FloatNum w) (FloatNum h)).

Definition draw (width height : Z) (self : t) : M painter unit :=
  paint (setPen (RGB 0 0 0) (Some (IntNum 10)));;
  center_x ← lift (int_truediv width 2);
  center_y ← lift (y ← bar_top height; float_div_int y 2);
  half ← lift (int_truediv (Z.min width height) 2);
  let size_factor := f64_mul half (decimal 8 1) in
  menu_background ← lift (y ← bar_top height;
                          h ← int_truediv height 15;
                          mret (QRect (IntNum 0) (FloatNum y) (IntNum width) (FloatNum h)));
  paint (fillRect menu_background (RGB 255 255 255));;
  left_item ← lift (item_rect (IntNum 0) width height);
  x ← lift (int_truediv width 3);
  selected_item ← lift (item_rect (FloatNum x) width height);
  x ← lift (int_truediv (width * 2) 3);
  right_item ← lift (item_rect (FloatNum x) width height);
  size ← lift (float_div_int size_factor 10);
  paint (setFont "Sans Sariff" size true);;
  paint (drawText selected_item AlignCenter (Str (state self)));;
  i ← lift (py_index (state self) (modes self));
  x ← lift (py_getitem (modes self) (Z.of_nat i - 1));
  paint (drawText left_item AlignCenter (Str x));;
  i ← lift (py_index (state self) (modes self));
  if decide (Z.of_nat i + 1 < num_of_modes self) then
    j ← lift (py_index (state self) (modes self));
    x ← lift (py_getitem (modes self) (Z.of_nat j + 1));
    paint (drawText right_item AlignCenter (Str x))
  else
    x ← lift (py_getitem (modes self) 0);
    paint (drawText right_item AlignCenter (Str x)).

Definition paintEvent (width height : Z) (self : t)
  : result (unit * painter * list event) :=
  draw width height self [].

(** [update_value] called once for each element of [moves], in order. *)
Fixpoint update_all (moves : list Z) : M t unit :=
  match moves with
  | [] => mret tt
  | m :: ms => update_value m;; update_all ms
  end.

(** A menu as [__init__] and [update_value] leave it: the stored length is
    the length of the list. *)
Definition well_formed (self : t) : Prop :=
  num_of_modes self = Z.of_nat (length (modes self)).

(** The mode at position [i], counted cyclically. *)
Definition mode_at (self : t) (i : Z) : option string :=
  modes self !! Z.to_nat (i mod Z.of_nat (length (modes self))).

End Menu.

(** ** Rotating_Image: the image that changes on a timer

    The widget holds the list of paths, the length the list had at
    construction, a counter and a label.  The label shows a pixmap, built
    from a path by [QPixmap(path)] or from another pixmap by [scaled]. *)

Module Rotating_Image.

Inductive pixmap :=
| QPixmap (path : string)
| scaled (p : pixmap) (size : Z * Z).

(** The label: its geometry [(x, y, width, height)], the pixmap set on it
    if any, and the scaled-contents flag. *)
Record QLabel := {
  geometry : Z * Z * Z * Z;
  pixmap_of : option pixmap;
  scaledContents : bool
}.

Record t := {
  png_paths : list string;
  num_of_paths : Z;
  current_path : Z;
  timer_interval : Z;
  label : QLabel
}.

Definition default_png_paths : list string := [].

Definition set_current_path (x : Z) (self : t) : t :=
  {| png_paths := png_paths self;
     num_of_paths := num_of_paths self;
     current_path := x;
     timer_interval := timer_interval self;
     label := label self |}.

Definition set_label (x : QLabel) (self : t) : t :=
  {| png_paths := png_paths self;
     num_of_paths := num_of_paths self;
     current_path := current_path self;
     timer_interval := timer_interval self;
     label := x |}.

Definition setGeometry (g : Z * Z * Z * Z) (l : QLabel) : QLabel :=
  {| geometry := g; pixmap_of := pixmap_of l; scaledContents := scaledContents l |}.

Definition setPixmap (p : option pixmap) (l : QLabel) : QLabel :=
  {| geometry := geometry l; pixmap_of := p; scaledContents := scaledContents l |}.

Definition setScaledContents (b : bool) (l : QLabel) : QLabel :=
  {| geometry := geometry l; pixmap_of := pixmap_of l; scaledContents := b |}.

(** [label.size()] *)
Definition size (l : QLabel) : Z * Z :=
  match geometry l with (_, _, w, h) => (w, h) end.

(** A path counts as true when it is not the empty string. *)
Definition path_bool (path : string) : bool := bool_decide (path <> "").

Section Qt.

(** Whether Python takes what [label.pixmap()] returns as true is for the
    Qt binding to say (a null pixmap may count as false). *)
Variable pixmap_bool : option pixmap -> bool.

(** [if self.label.pixmap():
       self.label.setPixmap(self.label.pixmap().scaled(self.label.size(), ...))] *)
Definition rescale (l : QLabel) : QLabel :=
  if pixmap_bool (pixmap_of l) then
    setPixmap (option_map (fun p => scaled p (size l)) (pixmap_of l)) l
  else l.

Definition __init__ (png_paths : list string) (height width image_time : Z) : result t :=
  let label := {| geometry := (0, 0, width, height);
                  pixmap_of := None;
                  scaledContents := false |} in
  let self := {| png_paths := png_paths;
                 num_of_paths := Z.of_nat (length png_paths);
                 current_path := 0;
                 timer_interval := image_time;
                 label := label |} in
  first ← py_getitem png_paths 0;
  if path_bool first then
    path ← py_getitem png_paths 0;
    mret (set_label (setScaledContents true (setPixmap (Some (QPixmap path)) label)) self)
  else mret self.

Definition resizeEvent (width height : Z) : M t unit :=
  modify (fun self => set_label (setGeometry (0, 0, width, height) (label self)) self);;
  modify (fun self => set_label (rescale (label self)) self).

Definition change_image : M t unit :=
  self ← get;
  next_image ← lift (py_mod (current_path self + 1) (num_of_paths self));
  new_pixmap ← lift (py_getitem (png_paths self) next_image);
  modify (set_current_path (current_path self + 1));;
  p ← lift (py_getitem (png_paths self) next_image);
  (if path_bool p then
     path ← lift (py_getitem (png_paths self) next_image);
     modify (fun self =>
       set_label (setScaledContents true (setPixmap (Some (QPixmap path)) (label self))) self)
   else mret tt);;
  modify (fun self => set_label (rescale (label self)) self).

(** What Qt calls on the widget: the timer's timeout and a resize. *)
Inductive call :=
| Timeout
| Resize (width height : Z).

Definition run_call (c : call) : M t unit :=
  match c with
  | Timeout => change_image
  | Resize width height => resizeEvent width height
  end.

Fixpoint run_calls (cs : list call) : M t unit :=
  match cs with
  | [] => mret tt
  | c :: cs' => run_call c;; run_calls cs'
  end.

End Qt.

(** The path a pixmap was loaded from, and the path of the image the
    widget shows. *)
Fixpoint source (p : pixmap) : string :=
  match p with
  | QPixmap path => path
  | scaled p' _ => source p'
  end.

Definition shown (self : t) : option string := option_map source (pixmap_of (label self)).

(** The number of timeouts among the calls. *)
Fixpoint timeouts (cs : list call) : Z :=
  match cs with
  | [] => 0
  | Timeout :: cs' => 1 + timeouts cs'
  | Resize _ _ :: cs' => timeouts cs'
  end.

(** The widget after [k] timeouts on the list [paths]: the counter is [k],
    the image shown is the one at position [k] modulo the length. *)
Definition after_timeouts (paths : list string) (k : Z) (self : t) : Prop :=
  png_paths self = paths /\
  num_of_paths self = Z.of_nat (length paths) /\
  current_path self = k /\
  shown self = paths !! Z.to_nat (k mod Z.of_nat (length paths)).

End Rotating_Image.

(** ** Runs of the two-step panel *)

(** The key presses that enter one digit: the adjustments of the digit
    under the cursor, then the advance to the next position.  From 0 the
    digit they leave is the sum of the adjustments modulo 10. *)
Definition enter_digit (presses : list Z) : list Variable_Section.op :=
  map Variable_Section.AdjustDigit presses ++ [Variable_Section.Advance].

Definition digit_entered (presses : list Z) : Z := foldr Z.add 0 presses mod 10.

(** Entering the four digits of a number and confirming it. *)
Definition enter_number (p0 p1 p2 p3 : list Z) : list Variable_Section.op :=
  enter_digit p0 ++ enter_digit p1 ++ enter_digit p2 ++ enter_digit p3
  ++ [Variable_Section.Advance].

Definition number_entered (p0 p1 p2 p3 : list Z) : Z :=
  digit_entered p0 * 1000 + digit_entered p1 * 100 + digit_entered p2 * 10
  + digit_entered p3.

(** A printed line that hands over a pair of bounds in order, both of at
    most four digits. *)
Definition valid_bounds_line (e : event) : Prop :=
  exists upper lower,
    e = PrintBounds "TWO STEP BOUNDS ARE: " [upper; lower] /\
    0 <= lower /\ lower < upper /\ upper <= 9999.

(** The panel during an entry: the fields the entry reads and writes, with
    the list of positions and the unused flag [two_step_value_up] as
    [__init__] sets them. *)
Definition entering (widget : string) (bounds : list Z) (cursor phase : string)
    (digits : list Z) (bad : bool) : Variable_Section.t :=
  {| Variable_Section.current_widget := widget;
     Variable_Section.new_two_step_bounds := bounds;
     Variable_Section.two_step_digit_list := Variable_Section.digit_names;
     Variable_Section.selected_two_step_digit := cursor;
     Variable_Section.two_step_bound := phase;
     Variable_Section.two_step_current_digit_values := digits;
     Variable_Section.two_step_value_up := true;
     Variable_Section.two_step_bad_input := bad |}.

(** ** The two-step screen *)

(** The title the two-step screen shows for a session. *)
Definition two_step_title (self : Variable_Section.t) : string :=
  if Variable_Section.two_step_bad_input self then "BAD BOUNDS REOPEN FROM MENU"
  else if decide (Variable_Section.two_step_bound self = "Upper") then "Upper 2-Step Bound"
  else "Lower 2-Step Bound".

(** The five columns of the two-step screen, left to right: the four
    digits and the RPM label, which is the Confirm position. *)
Definition digit_columns (width height : Z) (size_factor : spec_float)
  : result (list rect) :=
  first_digit_rect ← Variable_Section.digit_rect (IntNum 0) width height size_factor;
  x ← int_truediv width 5;
  second_digit_rect ← Variable_Section.digit_rect (FloatNum x) width height size_factor;
  x ← (w ← int_truediv width 5; float_mul_int w 2);
  third_digit_rect ← Variable_Section.digit_rect (FloatNum x) width height size_factor;
  x ← (w ← int_truediv width 5; float_mul_int w 3);
  forth_digit_rect ← Variable_Section.digit_rect (FloatNum x) width height size_factor;
  x ← (w ← int_truediv width 5; float_mul_int w 4);
  rmp_digit_rect ← Variable_Section.digit_rect (FloatNum x) width height size_factor;
  mret [first_digit_rect; second_digit_rect; third_digit_rect; forth_digit_rect;
        rmp_digit_rect].

(** * Properties *)

(** ** Gauge values wrap *)

Lemma py_mod_pos (a b : Z) : 0 < b -> py_mod a b = Ok (a mod b).
Proof. intros Hb. unfold py_mod. destruct (decide (b = 0)); [lia | reflexivity]. Qed.

Lemma widget_add_to_value_eq (change : Z) (w : gauge_widget) :
  0 < widget_max_value w ->
  exists w',
    widget_add_to_value change w = Ok (tt, w', [Update]) /\
    class_of w' = class_of w /\
    widget_max_value w' = widget_max_value w /\
    widget_value w' = (widget_value w + change) mod (widget_max_value w + 1).
Proof.
  intros Hm.
  destruct w as [[v m]|[v m]|[v m]|[v m]]; simpl in Hm;
    eexists; (split; [|split; [|split]]);
    try (cbv [widget_add_to_value zoom Temp_Gauge.add_to_value
              Tachometer.add_to_value Fuel_Gauge.add_to_value
              Speedometer.add_to_value mbind M_bind get put emit lift];
         simpl; rewrite py_mod_pos by lia; simpl; reflexivity);
    reflexivity.
Qed.

Lemma widget_update_value_eq (new_value : Z) (w : gauge_widget) :
  0 < widget_max_value w ->
  exists w',
    widget_update_value new_value w = Ok (tt, w', [Update]) /\
    class_of w' = class_of w /\
    widget_max_value w' = widget_max_value w /\
    widget_value w' = new_value mod (widget_max_value w + 1).
Proof.
  intros Hm.
  destruct w as [[v m]|[v m]|[v m]|[v m]]; simpl in Hm;
    eexists; (split; [|split; [|split]]);
    try (cbv [widget_update_value zoom Temp_Gauge.update_value
              Tachometer.update_value Fuel_Gauge.update_value
              Speedometer.update_value mbind M_bind get put emit lift];
         simpl; rewrite py_mod_pos by lia; simpl; reflexivity);
    reflexivity.
Qed.

Lemma add_all_eq (changes : list Z) : forall w : gauge_widget,
  0 < widget_max_value w ->
  exists w' log,
    add_all changes w = Ok (tt, w', log) /\
    class_of w' = class_of w /\
    widget_max_value w' = widget_max_value w /\
    widget_value w' mod (widget_max_value w + 1)
      = (widget_value w + sum_changes changes) mod (widget_max_value w + 1) /\
    (changes <> [] -> 0 <= widget_value w' <= widget_max_value w).
Proof.
  induction changes as [|c cs IH]; intros w Hm.
  - exists w, []. simpl. rewrite Z.add_0_r. repeat split; congruence.
  - destruct (widget_add_to_value_eq c w Hm) as (w1 & E1 & Hc1 & Hm1 & Hv1).
    assert (Hm1' : 0 < widget_max_value w1) by lia.
    destruct (IH w1 Hm1') as (w2 & log & E2 & Hc2 & Hm2 & Hv2 & Hr2).
    exists w2, ([Update] ++ log).
    split; [|split; [|split; [|split]]].
    + simpl. unfold mbind, M_bind. rewrite E1, E2. reflexivity.
    + congruence.
    + congruence.
    + rewrite Hm1 in Hv2. rewrite Hv2, Hv1. simpl.
      rewrite Zplus_mod_idemp_l. f_equal. lia.
    + intros _. destruct cs as [|c' cs'].
      * simpl in E2. injection E2 as <- _. rewrite Hv1.
        pose proof (Z.mod_pos_bound (widget_value w + c) (widget_max_value w + 1)).
        lia.
      * rewrite <- Hm1. apply Hr2. discriminate.
Qed.

(** C3: in each of the four gauge classes, with a positive maximum,
    [add_to_value] and [update_value] return (they do not raise) for every
    integer argument, negative ones included, and leave the value in
    [0, max_value]; and a gauge whose value is in that range gets its value
    back from any sequence of [add_to_value] calls whose arguments sum to a
    multiple of [max_value + 1]. *)
Theorem gauge_wrap_invariant (w : gauge_widget) (Hmax : 0 < widget_max_value w) :
  (forall change : Z, exists w',
      widget_add_to_value change w = Ok (tt, w', [Update]) /\
      class_of w' = class_of w /\
      widget_max_value w' = widget_max_value w /\
      0 <= widget_value w' <= widget_max_value w') /\
  (forall new_value : Z, exists w',
      widget_update_value new_value w = Ok (tt, w', [Update]) /\
      class_of w' = class_of w /\
      widget_max_value w' = widget_max_value w /\
      0 <= widget_value w' <= widget_max_value w') /\
  (forall (changes : list Z) (k : Z),
      in_range w ->
      sum_changes changes = k * (widget_max_value w + 1) ->
      exists w' log,
        add_all changes w = Ok (tt, w', log) /\
        class_of w' = class_of w /\
        widget_max_value w' = widget_max_value w /\
        widget_value w' = widget_value w).
Proof.
  split; [|split].
  - intros change.
    destruct (widget_add_to_value_eq change w Hmax) as (w' & E & Hc & Hm & Hv).
    exists w'. repeat split; try assumption; rewrite ?Hm, Hv;
      pose proof (Z.mod_pos_bound (widget_value w + change) (widget_max_value w + 1));
      lia.
  - intros new_value.
    destruct (widget_update_value_eq new_value w Hmax) as (w' & E & Hc & Hm & Hv).
    exists w'. repeat split; try assumption; rewrite ?Hm, Hv;
      pose proof (Z.mod_pos_bound new_value (widget_max_value w + 1));
      lia.
  - intros changes k Hr Hsum.
    destruct (add_all_eq changes w Hmax) as (w' & log & E & Hc & Hm & Hv & Hr').
    exists w', log. repeat split; try assumption.
    rewrite Hsum, Z_mod_plus_full in Hv.
    destruct changes as [|c cs].
    + simpl in E. injection E as <- _. reflexivity.
    + assert (Hw' : 0 <= widget_value w' <= widget_max_value w) by (apply Hr'; discriminate).
      unfold in_range in Hr.
      rewrite (Z.mod_small (widget_value w')), (Z.mod_small (widget_value w)) in Hv; lia.
Qed.

Lemma gauge_wrap_invariant_witness :
  exists w' log,
    add_all [200; -350; 451] (TempW {| Temp_Gauge.value := 7; Temp_Gauge.max_value := 300 |})
      = Ok (tt, w', log) /\
    class_of w' = Temp /\
    widget_max_value w' = 300 /\
    widget_value w' = 7.
Proof.
  refine (proj2 (proj2 (gauge_wrap_invariant
    (TempW {| Temp_Gauge.value := 7; Temp_Gauge.max_value := 300 |}) _)) [200; -350; 451] 1 _ _).
  - simpl. lia.
  - unfold in_range. simpl. lia.
  - reflexivity.
Defined.

(** The invariant holds from construction on: a gauge built with a positive
    maximum starts in range, and every call keeps it there. *)
Lemma widget_init_in_range (c : gauge_class) (max_value : Z) :
  0 < max_value ->
  exists w, widget_init c max_value = Ok w /\ in_range w /\ widget_max_value w = max_value.
Proof.
  intros Hm. destruct c; eexists; (split; [reflexivity|]); unfold in_range; simpl; lia.
Qed.

(** ** Construction *)

(** C4, as the code has it: [__init__] of each gauge class accepts every
    integer [max_value], zero and negative ones included; it builds the
    instance with value 0 and stores the maximum unchanged. *)
Theorem gauge_init_accepts_any_max (c : gauge_class) (max_value : Z) :
  exists w,
    widget_init c max_value = Ok w /\
    class_of w = c /\
    widget_value w = 0 /\
    widget_max_value w = max_value.
Proof. destruct c; eexists; repeat split. Qed.

(** C4, as the spec states it, fails: a zero or negative maximum is not
    rejected. *)
Lemma gauge_init_rejects_nonpositive_false :
  Temp_Gauge.__init__ 0 = Ok {| Temp_Gauge.value := 0; Temp_Gauge.max_value := 0 |} /\
  Tachometer.__init__ (-5) = Ok {| Tachometer.value := 0; Tachometer.max_value := -5 |} /\
  ~ (forall c max_value, max_value <= 0 -> exists e, widget_init c max_value = Raise e).
Proof.
  split; [reflexivity|split; [reflexivity|]].
  intros H. destruct (H Temp 0) as [e He]; [lia|]. discriminate He.
Qed.

(** ** The two-step panel *)

Import Variable_Section.

Ltac open_session s Hs :=
  let cw := fresh "cw" in let bounds := fresh "bounds" in
  let names := fresh "names" in let sel := fresh "sel" in
  let ph := fresh "ph" in let ds := fresh "ds" in
  let up := fresh "up" in let bad := fresh "bad" in
  destruct s as [cw bounds names sel ph ds up bad];
  destruct Hs as [Hs_names Hs_cursor Hs_phase Hs_digits Hs_range Hs_bounds];
  simpl in *; subst names;
  destruct ds as [|?d [|?d [|?d [|?d [|? ?]]]]]; try discriminate Hs_digits;
  destruct bounds as [|?u [|?l [|? ?]]]; try discriminate Hs_bounds;
  clear Hs_digits Hs_bounds.

Ltac cursor_cases H :=
  apply list_elem_of_In in H; simpl in H;
  destruct H as [<-|[<-|[<-|[<-|[<-|[]]]]]].

Ltac run_method :=
  cbv [move_two_step update_two_step change_widget bump_digit digits_number
       run_op mbind M_bind mret M_ret get put modify emit lift getitem setitem];
  simpl.

Lemma session_initial : __init__ = Ok initial /\ session initial.
Proof.
  split; [reflexivity|].
  split; simpl; try reflexivity; auto.
  - apply list_elem_of_In. simpl. auto.
  - repeat constructor; lia.
Qed.


Lemma mod10_range (a : Z) : 0 <= a mod 10 <= 9.
Proof. pose proof (Z.mod_pos_bound a 10). lia. Qed.

Ltac session_goal :=
  first
    [ solve [apply list_elem_of_In; simpl; auto 10]
    | solve [repeat match goal with
                    | H : Forall _ (_ :: _) |- _ => inversion_clear H
                    end;
             repeat (apply List.Forall_cons;
                     [first [apply mod10_range | assumption | lia]|]);
             apply List.Forall_nil]
    | solve [auto] ].

Ltac session_result :=
  eexists _, _; split; [reflexivity|]; split; simpl; session_goal.

Lemma run_op_session (o : op) (s : t) :
  session s ->
  exists s' log, run_op o s = Ok (tt, s', log) /\ session s'.
Proof.
  intros Hs. destruct o as [value| |new_widget].
  - open_session s Hs. cursor_cases Hs_cursor; run_method; session_result.
  - open_session s Hs.
    cursor_cases Hs_cursor; destruct Hs_phase as [-> | ->]; run_method;
      try session_result.
    destruct (decide _); simpl; session_result.
  - open_session s Hs. run_method.
    destruct (decide (new_widget = "Two-Step")); simpl; session_result.
Qed.

(** C7: on a session in the Upper phase with the cursor on Confirm
    ([rmp_digit]), [move_two_step] stores the number the four digits spell
    as the upper bound, sets the digits back to 0, the phase to Lower and
    the cursor to the first digit; the lower bound, the shown widget and
    the bad-input flag are left alone, and the only event is the redraw
    request: nothing is printed. *)
Theorem upper_confirm_snapshots (s : t)
    (Hs : session s)
    (Hcursor : selected_two_step_digit s = "rmp_digit")
    (Hphase : two_step_bound s = "Upper") :
  exists s',
    move_two_step s = Ok (tt, s', [Update]) /\
    captured_upper s' = entered_number s /\
    captured_lower s' = captured_lower s /\
    two_step_current_digit_values s' = [0; 0; 0; 0] /\
    two_step_bound s' = "Lower" /\
    selected_two_step_digit s' = "first_digit" /\
    current_widget s' = current_widget s /\
    two_step_bad_input s' = two_step_bad_input s /\
    printed [Update] = [].
Proof.
  open_session s Hs. subst. run_method.
  eexists. split; [reflexivity|]. repeat split.
Qed.

Lemma upper_confirm_snapshots_witness :
  exists s',
    move_two_step
      {| current_widget := "Two-Step"; new_two_step_bounds := [0; 0];
         two_step_digit_list := digit_names;
         selected_two_step_digit := "rmp_digit"; two_step_bound := "Upper";
         two_step_current_digit_values := [0; 1; 0; 0];
         two_step_value_up := true; two_step_bad_input := false |}
      = Ok (tt, s', [Update]) /\
    captured_upper s' = 100 /\
    two_step_current_digit_values s' = [0; 0; 0; 0] /\
    two_step_bound s' = "Lower" /\
    selected_two_step_digit s' = "first_digit".
Proof.
  edestruct (upper_confirm_snapshots
    {| current_widget := "Two-Step"; new_two_step_bounds := [0; 0];
       two_step_digit_list := digit_names;
       selected_two_step_digit := "rmp_digit"; two_step_bound := "Upper";
       two_step_current_digit_values := [0; 1; 0; 0];
       two_step_value_up := true; two_step_bad_input := false |})
    as (s' & E & Hu & _ & Hd & Hp & Hc & _).
  - split; simpl; session_goal.
  - reflexivity.
  - reflexivity.
  - exists s'. exact (conj E (conj Hu (conj Hd (conj Hp Hc)))).
Defined.

(** What [move_two_step] does on a session in the Lower phase with the
    cursor on Confirm: it stores the entered number as the lower bound and,
    when that number is below the upper bound, leaves for the Competition
    widget and prints the pair; otherwise it raises the bad-input flag. *)
Lemma lower_confirm (s : t)
    (Hs : session s)
    (Hcursor : selected_two_step_digit s = "rmp_digit")
    (Hphase : two_step_bound s = "Lower") :
  exists s' log,
    move_two_step s = Ok (tt, s', log) /\
    captured_upper s' = captured_upper s /\
    captured_lower s' = entered_number s /\
    two_step_digit_list s' = two_step_digit_list s /\
    selected_two_step_digit s' = "rmp_digit" /\
    two_step_bound s' = "Lower" /\
    two_step_current_digit_values s' = two_step_current_digit_values s /\
    two_step_value_up s' = two_step_value_up s /\
    (entered_number s < captured_upper s ->
       log = [Update;
              PrintBounds "TWO STEP BOUNDS ARE: " [captured_upper s; entered_number s];
              Update] /\
       current_widget s' = "Competition" /\
       two_step_bad_input s' = two_step_bad_input s) /\
    (entered_number s >= captured_upper s ->
       log = [Update] /\
       current_widget s' = current_widget s /\
       two_step_bad_input s' = true).
Proof.
  open_session s Hs. subst. run_method.
  unfold entered_number, captured_upper, digit. simpl.
  destruct (decide _) as [Hge|Hlt]; simpl;
    eexists _, _; (split; [reflexivity|]); simpl;
    repeat split; intros; try reflexivity; lia.
Qed.

Lemma commit_example_run :
  exists s',
    run_ops commit_example initial
      = Ok (tt, s',
            [Update; Update; Update; Update; Update; Update; Update;
             Update; Update; Update; Update; Update; Update; Update;
             Update; Update; Update;
             PrintBounds "TWO STEP BOUNDS ARE: " [100; 50]; Update]) /\
    current_widget s' = "Competition".
Proof. eexists. split; vm_compute; reflexivity. Qed.

(** C1, amended in its example: on a session in the Lower phase with the
    cursor on Confirm, [move_two_step] stores
    [digits[0]*1000 + digits[1]*100 + digits[2]*10 + digits[3]] as the
    lower bound and commits, printing the pair (upper, lower) and leaving
    the two-step widget, exactly when that number is strictly below the
    upper bound; and entering the digits 0,1,0,0 for Upper and 0,0,5,0 for
    Lower commits and prints (100, 50). *)
Theorem lower_confirm_commits_iff (s : t)
    (Hs : session s)
    (Hcursor : selected_two_step_digit s = "rmp_digit")
    (Hphase : two_step_bound s = "Lower") :
  (exists s' log,
     move_two_step s = Ok (tt, s', log) /\
     captured_lower s' = entered_number s /\
     captured_upper s' = captured_upper s) /\
  (entered_number s < captured_upper s ->
     commits (move_two_step s) (captured_upper s) (entered_number s)) /\
  (forall upper lower,
     commits (move_two_step s) upper lower ->
     upper = captured_upper s /\ lower = entered_number s /\ lower < upper) /\
  commits (run_ops commit_example initial) 100 50.
Proof.
  destruct (lower_confirm s Hs Hcursor Hphase)
    as (s' & log & E & Hu & Hl & _ & _ & _ & _ & _ & Hlt & Hge).
  split; [|split; [|split]].
  - exists s', log. auto.
  - intros H. destruct (Hlt H) as (-> & Hw & _).
    eexists s', _. split; [exact E|]. split; [reflexivity|exact Hw].
  - intros upper lower (s1 & log1 & E1 & Hp & Hw).
    rewrite E in E1. injection E1 as <- <-.
    destruct (Z_lt_ge_dec (entered_number s) (captured_upper s)) as [H|H].
    + destruct (Hlt H) as (-> & _ & _). simpl in Hp.
      injection Hp as <- <-. auto.
    + destruct (Hge H) as (-> & _ & _). discriminate Hp.
  - destruct commit_example_run as (s1 & E1 & Hw).
    eexists s1, _. split; [exact E1|]. split; [reflexivity|exact Hw].
Qed.

(** C1, as the spec states its example, fails: the run that enters
    0,1,0,0 and then 0,0,5,0 does not print (1000, 50). *)
Lemma commit_example_emits_1000_50_false :
  ~ commits (run_ops commit_example initial) 1000 50.
Proof.
  intros (s1 & log1 & E1 & Hp & _).
  destruct commit_example_run as (s2 & E2 & _).
  rewrite E2 in E1. injection E1 as _ <-. discriminate Hp.
Qed.

Lemma lower_confirm_commits_iff_witness :
  commits
    (move_two_step
       {| current_widget := "Two-Step"; new_two_step_bounds := [100; 0];
          two_step_digit_list := digit_names;
          selected_two_step_digit := "rmp_digit"; two_step_bound := "Lower";
          two_step_current_digit_values := [0; 0; 5; 0];
          two_step_value_up := true; two_step_bad_input := false |})
    100 50.
Proof.
  refine (proj1 (proj2 (lower_confirm_commits_iff
    {| current_widget := "Two-Step"; new_two_step_bounds := [100; 0];
       two_step_digit_list := digit_names;
       selected_two_step_digit := "rmp_digit"; two_step_bound := "Lower";
       two_step_current_digit_values := [0; 0; 5; 0];
       two_step_value_up := true; two_step_bad_input := false |} _ _ _)) _).
  - split; simpl; session_goal.
  - reflexivity.
  - reflexivity.
  - vm_compute. reflexivity.
Defined.

(** An entry call on a rejected session changes nothing and prints nothing. *)
Lemma rejected_step (s : t) (o : op) :
  session s ->
  selected_two_step_digit s = "rmp_digit" ->
  two_step_bound s = "Lower" ->
  captured_lower s = entered_number s ->
  entered_number s >= captured_upper s ->
  two_step_bad_input s = true ->
  entry_op o ->
  run_op o s = Ok (tt, s, [Update]).
Proof.
  intros Hs Hc Hp Hl Hge Hb Ho.
  open_session s Hs. subst.
  unfold captured_lower, captured_upper, entered_number, digit in *. simpl in *.
  destruct o as [value| |w]; [| |destruct Ho]; run_method; [reflexivity|].
  destruct (decide _) as [_|Hlt]; [|lia]. simpl. subst l. reflexivity.
Qed.

Lemma rejected_run (s : t) (os : list op) :
  session s ->
  selected_two_step_digit s = "rmp_digit" ->
  two_step_bound s = "Lower" ->
  captured_lower s = entered_number s ->
  entered_number s >= captured_upper s ->
  two_step_bad_input s = true ->
  Forall entry_op os ->
  exists log, run_ops os s = Ok (tt, s, log) /\ printed log = [].
Proof.
  intros Hs Hc Hp Hl Hge Hb Hos.
  induction Hos as [|o os Ho _ IH].
  - exists []. split; reflexivity.
  - destruct IH as (log & E & Hlog).
    exists ([Update] ++ log). split.
    + simpl. unfold mbind, M_bind.
      rewrite (rejected_step s o) by assumption. rewrite E. reflexivity.
    + simpl. exact Hlog.
Qed.

(** A call other than re-entering the mode changes at most the shown widget
    of a rejected session, and prints nothing. *)
Lemma rejected_step_no_reset (s : t) (o : op) :
  session s ->
  selected_two_step_digit s = "rmp_digit" ->
  two_step_bound s = "Lower" ->
  captured_lower s = entered_number s ->
  entered_number s >= captured_upper s ->
  two_step_bad_input s = true ->
  no_reset o ->
  exists w, run_op o s = Ok (tt, set_current_widget w s, [Update]).
Proof.
  intros Hs Hc Hp Hl Hge Hb Ho.
  destruct o as [value| |w].
  - exists (current_widget s).
    rewrite (rejected_step s (AdjustDigit value)) by (assumption || exact I).
    destruct s; reflexivity.
  - exists (current_widget s).
    rewrite (rejected_step s Advance) by (assumption || exact I).
    destruct s; reflexivity.
  - exists w. simpl in Ho. run_method.
    destruct (decide (w = "Two-Step")) as [|_]; [contradiction|]. reflexivity.
Qed.

Lemma rejected_run_no_reset (os : list op) : forall s : t,
  session s ->
  selected_two_step_digit s = "rmp_digit" ->
  two_step_bound s = "Lower" ->
  captured_lower s = entered_number s ->
  entered_number s >= captured_upper s ->
  two_step_bad_input s = true ->
  Forall no_reset os ->
  exists w log,
    run_ops os s = Ok (tt, set_current_widget w s, log) /\ printed log = [].
Proof.
  induction os as [|o os IH]; intros s Hs Hc Hp Hl Hge Hb Hos.
  - exists (current_widget s), []. split; [destruct s|]; reflexivity.
  - apply Forall_cons in Hos as [Ho Hos].
    destruct (rejected_step_no_reset s o Hs Hc Hp Hl Hge Hb Ho) as (w1 & E1).
    destruct (IH (set_current_widget w1 s)) as (w2 & log & E2 & Hlog); try assumption.
    { destruct Hs. split; assumption. }
    exists w2, ([Update] ++ log). split.
    + simpl. unfold mbind, M_bind. rewrite E1, E2. destruct s; reflexivity.
    + simpl. exact Hlog.
Qed.

(** C2: when the Lower-phase confirm finds the entered number at or above
    the upper bound, [move_two_step] raises the bad-input flag; from then
    on every sequence of digit adjustments and advances returns the very
    same session and prints nothing, so no digit changes and no pair is
    committed; any sequence of calls that does not re-enter the two-step
    widget changes at most the shown widget; and
    [change_widget("Two-Step")] clears the flag and starts the entry
    again. *)
Theorem invalid_is_sticky (s : t)
    (Hs : session s)
    (Hcursor : selected_two_step_digit s = "rmp_digit")
    (Hphase : two_step_bound s = "Lower")
    (Hbad : entered_number s >= captured_upper s) :
  exists s1,
    move_two_step s = Ok (tt, s1, [Update]) /\
    two_step_bad_input s1 = true /\
    (forall os : list op, Forall entry_op os ->
       exists log, run_ops os s1 = Ok (tt, s1, log) /\ printed log = []) /\
    (forall os : list op, Forall no_reset os ->
       exists w log,
         run_ops os s1 = Ok (tt, set_current_widget w s1, log) /\ printed log = []) /\
    (exists s2,
       change_widget "Two-Step" s1 = Ok (tt, s2, [Update]) /\
       two_step_bad_input s2 = false /\
       two_step_bound s2 = "Upper" /\
       selected_two_step_digit s2 = "first_digit" /\
       two_step_current_digit_values s2 = [0; 0; 0; 0] /\
       new_two_step_bounds s2 = [0; 0]).
Proof.
  destruct (lower_confirm s Hs Hcursor Hphase)
    as (s1 & log & E & Hu & Hl & Hn & Hc & Hp & Hd & _ & _ & Hge).
  destruct (Hge Hbad) as (-> & _ & Hb).
  destruct (run_op_session Advance s Hs) as (s1' & log' & E' & Hs1).
  simpl in E'. rewrite E in E'. injection E' as <- _.
  assert (He : entered_number s1 = entered_number s)
    by (unfold entered_number, digit; rewrite Hd; reflexivity).
  exists s1. split; [exact E|]. split; [exact Hb|]. split; [|split].
  - intros os Hos. apply rejected_run; try assumption; rewrite He; lia.
  - intros os Hos. apply rejected_run_no_reset; try assumption; rewrite He; lia.
  - eexists. split; [reflexivity|]. repeat split.
Qed.

Lemma invalid_is_sticky_witness :
  exists s1,
    move_two_step
      {| current_widget := "Two-Step"; new_two_step_bounds := [50; 0];
         two_step_digit_list := digit_names;
         selected_two_step_digit := "rmp_digit"; two_step_bound := "Lower";
         two_step_current_digit_values := [0; 1; 0; 0];
         two_step_value_up := true; two_step_bad_input := false |}
      = Ok (tt, s1, [Update]) /\
    two_step_bad_input s1 = true /\
    (exists log,
       run_ops [AdjustDigit 1; Advance; AdjustDigit (-1); Advance] s1 = Ok (tt, s1, log) /\
       printed log = []).
Proof.
  edestruct (invalid_is_sticky
    {| current_widget := "Two-Step"; new_two_step_bounds := [50; 0];
       two_step_digit_list := digit_names;
       selected_two_step_digit := "rmp_digit"; two_step_bound := "Lower";
       two_step_current_digit_values := [0; 1; 0; 0];
       two_step_value_up := true; two_step_bad_input := false |})
    as (s1 & E & Hb & Hrun & _ & _).
  - split; simpl; session_goal.
  - reflexivity.
  - reflexivity.
  - vm_compute. discriminate.
  - exists s1. split; [exact E|]. split; [exact Hb|].
    apply Hrun. repeat constructor.
Defined.

Lemma digit_cases (d : Z) :
  0 <= d <= 9 ->
  d = 0 \/ d = 1 \/ d = 2 \/ d = 3 \/ d = 4 \/ d = 5 \/ d = 6 \/ d = 7 \/ d = 8 \/ d = 9.
Proof. lia. Qed.

Lemma ten_updates (s : t) (value : Z) :
  session s -> value = 1 \/ value = -1 ->
  repeat_update 10 value s = Ok (tt, s, replicate 10 Update).
Proof.
  intros Hs Hv. open_session s Hs.
  apply Forall_cons in Hs_range as [H0 Hs_range].
  apply Forall_cons in Hs_range as [H1 Hs_range].
  apply Forall_cons in Hs_range as [H2 Hs_range].
  apply Forall_cons in Hs_range as [H3 _].
  cursor_cases Hs_cursor.
  - apply digit_cases in H0.
    destruct Hv as [-> | ->];
      repeat (destruct H0 as [-> | H0]; [vm_compute; reflexivity|]);
      subst; vm_compute; reflexivity.
  - apply digit_cases in H1.
    destruct Hv as [-> | ->];
      repeat (destruct H1 as [-> | H1]; [vm_compute; reflexivity|]);
      subst; vm_compute; reflexivity.
  - apply digit_cases in H2.
    destruct Hv as [-> | ->];
      repeat (destruct H2 as [-> | H2]; [vm_compute; reflexivity|]);
      subst; vm_compute; reflexivity.
  - apply digit_cases in H3.
    destruct Hv as [-> | ->];
      repeat (destruct H3 as [-> | H3]; [vm_compute; reflexivity|]);
      subst; vm_compute; reflexivity.
  - destruct Hv as [-> | ->]; vm_compute; reflexivity.
Qed.

(** C8: on every session, [update_two_step] with +1 or -1 returns, sets
    the digit under the cursor to (digit + value) mod 10 and leaves the
    other digits, the cursor, the phase, the bounds, the shown widget and
    the flag alone; all digits stay in [0, 9]; on Confirm the session is
    unchanged; and ten calls in a row give the session back. *)
Theorem adjust_digit_wraps (s : t) (value : Z)
    (Hs : session s)
    (Hvalue : value = 1 \/ value = -1) :
  (exists s',
     update_two_step value s = Ok (tt, s', [Update]) /\
     (forall i : nat,
        two_step_digit_list s !! i = Some (selected_two_step_digit s) ->
        two_step_current_digit_values s'
          = if decide (i < 4)%nat
            then <[i := (digit s i + value) mod 10]> (two_step_current_digit_values s)
            else two_step_current_digit_values s) /\
     Forall (fun d => 0 <= d <= 9) (two_step_current_digit_values s') /\
     selected_two_step_digit s' = selected_two_step_digit s /\
     two_step_bound s' = two_step_bound s /\
     new_two_step_bounds s' = new_two_step_bounds s /\
     current_widget s' = current_widget s /\
     two_step_bad_input s' = two_step_bad_input s /\
     (selected_two_step_digit s = "rmp_digit" -> s' = s)) /\
  repeat_update 10 value s = Ok (tt, s, replicate 10 Update).
Proof.
  split; [|apply ten_updates; assumption].
  clear Hvalue.
  destruct (run_op_session (AdjustDigit value) s Hs) as (s' & log & E & Hs').
  simpl in E. exists s'.
  pose proof (session_digit_range _ Hs') as Hr'.
  open_session s Hs.
  cursor_cases Hs_cursor; revert E; run_method; intros E; injection E as <- <-;
    (split; [reflexivity|]); simpl in *;
    (split; [|repeat split; try assumption; discriminate]);
    intros [|[|[|[|[|i]]]]] Hi; simpl in Hi; try discriminate Hi; reflexivity.
Qed.

Lemma adjust_digit_wraps_witness :
  exists s',
    update_two_step (-1)
      {| current_widget := "Two-Step"; new_two_step_bounds := [0; 0];
         two_step_digit_list := digit_names;
         selected_two_step_digit := "third_digit"; two_step_bound := "Upper";
         two_step_current_digit_values := [4; 9; 0; 7];
         two_step_value_up := true; two_step_bad_input := false |}
      = Ok (tt, s', [Update]) /\
    two_step_current_digit_values s' = [4; 9; 9; 7].
Proof.
  edestruct (adjust_digit_wraps
    {| current_widget := "Two-Step"; new_two_step_bounds := [0; 0];
       two_step_digit_list := digit_names;
       selected_two_step_digit := "third_digit"; two_step_bound := "Upper";
       two_step_current_digit_values := [4; 9; 0; 7];
       two_step_value_up := true; two_step_bad_input := false |} (-1))
    as ((s' & E & Hd & _) & _).
  - split; simpl; session_goal.
  - right. reflexivity.
  - exists s'. split; [exact E|]. exact (Hd 2%nat eq_refl).
Defined.

(** A call other than re-entering the mode keeps a lower-phase session in
    the lower phase and leaves the stored upper bound alone. *)
Lemma lower_phase_step (o : op) (s : t) :
  session s -> two_step_bound s = "Lower" -> no_reset o ->
  exists s' log,
    run_op o s = Ok (tt, s', log) /\
    session s' /\
    two_step_bound s' = "Lower" /\
    new_two_step_bounds s' !! 0%nat = new_two_step_bounds s !! 0%nat.
Proof.
  intros Hs Hp Ho.
  destruct (run_op_session o s Hs) as (s' & log & E & Hs').
  exists s', log. split; [exact E|]. split; [exact Hs'|].
  clear Hs'. open_session s Hs. subst.
  destruct o as [value| |w]; revert E.
  - cursor_cases Hs_cursor; run_method; intros E; injection E as <- <-; split; reflexivity.
  - cursor_cases Hs_cursor; run_method; try destruct (decide _); simpl;
      intros E; injection E as <- <-; split; reflexivity.
  - run_method. simpl in Ho. destruct (decide _) as [Hw|_]; [contradiction|].
    simpl. intros E; injection E as <- <-; split; reflexivity.
Qed.

(** A digit adjustment or cursor move that changes the stored upper bound
    is the confirm of the upper phase. *)
Lemma upper_bound_written_only_by_upper_confirm (o : op) (s s' : t) (log : list event) :
  session s -> entry_op o ->
  run_op o s = Ok (tt, s', log) ->
  new_two_step_bounds s' !! 0%nat <> new_two_step_bounds s !! 0%nat ->
  o = Advance /\ two_step_bound s = "Upper" /\ selected_two_step_digit s = "rmp_digit".
Proof.
  intros Hs Ho E Hne.
  open_session s Hs.
  destruct o as [value| |w]; [| |destruct Ho]; revert E.
  - cursor_cases Hs_cursor; run_method; intros E; injection E as <- <-;
      simpl in Hne; congruence.
  - cursor_cases Hs_cursor; destruct Hs_phase as [-> | ->]; run_method;
      try destruct (decide _); simpl;
      intros E; injection E as <- <-; simpl in Hne; try congruence; auto.
Qed.

(** C10: on a session in the Lower phase, every digit adjustment and
    every advance with the cursor on a digit leaves the stored bounds as
    they are, and every sequence of calls other than re-entering the
    two-step widget keeps the upper bound and the Lower phase; on any
    session, a digit adjustment or advance that changes the upper bound is
    the confirm of the Upper phase. *)
Theorem lower_phase_keeps_upper_bound (s : t)
    (Hs : session s)
    (Hphase : two_step_bound s = "Lower") :
  (forall value : Z, exists s',
     update_two_step value s = Ok (tt, s', [Update]) /\
     new_two_step_bounds s' = new_two_step_bounds s) /\
  (selected_two_step_digit s <> "rmp_digit" -> exists s',
     move_two_step s = Ok (tt, s', [Update]) /\
     new_two_step_bounds s' = new_two_step_bounds s /\
     two_step_bound s' = "Lower") /\
  (forall os : list op, Forall no_reset os -> exists s' log,
     run_ops os s = Ok (tt, s', log) /\
     captured_upper s' = captured_upper s /\
     two_step_bound s' = "Lower") /\
  (forall (o : op) (s0 s' : t) (log : list event),
     session s0 -> entry_op o ->
     run_op o s0 = Ok (tt, s', log) ->
     captured_upper s' <> captured_upper s0 ->
     o = Advance /\ two_step_bound s0 = "Upper" /\ selected_two_step_digit s0 = "rmp_digit").
Proof.
  split; [|split; [|split]].
  - intros value. open_session s Hs. subst.
    cursor_cases Hs_cursor; run_method; eexists; split; reflexivity.
  - intros Hne. open_session s Hs. subst.
    cursor_cases Hs_cursor; try congruence; run_method; eexists; repeat split.
  - intros os Hos. revert s Hs Hphase.
    induction Hos as [|o os Ho _ IH]; intros s Hs Hphase.
    + exists s, []. repeat split; assumption.
    + destruct (lower_phase_step o s Hs Hphase Ho) as (s1 & log1 & E1 & Hs1 & Hp1 & Hb1).
      destruct (IH s1 Hs1 Hp1) as (s2 & log2 & E2 & Hb2 & Hp2).
      exists s2, (log1 ++ log2). split; [|split].
      * simpl. unfold mbind, M_bind. rewrite E1, E2. reflexivity.
      * rewrite Hb2. unfold captured_upper. rewrite Hb1. reflexivity.
      * exact Hp2.
  - intros o s0 s' log Hs0 Ho E Hne.
    apply (upper_bound_written_only_by_upper_confirm o s0 s' log); try assumption.
    intros Heq. apply Hne. unfold captured_upper. rewrite Heq. reflexivity.
Qed.

Lemma lower_phase_keeps_upper_bound_witness :
  exists s' log,
    run_ops [AdjustDigit 1; Advance; AdjustDigit (-1); Advance; Advance; Advance; Advance]
      {| current_widget := "Two-Step"; new_two_step_bounds := [4200; 0];
         two_step_digit_list := digit_names;
         selected_two_step_digit := "first_digit"; two_step_bound := "Lower";
         two_step_current_digit_values := [0; 0; 0; 0];
         two_step_value_up := true; two_step_bad_input := false |}
      = Ok (tt, s', log) /\
    captured_upper s' = 4200 /\
    two_step_bound s' = "Lower".
Proof.
  refine (proj1 (proj2 (proj2 (lower_phase_keeps_upper_bound
    {| current_widget := "Two-Step"; new_two_step_bounds := [4200; 0];
       two_step_digit_list := digit_names;
       selected_two_step_digit := "first_digit"; two_step_bound := "Lower";
       two_step_current_digit_values := [0; 0; 0; 0];
       two_step_value_up := true; two_step_bad_input := false |} _ _)))
    [AdjustDigit 1; Advance; AdjustDigit (-1); Advance; Advance; Advance; Advance] _).
  - split; simpl; session_goal.
  - reflexivity.
  - repeat constructor.
Defined.
(** ** Binary64 rounding *)

Lemma digits2_pos_size (p : positive) : digits2_pos p = Pos.size p.
Proof. induction p; simpl; congruence. Qed.

Lemma Zdigits2_log2 (z : Z) : 0 < z -> Zdigits2 z = Z.log2 z + 1.
Proof.
  destruct z as [|p|p]; try lia. intros _. simpl.
  rewrite digits2_pos_size. destruct p; simpl; lia.
Qed.

Lemma Zdigits2_nonneg (z : Z) : 0 <= z -> 0 <= Zdigits2 z.
Proof. destruct z; simpl; lia. Qed.

Lemma Zdigits2_bounds (z : Z) :
  0 < z -> 2 ^ (Zdigits2 z - 1) <= z < 2 ^ Zdigits2 z.
Proof.
  intros Hz. rewrite Zdigits2_log2 by assumption.
  replace (Z.log2 z + 1 - 1) with (Z.log2 z) by lia.
  replace (Z.log2 z + 1) with (Z.succ (Z.log2 z)) by lia.
  apply Z.log2_spec. assumption.
Qed.

Lemma Zdigits2_unique (z d : Z) :
  2 ^ (d - 1) <= z < 2 ^ d -> 0 < z -> Zdigits2 z = d.
Proof.
  intros Hb Hz. rewrite Zdigits2_log2 by assumption.
  assert (0 < d).
  { destruct (Z_lt_le_dec 0 d) as [|Hd]; [assumption|].
    assert (2 ^ d <= 2 ^ 0) by (destruct (Z_lt_le_dec d 0);
      [rewrite Z.pow_neg_r by assumption; simpl; lia
      |apply Z.pow_le_mono_r; lia]).
    simpl in *. lia. }
  assert (Z.log2 z = d - 1); [|lia].
  apply Z.log2_unique; [lia|].
  replace (Z.succ (d - 1)) with d by lia. assumption.
Qed.

Lemma Zdigits2_le (z d : Z) : 0 <= d -> 0 <= z < 2 ^ d -> Zdigits2 z <= d.
Proof.
  intros Hd [Hz Hlt]. destruct (Z.eq_dec z 0) as [->|Hne]; [simpl; lia|].
  destruct (Z_lt_le_dec d (Zdigits2 z)) as [Hgt|]; [|assumption].
  pose proof (Zdigits2_bounds z ltac:(lia)) as [Hlo _].
  assert (2 ^ d <= 2 ^ (Zdigits2 z - 1)) by (apply Z.pow_le_mono_r; lia).
  lia.
Qed.

Lemma Zdigits2_ge (z d : Z) : 2 ^ (d - 1) <= z -> 0 < z -> d <= Zdigits2 z.
Proof.
  intros Hlo Hz.
  destruct (Z_lt_le_dec (Zdigits2 z) d) as [Hlt|]; [|assumption].
  pose proof (Zdigits2_bounds z Hz) as [_ Hhi].
  assert (2 ^ Zdigits2 z <= 2 ^ (d - 1)).
  { apply Z.pow_le_mono_r; [lia|]. lia. }
  lia.
Qed.

(** Shifting right [n] times divides the mantissa by [2 ^ n]. *)
Lemma shr_1_m (mrs : shr_record) :
  0 <= shr_m mrs -> shr_m (shr_1 mrs) = shr_m mrs / 2.
Proof.
  destruct mrs as [m r s]. simpl. intros Hm.
  destruct m as [|[p|p|]|p]; try lia; cbn [shr_m].
  - reflexivity.
  - apply Z.div_unique with (r := 1); lia.
  - apply Z.div_unique with (r := 0); lia.
  - reflexivity.
Qed.

Lemma iter_pos_shr_m (p : positive) : forall (mrs : shr_record) ,
  0 <= shr_m mrs ->
  shr_m (iter_pos shr_1 p mrs) = shr_m mrs / 2 ^ Zpos p.
Proof.
  assert (Hstep : forall mrs, 0 <= shr_m mrs -> 0 <= shr_m (shr_1 mrs)).
  { intros mrs H. rewrite shr_1_m by assumption. apply Z.div_pos; lia. }
  induction p as [p IH|p IH|]; intros mrs Hm; simpl iter_pos.
  - rewrite IH, IH, shr_1_m by (rewrite ?IH; auto; apply Z.div_pos; auto; lia).
    rewrite !Z.div_div by lia.
    f_equal. change 2 with (2 ^ 1) at 1.
    rewrite <- !Z.pow_add_r by lia. f_equal. lia.
  - rewrite IH, IH by (rewrite ?IH; auto; apply Z.div_pos; auto; lia).
    rewrite !Z.div_div by lia.
    f_equal. rewrite <- !Z.pow_add_r by lia. f_equal. lia.
  - apply shr_1_m. assumption.
Qed.

Lemma shr_m_spec (mrs : shr_record) (e n : Z) :
  0 <= shr_m mrs ->
  shr_m (fst (shr mrs e n)) = shr_m mrs / 2 ^ Z.max 0 n /\
  snd (shr mrs e n) = e + Z.max 0 n.
Proof.
  intros Hm. destruct n as [|p|p]; simpl.
  - rewrite Z.div_1_r. lia.
  - rewrite iter_pos_shr_m by assumption. split; reflexivity.
  - rewrite Z.div_1_r. lia.
Qed.

Lemma shr_record_of_loc_m (m : Z) (l : location) : shr_m (shr_record_of_loc m l) = m.
Proof. destruct l as [|[]]; reflexivity. Qed.

Lemma round_nearest_even_cases (m : Z) (l : location) :
  round_nearest_even m l = m \/ round_nearest_even m l = m + 1.
Proof. destruct l as [|[]]; simpl; auto. destruct (Z.even m); auto. Qed.

Lemma fexp64_eq (e : Z) : fexp64 e = Z.max (e - 53) (-1074).
Proof. reflexivity. Qed.

(** The two stages of [binary_round_aux]: shift to the format's exponent,
    round, and shift once more if rounding carried. *)
Lemma binary_round_aux_cases (s : bool) (mx ex : Z) (l : location) :
  0 <= mx ->
  exists m1 : Z,
    (m1 = mx / 2 ^ Z.max 0 (fexp64 (magnitude mx ex) - ex) \/
     m1 = mx / 2 ^ Z.max 0 (fexp64 (magnitude mx ex) - ex) + 1) /\
    binary_round_aux 53 1024 s mx ex l
      = round_result s
          (m1 / 2 ^ Z.max 0 (fexp64 (magnitude m1 (ex + Z.max 0 (fexp64 (magnitude mx ex) - ex)))
                             - (ex + Z.max 0 (fexp64 (magnitude mx ex) - ex))))
          (ex + Z.max 0 (fexp64 (magnitude mx ex) - ex)
           + Z.max 0 (fexp64 (magnitude m1 (ex + Z.max 0 (fexp64 (magnitude mx ex) - ex)))
                      - (ex + Z.max 0 (fexp64 (magnitude mx ex) - ex)))).
Proof.
  intros Hm. unfold binary_round_aux, shr_fexp, fexp64, magnitude.
  set (n1 := fexp 53 1024 (Zdigits2 mx + ex) - ex).
  pose proof (shr_m_spec (shr_record_of_loc mx l) ex n1) as H1.
  rewrite shr_record_of_loc_m in H1. specialize (H1 Hm).
  destruct (shr (shr_record_of_loc mx l) ex n1) as [mrs1 e1].
  simpl in H1. destruct H1 as [Hm1 He1].
  set (m1 := round_nearest_even (shr_m mrs1) (loc_of_shr_record mrs1)).
  exists m1. split.
  - subst m1. rewrite <- Hm1. apply round_nearest_even_cases.
  - assert (Hm1' : 0 <= m1).
    { assert (0 <= shr_m mrs1) by (rewrite Hm1; apply Z.div_pos; lia).
      subst m1. destruct (round_nearest_even_cases (shr_m mrs1) (loc_of_shr_record mrs1)); lia. }
    rewrite <- He1.
    set (n2 := fexp 53 1024 (Zdigits2 m1 + e1) - e1).
    pose proof (shr_m_spec (shr_record_of_loc m1 loc_Exact) e1 n2) as H2.
    rewrite shr_record_of_loc_m in H2. specialize (H2 Hm1').
    destruct (shr (shr_record_of_loc m1 loc_Exact) e1 n2) as [mrs2 e2].
    simpl in H2. destruct H2 as [Hm2 He2].
    rewrite <- Hm2, <- He2. unfold round_result.
    destruct (shr_m mrs2); reflexivity.
Qed.

Lemma div_pow2_upper (m n k : Z) :
  0 <= n -> 0 <= k -> 0 <= m < 2 ^ (n + k) -> 0 <= m / 2 ^ n < 2 ^ k.
Proof.
  intros Hn Hk [Hm Hlt]. split; [apply Z.div_pos; lia|].
  apply Z.div_lt_upper_bound; [lia|].
  rewrite <- Z.pow_add_r by lia. assumption.
Qed.

Lemma div_pow2_lower (m n k : Z) :
  0 <= n -> 0 <= k -> 2 ^ (n + k) <= m -> 2 ^ k <= m / 2 ^ n.
Proof.
  intros Hn Hk Hle. apply Z.div_le_lower_bound; [lia|].
  rewrite <- Z.pow_add_r by lia. assumption.
Qed.

Lemma magnitude_pos_bounds (m e : Z) :
  0 < m -> 2 ^ (magnitude m e - e - 1) <= m < 2 ^ (magnitude m e - e).
Proof.
  intros Hm. unfold magnitude.
  replace (Zdigits2 m + e - e - 1) with (Zdigits2 m - 1) by lia.
  replace (Zdigits2 m + e - e) with (Zdigits2 m) by lia.
  apply Zdigits2_bounds. assumption.
Qed.

(** Rounding a number given with at least the precision of the format
    yields zero, or settles on a mantissa and an exponent of the format
    whose magnitude is that of the number or one more; the result is
    infinite when that exponent is above 971. *)
Lemma binary_round_aux_canonical (s : bool) (mx ex : Z) (l : location) :
  0 <= mx ->
  ex <= fexp64 (magnitude mx ex) ->
  (binary_round_aux 53 1024 s mx ex l = S754_zero s /\
   (mx = 0 \/ magnitude mx ex <= -1074)) \/
  exists (m : positive) (e : Z),
    binary_round_aux 53 1024 s mx ex l = round_result s (Zpos m) e /\
    e = fexp64 (magnitude (Zpos m) e) /\
    magnitude (Zpos m) e <= Z.max (magnitude mx ex + 1) (-1073) /\
    (0 < mx -> -1074 < magnitude mx ex -> magnitude mx ex <= magnitude (Zpos m) e).
Proof.
  intros Hmx Hprec.
  destruct (binary_round_aux_cases s mx ex l Hmx) as (m1 & Hm1 & ->).
  set (D := magnitude mx ex) in *.
  set (E := fexp64 D) in *.
  assert (HE : E = Z.max (D - 53) (-1074)) by reflexivity.
  replace (Z.max 0 (E - ex)) with (E - ex) in * by lia.
  replace (ex + (E - ex)) with E in * by lia.
  set (q := mx / 2 ^ (E - ex)) in *.
  assert (Hq0 : 0 <= q) by (apply Z.div_pos; lia).
  (* the quotient has at most [D - E] digits *)
  assert (Hqhi : q < 2 ^ Z.max 0 (D - E)).
  { destruct (Z.eq_dec mx 0) as [->|Hne].
    - subst q. rewrite Z.div_0_l by lia. lia.
    - pose proof (magnitude_pos_bounds mx ex ltac:(lia)) as [_ Hhi]. fold D in Hhi.
      destruct (Z_lt_le_dec (D - E) 0) as [Hneg|Hpos].
      + rewrite Z.max_l by lia. simpl.
        assert (q = 0); [|lia]. apply Z.div_small.
        assert (2 ^ (D - ex) <= 2 ^ (E - ex)) by (apply Z.pow_le_mono_r; lia). lia.
      + rewrite Z.max_r by lia.
        apply (div_pow2_upper mx (E - ex) (D - E)); try lia.
        replace (E - ex + (D - E)) with (D - ex) by lia. lia. }
  assert (Hqlo : 0 < mx -> 1 <= D - E -> 2 ^ (D - E - 1) <= q).
  { intros Hpos Hk.
    pose proof (magnitude_pos_bounds mx ex Hpos) as [Hlo _]. fold D in Hlo.
    apply (div_pow2_lower mx (E - ex) (D - E - 1)); try lia.
    replace (E - ex + (D - E - 1)) with (D - ex - 1) by lia. assumption. }
  assert (Hm1b : 0 <= m1 <= 2 ^ Z.max 0 (D - E)) by lia.
  assert (Hm1lo : q <= m1) by lia.
  clear Hm1.
  destruct (Z.eq_dec m1 0) as [->|Hm1ne].
  { left. split.
    - rewrite Z.div_0_l; [reflexivity|]. apply Z.pow_nonzero; lia.
    - destruct (Z.eq_dec mx 0) as [|Hne]; [left; assumption|right].
      destruct (Z_lt_le_dec (-1074) D) as [HD|]; [exfalso|assumption].
      assert (Hk : 1 <= D - E) by lia.
      specialize (Hqlo ltac:(lia) Hk).
      assert (0 < 2 ^ (D - E - 1)) by (apply Z.pow_pos_nonneg; lia).
      lia. }
  right.
  assert (Hm1pos : 0 < m1) by lia.
  pose proof (Zdigits2_bounds m1 Hm1pos) as Hd1.
  set (d1 := Zdigits2 m1) in *.
  assert (Hd1pos : 1 <= d1).
  { subst d1. apply Zdigits2_ge; simpl; lia. }
  assert (Hd1hi : d1 <= Z.max 0 (D - E) + 1).
  { destruct (Z_lt_le_dec (Z.max 0 (D - E) + 1) d1) as [Hgt|]; [|lia].
    assert (2 ^ (Z.max 0 (D - E) + 1) <= 2 ^ (d1 - 1)) by (apply Z.pow_le_mono_r; lia).
    rewrite Z.pow_add_r in * by lia. lia. }
  unfold magnitude at 1 2. fold d1.
  destruct (Z_le_gt_dec (-1074) (D - 53)) as [Hnormal|Hsub].
  - (* normal range *)
    assert (E = D - 53) by lia.
    assert (Hmxpos : 0 < mx).
    { destruct (Z.eq_dec mx 0) as [->|]; [|lia].
      unfold D, magnitude in *. simpl in *. unfold fexp64, fexp, emin in *. lia. }
    replace (D - E) with 53 in * by lia.
    specialize (Hqlo Hmxpos ltac:(lia)).
    replace (Z.max 0 53) with 53 in * by lia.
    assert (53 <= d1).
    { subst d1. apply Zdigits2_ge; [|lia]. simpl in *. lia. }
    destruct (Z.eq_dec d1 53) as [Hd|Hd].
    + rewrite Hd. replace (fexp64 (53 + E)) with E by (unfold fexp64, fexp, emin; lia).
      replace (Z.max 0 (E - E)) with 0 by lia.
      rewrite Z.div_1_r, Z.add_0_r.
      destruct m1 as [|p|p]; try lia. exists p, E.
      unfold magnitude. fold d1. rewrite Hd.
      repeat split; try (unfold fexp64, fexp, emin; lia); lia.
    + assert (d1 = 54) by lia.
      assert (m1 = 2 ^ 53).
      { replace (d1 - 1) with 53 in Hd1 by lia. lia. }
      subst m1. replace d1 with 54 by lia.
      replace (fexp64 (54 + E)) with (E + 1) by (unfold fexp64, fexp, emin; lia).
      replace (Z.max 0 (E + 1 - E)) with 1 by lia.
      exists (4503599627370496%positive), (E + 1).
      change (2 ^ 53 / 2 ^ 1) with (Zpos 4503599627370496).
      unfold magnitude. change (Zdigits2 (Zpos 4503599627370496)) with 53.
      repeat split; try (unfold fexp64, fexp, emin; lia); lia.
  - (* subnormal range *)
    assert (E = -1074) by lia.
    assert (Hk : Z.max 0 (D - E) <= 52) by lia.
    assert (d1 <= 53) by lia.
    replace (fexp64 (d1 + E)) with E by (unfold fexp64, fexp, emin; lia).
    replace (Z.max 0 (E - E)) with 0 by lia.
    rewrite Z.div_1_r, Z.add_0_r.
    destruct m1 as [|p|p]; try lia. exists p, E.
    unfold magnitude. fold d1.
    repeat split; try (unfold fexp64, fexp, emin; lia); try lia.
    intros Hpos HD.
    specialize (Hqlo Hpos ltac:(lia)).
    assert (D - E <= d1); [|lia].
    subst d1. apply Zdigits2_ge; lia.
Qed.

(** Below magnitude 1023 the result does not overflow. *)
Lemma binary_round_aux_bounded (s : bool) (mx ex : Z) (l : location) :
  0 <= mx ->
  ex <= fexp64 (magnitude mx ex) ->
  magnitude mx ex <= 1023 ->
  (binary_round_aux 53 1024 s mx ex l = S754_zero s /\
   (mx = 0 \/ magnitude mx ex <= -1074)) \/
  exists (m : positive) (e : Z),
    binary_round_aux 53 1024 s mx ex l = S754_finite s m e /\
    e = fexp64 (magnitude (Zpos m) e) /\
    e <= 971 /\
    magnitude (Zpos m) e <= Z.max (magnitude mx ex + 1) (-1073) /\
    (0 < mx -> -1074 < magnitude mx ex -> magnitude mx ex <= magnitude (Zpos m) e).
Proof.
  intros Hmx Hprec Hmag.
  destruct (binary_round_aux_canonical s mx ex l Hmx Hprec)
    as [Hz|(m & e & E & Hc & Hhi & Hlo)]; [left; exact Hz|right].
  assert (1 <= Zdigits2 (Zpos m)) by (apply Zdigits2_ge; simpl; lia).
  assert (He : e <= 971) by (unfold fexp64, fexp, emin, magnitude in *; lia).
  exists m, e. rewrite E. simpl.
  replace (e <=? 1024 - 53) with true by (symmetry; apply Z.leb_le; lia).
  auto.
Qed.

Lemma Pos_iter_xO (m d : positive) : Zpos (Pos.iter xO m d) = Zpos m * 2 ^ Zpos d.
Proof.
  change (Pos.iter xO m d) with (Zpower.shift_pos d m).
  rewrite Zpower.shift_pos_correct. change (Z.pow_pos 2 d) with (2 ^ Zpos d). lia.
Qed.

Lemma Zdigits2_mul_pow2 (m k : Z) :
  0 < m -> 0 <= k -> Zdigits2 (m * 2 ^ k) = Zdigits2 m + k.
Proof.
  intros Hm Hk.
  pose proof (Zdigits2_bounds m Hm) as [Hlo Hhi].
  assert (0 < 2 ^ k) by (apply Z.pow_pos_nonneg; lia).
  assert (1 <= Zdigits2 m) by (apply Zdigits2_ge; simpl; lia).
  apply Zdigits2_unique; [|nia].
  replace (Zdigits2 m + k - 1) with (Zdigits2 m - 1 + k) by lia.
  rewrite !Z.pow_add_r by lia. nia.
Qed.

Lemma magnitude_mul_pow2 (m e k : Z) :
  0 < m -> 0 <= k -> magnitude (m * 2 ^ k) (e - k) = magnitude m e.
Proof.
  intros Hm Hk. unfold magnitude. rewrite Zdigits2_mul_pow2 by assumption. lia.
Qed.

(** [shl_align] keeps the number and brings the exponent down to the
    requested one. *)
Lemma shl_align_spec (mx : positive) (ex ex' : Z) :
  exists k : Z,
    0 <= k /\
    Zpos (fst (shl_align mx ex ex')) = Zpos mx * 2 ^ k /\
    snd (shl_align mx ex ex') = ex - k /\
    snd (shl_align mx ex ex') = Z.min ex ex'.
Proof.
  unfold shl_align. destruct (ex' - ex) as [|d|d] eqn:Hd; simpl.
  - exists 0. rewrite Z.mul_1_r. lia.
  - exists 0. rewrite Z.mul_1_r. lia.
  - exists (Zpos d). rewrite Pos_iter_xO. lia.
Qed.

(** The float of a positive integer: a mantissa and an exponent of the
    format at the magnitude of the integer or one above, infinite when the
    exponent is above 971. *)
Lemma f64_of_pos_cases (n : Z) :
  0 < n ->
  exists (m : positive) (e : Z),
    f64_of n = round_result false (Zpos m) e /\
    e = fexp64 (magnitude (Zpos m) e) /\
    Zdigits2 n <= magnitude (Zpos m) e <= Zdigits2 n + 1.
Proof.
  intros Hn. destruct n as [|p|p]; try lia.
  unfold f64_of, binary_normalize, binary_round.
  destruct (shl_align_spec p 0 (fexp 53 1024 (Zpos (digits2_pos p) + 0)))
    as (k & Hk & Hm & He & Hmin).
  destruct (shl_align p 0 (fexp 53 1024 (Zpos (digits2_pos p) + 0))) as [mz ez].
  simpl in Hm, He, Hmin.
  assert (Hmag : magnitude (Zpos mz) ez = Zdigits2 (Zpos p)).
  { rewrite Hm, He. rewrite (magnitude_mul_pow2 (Zpos p) 0 k) by lia.
    unfold magnitude. lia. }
  assert (1 <= Zdigits2 (Zpos p)) by (apply Zdigits2_ge; simpl; lia).
  assert (Hprec : ez <= fexp64 (magnitude (Zpos mz) ez)).
  { rewrite Hmag, Hmin. change (Zpos (digits2_pos p)) with (Zdigits2 (Zpos p)).
    rewrite Z.add_0_r. fold (fexp64 (Zdigits2 (Zpos p))). lia. }
  destruct (binary_round_aux_canonical false (Zpos mz) ez loc_Exact
              ltac:(lia) Hprec)
    as [[_ [Hz|Hz]]|(m & e & E & Hc & Hhi & Hlo)]; try lia.
  exists m, e. rewrite E. rewrite Hmag in *.
  repeat split; try assumption; try lia.
Qed.

(** The float of a positive integer below [2 ^ 1023]. *)
Lemma f64_of_pos (n : Z) :
  0 < n -> Zdigits2 n <= 1023 ->
  exists (m : positive) (e : Z),
    f64_of n = S754_finite false m e /\
    e = fexp64 (magnitude (Zpos m) e) /\
    e <= 971 /\
    Zdigits2 n <= magnitude (Zpos m) e <= Zdigits2 n + 1.
Proof.
  intros Hn Hd.
  destruct (f64_of_pos_cases n Hn) as (m & e & E & Hc & Hmag).
  assert (1 <= Zdigits2 (Zpos m)) by (apply Zdigits2_ge; simpl; lia).
  assert (He : e <= 971) by (unfold fexp64, fexp, emin, magnitude in *; lia).
  exists m, e. rewrite E. simpl.
  replace (e <=? 1024 - 53) with true by (symmetry; apply Z.leb_le; lia).
  auto.
Qed.

(** The quotient mantissa that division hands to rounding: it is given
    with the precision of the format, and its magnitude is the difference
    of the magnitudes of the operands, or one more. *)
Lemma SFdiv_core_binary_spec (m1 m2 : positive) (e1 e2 : Z) :
  exists (q e' : Z) (l : location),
    SFdiv_core_binary 53 1024 (Zpos m1) e1 (Zpos m2) e2 = (q, e', l) /\
    0 <= q /\
    e' <= fexp64 (magnitude q e') /\
    magnitude q e'
      <= Z.max (magnitude (Zpos m1) e1 - magnitude (Zpos m2) e2 + 1) (-1074) /\
    (-1021 <= magnitude (Zpos m1) e1 - magnitude (Zpos m2) e2 ->
     0 < q /\ magnitude (Zpos m1) e1 - magnitude (Zpos m2) e2 <= magnitude q e').
Proof.
  unfold SFdiv_core_binary.
  set (d1 := Zdigits2 (Zpos m1)). set (d2 := Zdigits2 (Zpos m2)).
  fold (fexp64 (d1 + e1 - (d2 + e2))).
  set (e' := Z.min (fexp64 (d1 + e1 - (d2 + e2))) (e1 - e2)).
  set (s := e1 - e2 - e').
  assert (Hs : 0 <= s) by lia.
  set (m' := match s with Z0 => Zpos m1 | Zpos _ => Z.shiftl (Zpos m1) s | Zneg _ => 0 end).
  assert (Hm' : m' = Zpos m1 * 2 ^ s).
  { subst m'. destruct s as [|p|p] eqn:Es; try lia.
    apply Z.shiftl_mul_pow2. lia. }
  clearbody m'.
  pose proof (Z_div_mod m' (Zpos m2) ltac:(lia)) as Hdm.
  destruct (Z.div_eucl m' (Zpos m2)) as [q r]. destruct Hdm as [Hdm Hr].
  exists q, e', (new_location (Zpos m2) r). split; [reflexivity|].
  pose proof (Zdigits2_bounds (Zpos m1) ltac:(lia)) as [H1lo H1hi]. fold d1 in H1lo, H1hi.
  pose proof (Zdigits2_bounds (Zpos m2) ltac:(lia)) as [H2lo H2hi]. fold d2 in H2lo, H2hi.
  assert (Hd1 : 1 <= d1) by (apply Zdigits2_ge; simpl; lia).
  assert (Hd2 : 1 <= d2) by (apply Zdigits2_ge; simpl; lia).
  assert (Hps : 0 < 2 ^ s) by (apply Z.pow_pos_nonneg; lia).
  assert (Hq0 : 0 <= q) by nia.
  assert (Hm'lo : 2 ^ (d1 - 1 + s) <= m') by (rewrite Z.pow_add_r by lia; nia).
  assert (Hm'hi : m' < 2 ^ (d1 + s)) by (rewrite Z.pow_add_r by lia; nia).
  change (magnitude (Zpos m1) e1) with (d1 + e1).
  change (magnitude (Zpos m2) e2) with (d2 + e2).
  (* the quotient has at most [d1 + s - d2 + 1] digits *)
  assert (Hqhi : 0 < q -> Zdigits2 q <= d1 + s - d2 + 1).
  { intros Hq.
    destruct (Z_lt_le_dec (d1 + s - d2 + 1) 0) as [Hneg|Hnn].
    - exfalso.
      assert (2 ^ (d1 + s) <= 2 ^ (d2 - 1)) by (apply Z.pow_le_mono_r; lia). nia.
    - apply Zdigits2_le; [lia|]. split; [lia|].
      destruct (Z_lt_le_dec q (2 ^ (d1 + s - d2 + 1))) as [|Hge]; [assumption|exfalso].
      assert (2 ^ (d1 + s - d2 + 1) * 2 ^ (d2 - 1) <= q * Zpos m2) by nia.
      rewrite <- Z.pow_add_r in * by lia.
      replace (d1 + s - d2 + 1 + (d2 - 1)) with (d1 + s) in * by lia. lia. }
  (* with [d2 - d1 + 53] extra bits it has at least 53 *)
  assert (Hqlo : d2 - d1 + 53 <= s -> 2 ^ (d1 + s - d2 - 1) <= q).
  { intros Hs53.
    destruct (Z_lt_le_dec q (2 ^ (d1 + s - d2 - 1))) as [Hlt|]; [exfalso|assumption].
    assert (q + 1 <= 2 ^ (d1 + s - d2 - 1)) by lia.
    assert (m' < (q + 1) * Zpos m2) by nia.
    assert ((q + 1) * Zpos m2 <= 2 ^ (d1 + s - d2 - 1) * 2 ^ d2) by nia.
    rewrite <- Z.pow_add_r in * by lia.
    replace (d1 + s - d2 - 1 + d2) with (d1 - 1 + s) in * by lia. lia. }
  assert (Hnormal : -1021 <= d1 + e1 - (d2 + e2) ->
            0 < q /\ d1 + e1 - (d2 + e2) <= magnitude q e').
  { intros HD.
    assert (He' : e' <= d1 + e1 - (d2 + e2) - 53) by (unfold e', fexp64, fexp, emin; lia).
    specialize (Hqlo ltac:(lia)).
    assert (0 < 2 ^ (d1 + s - d2 - 1)) by (apply Z.pow_pos_nonneg; lia).
    split; [lia|]. unfold magnitude.
    assert (d1 + s - d2 <= Zdigits2 q); [|lia].
    apply Zdigits2_ge; [|lia].
    replace (d1 + s - d2 - 1) with (d1 + s - d2 - 1) by lia. assumption. }
  split; [assumption|]. split; [|split].
  - destruct (Z_le_gt_dec e' (-1074)) as [|Hgt]; [unfold fexp64, fexp, emin; lia|].
    assert (HD : -1021 <= d1 + e1 - (d2 + e2)) by (unfold e', fexp64, fexp, emin in *; lia).
    destruct (Hnormal HD) as [_ Hmag].
    assert (e' <= d1 + e1 - (d2 + e2) - 53) by (unfold e', fexp64, fexp, emin; lia).
    unfold fexp64, fexp, emin. lia.
  - destruct (Z.eq_dec q 0) as [->|Hne].
    + unfold magnitude. simpl Zdigits2.
      destruct (Z_le_gt_dec e' (-1074)) as [|Hgt]; [lia|].
      assert (HD : -1021 <= d1 + e1 - (d2 + e2)) by (unfold e', fexp64, fexp, emin in *; lia).
      destruct (Hnormal HD). lia.
    + specialize (Hqhi ltac:(lia)). unfold magnitude. lia.
  - intros HD. apply Hnormal. lia.
Qed.

Lemma binary_round_aux_sign (s : bool) (mx ex : Z) (l : location) :
  0 <= mx -> has_sign s (binary_round_aux 53 1024 s mx ex l).
Proof.
  intros Hmx.
  destruct (binary_round_aux_cases s mx ex l Hmx) as (m1 & Hm1 & ->).
  assert (0 <= mx / 2 ^ Z.max 0 (fexp64 (magnitude mx ex) - ex))
    by (apply Z.div_pos; lia).
  assert (Hm1' : 0 <= m1) by lia.
  match goal with |- has_sign _ (round_result _ (m1 / ?d) ?e) =>
    assert (Hq : 0 <= m1 / d) by (apply Z.div_pos; lia);
    destruct (m1 / d) as [|p|p]; try lia; simpl;
    try destruct (e <=? 1024 - 53); reflexivity
  end.
Qed.

Lemma f64_div_sign (a b : bool) (x : spec_float) (m : positive) (e : Z) :
  has_sign a x -> has_sign (xorb a b) (f64_div x (S754_finite b m e)).
Proof.
  destruct x as [s|s| |s mx ex]; simpl; try tauto; intros <-; try reflexivity.
  destruct (SFdiv_core_binary_spec mx m ex e) as (q & e' & l & E & Hq & _).
  rewrite E. apply binary_round_aux_sign. assumption.
Qed.

Lemma f64_mul_sign_r (a b : bool) (x : spec_float) (m : positive) (e : Z) :
  has_sign a x -> has_sign (xorb a b) (f64_mul x (S754_finite b m e)).
Proof.
  destruct x as [s|s| |s mx ex]; simpl; try tauto; intros <-; try reflexivity.
  apply binary_round_aux_sign. lia.
Qed.

Lemma f64_mul_sign_l (a b : bool) (x : spec_float) (m : positive) (e : Z) :
  has_sign a x -> has_sign (xorb b a) (f64_mul (S754_finite b m e) x).
Proof.
  destruct x as [s|s| |s mx ex]; simpl; try tauto; intros <-; try reflexivity.
  apply binary_round_aux_sign. lia.
Qed.

(** The quotient of two finite floats whose magnitudes differ by less than
    1023 is zero or a float of the format. *)
Lemma f64_div_bounded (s1 s2 : bool) (m1 m2 : positive) (e1 e2 : Z) :
  magnitude (Zpos m1) e1 - magnitude (Zpos m2) e2 < 1023 ->
  is_finite (f64_div (S754_finite s1 m1 e1) (S754_finite s2 m2 e2)) /\
  canonical (f64_div (S754_finite s1 m1 e1) (S754_finite s2 m2 e2)) /\
  magnitude_le (f64_div (S754_finite s1 m1 e1) (S754_finite s2 m2 e2))
    (Z.max (magnitude (Zpos m1) e1 - magnitude (Zpos m2) e2 + 2) (-1073)).
Proof.
  intros HD. unfold f64_div. simpl.
  destruct (SFdiv_core_binary_spec m1 m2 e1 e2) as (q & e' & l & E & Hq & Hprec & Hhi & _).
  rewrite E.
  destruct (binary_round_aux_bounded (xorb s1 s2) q e' l Hq Hprec ltac:(lia))
    as [[-> _]|(m & e & -> & Hc & He & Hm & _)]; simpl; auto.
  repeat split; auto. lia.
Qed.

Lemma Zdigits2_mul (a b : Z) :
  0 < a -> 0 < b ->
  Zdigits2 a + Zdigits2 b - 1 <= Zdigits2 (a * b) <= Zdigits2 a + Zdigits2 b.
Proof.
  intros Ha Hb.
  pose proof (Zdigits2_bounds a Ha) as [Halo Hahi].
  pose proof (Zdigits2_bounds b Hb) as [Hblo Hbhi].
  assert (1 <= Zdigits2 a) by (apply Zdigits2_ge; simpl; lia).
  assert (1 <= Zdigits2 b) by (apply Zdigits2_ge; simpl; lia).
  split.
  - apply Zdigits2_ge; [|nia].
    replace (Zdigits2 a + Zdigits2 b - 1 - 1) with ((Zdigits2 a - 1) + (Zdigits2 b - 1)) by lia.
    rewrite Z.pow_add_r by lia. nia.
  - apply Zdigits2_le; [lia|]. split; [nia|].
    rewrite Z.pow_add_r by lia. nia.
Qed.

(** The product of two floats of the format whose magnitudes add up to at
    most 1023 is zero or a float of the format. *)
Lemma f64_mul_bounded (s1 s2 : bool) (m1 m2 : positive) (e1 e2 : Z) :
  canonical (S754_finite s1 m1 e1) -> canonical (S754_finite s2 m2 e2) ->
  magnitude (Zpos m1) e1 + magnitude (Zpos m2) e2 <= 1023 ->
  is_finite (f64_mul (S754_finite s1 m1 e1) (S754_finite s2 m2 e2)) /\
  canonical (f64_mul (S754_finite s1 m1 e1) (S754_finite s2 m2 e2)) /\
  magnitude_le (f64_mul (S754_finite s1 m1 e1) (S754_finite s2 m2 e2))
    (Z.max (magnitude (Zpos m1) e1 + magnitude (Zpos m2) e2 + 1) (-1073)).
Proof.
  intros [Hc1 _] [Hc2 _] HD. unfold f64_mul. simpl SFmul.
  pose proof (Zdigits2_mul (Zpos m1) (Zpos m2) ltac:(lia) ltac:(lia)) as [Hlo Hhi].
  assert (1 <= Zdigits2 (Zpos m1)) by (apply Zdigits2_ge; simpl; lia).
  assert (1 <= Zdigits2 (Zpos m2)) by (apply Zdigits2_ge; simpl; lia).
  change (Zpos (m1 * m2)) with (Zpos m1 * Zpos m2).
  assert (Hprec : e1 + e2 <= fexp64 (magnitude (Zpos m1 * Zpos m2) (e1 + e2))).
  { unfold fexp64, fexp, emin, magnitude in *. lia. }
  assert (Hmag : magnitude (Zpos m1 * Zpos m2) (e1 + e2)
                 <= magnitude (Zpos m1) e1 + magnitude (Zpos m2) e2).
  { unfold magnitude. lia. }
  destruct (binary_round_aux_bounded (xorb s1 s2) (Zpos m1 * Zpos m2) (e1 + e2) loc_Exact
              ltac:(lia) Hprec ltac:(lia))
    as [[-> _]|(m & e & -> & Hc & He & Hm & _)]; simpl; auto.
  repeat split; auto. lia.
Qed.

(** Division of a non-negative integer by a positive one, when the
    quotient is below [2 ^ 1023]: the result is a float of the format that
    is zero or finite, with sign bit clear. *)
Lemma int_truediv_ok (a b : Z) :
  0 <= a -> 0 < b -> Zdigits2 a - Zdigits2 b < 1023 ->
  exists q,
    int_truediv a b = Ok q /\ is_finite q /\ has_sign false q /\ canonical q /\
    magnitude_le q (Z.max (Zdigits2 a - Zdigits2 b + 2) (-1073)).
Proof.
  intros Ha Hb Hd. unfold int_truediv.
  destruct (decide (b = 0)) as [|_]; [lia|].
  destruct b as [|pb|pb]; try lia.
  destruct a as [|pa|pa]; try lia.
  - eexists. simpl. repeat split.
  - simpl exact_int.
    destruct (f64_div_bounded false false pa pb 0 0) as (Hf & Hc & Hm).
    { unfold magnitude. lia. }
    pose proof (f64_div_sign false false (S754_finite false pa 0) pb 0 eq_refl) as Hs.
    unfold magnitude in Hm. rewrite !Z.add_0_r in Hm.
    destruct (f64_div (S754_finite false pa 0) (S754_finite false pb 0)) as [s|s| |s m e];
      simpl in Hf; try tauto; (eexists; split; [reflexivity|]; auto).
Qed.

Lemma Zdigits2_mono (a b : Z) : 0 <= a <= b -> Zdigits2 a <= Zdigits2 b.
Proof.
  intros [Ha Hab]. destruct (Z.eq_dec a 0) as [->|Hne].
  - apply Zdigits2_nonneg. lia.
  - apply Zdigits2_le.
    + apply Zdigits2_nonneg. lia.
    + pose proof (Zdigits2_bounds b ltac:(lia)). lia.
Qed.

Lemma py_int_finite (x : spec_float) : is_finite x -> exists n, py_int x = Ok n.
Proof. destruct x; simpl; try tauto; eauto. Qed.

Lemma iter_pos_nat {A : Type} (f : A -> A) (p : positive) : forall x : A,
  iter_pos f p x = Nat.iter (Pos.to_nat p) f x.
Proof.
  induction p as [p IH|p IH|]; intros x; simpl iter_pos.
  - rewrite !IH, Pos2Nat.inj_xI.
    replace (S (2 * Pos.to_nat p)) with (Pos.to_nat p + (Pos.to_nat p + 1))%nat by lia.
    rewrite !Nat.iter_add. reflexivity.
  - rewrite !IH, Pos2Nat.inj_xO.
    replace (2 * Pos.to_nat p)%nat with (Pos.to_nat p + Pos.to_nat p)%nat by lia.
    rewrite Nat.iter_add. reflexivity.
  - reflexivity.
Qed.

Lemma shr_1_even (m : Z) :
  0 <= m ->
  shr_1 {| shr_m := 2 * m; shr_r := false; shr_s := false |}
    = {| shr_m := m; shr_r := false; shr_s := false |}.
Proof. destruct m; try lia; reflexivity. Qed.

Lemma nat_iter_shr_exact (n : nat) : forall m : Z,
  0 <= m ->
  Nat.iter n shr_1 {| shr_m := m * 2 ^ Z.of_nat n; shr_r := false; shr_s := false |}
    = {| shr_m := m; shr_r := false; shr_s := false |}.
Proof.
  induction n as [|n IH]; intros m Hm.
  - simpl. rewrite Z.mul_1_r. reflexivity.
  - rewrite Nat2Z.inj_succ, Z.pow_succ_r by lia.
    replace (m * (2 * 2 ^ Z.of_nat n)) with ((2 * m) * 2 ^ Z.of_nat n) by lia.
    simpl Nat.iter. rewrite IH by lia. apply shr_1_even. assumption.
Qed.

(** Shifting out [k] zero bits is exact. *)
Lemma shr_exact (m e k : Z) :
  0 <= m -> 0 <= k ->
  shr {| shr_m := m * 2 ^ k; shr_r := false; shr_s := false |} e k
    = ({| shr_m := m; shr_r := false; shr_s := false |}, e + k).
Proof.
  intros Hm Hk. destruct k as [|p|p]; try lia; simpl shr.
  - rewrite Z.mul_1_r, Z.add_0_r. reflexivity.
  - rewrite iter_pos_nat. rewrite <- (positive_nat_Z p) at 1.
    rewrite nat_iter_shr_exact by assumption. reflexivity.
Qed.

(** A mantissa that is a mantissa of the format followed by [k] zero bits
    rounds to that mantissa. *)
Lemma binary_round_aux_exact (s : bool) (m : positive) (e k : Z) :
  0 <= k ->
  e + k = fexp64 (magnitude (Zpos m) (e + k)) ->
  e + k <= 971 ->
  binary_round_aux 53 1024 s (Zpos m * 2 ^ k) e loc_Exact = S754_finite s m (e + k).
Proof.
  intros Hk Hc He.
  unfold binary_round_aux, shr_fexp.
  rewrite Zdigits2_mul_pow2 by lia.
  replace (fexp 53 1024 (Zdigits2 (Zpos m) + k + e) - e) with k.
  2:{ unfold fexp64, magnitude in Hc.
      replace (Zdigits2 (Zpos m) + k + e) with (Zdigits2 (Zpos m) + (e + k)) by lia. lia. }
  simpl shr_record_of_loc. rewrite shr_exact by lia.
  simpl shr_m. simpl loc_of_shr_record. simpl round_nearest_even.
  replace (fexp 53 1024 (Zdigits2 (Zpos m) + (e + k)) - (e + k)) with 0.
  2:{ unfold fexp64, magnitude in Hc. lia. }
  simpl. replace (e + k <=? 1024 - 53) with true by (symmetry; apply Z.leb_le; lia).
  reflexivity.
Qed.

Lemma canonical_normal (m : positive) (e : Z) :
  e = fexp64 (magnitude (Zpos m) e) -> -1074 < e -> Zdigits2 (Zpos m) = 53.
Proof. unfold fexp64, fexp, emin, magnitude. lia. Qed.

(** Halving a float of the format that is at least 1. *)
Lemma f64_mul_half (m : positive) (e : Z) :
  e = fexp64 (magnitude (Zpos m) e) -> e <= 971 -> -1073 < e ->
  f64_mul (S754_finite false m e) (decimal 5 1) = S754_finite false m (e - 1).
Proof.
  intros Hc He Hlo.
  change (decimal 5 1) with (S754_finite false 4503599627370496 (-53)).
  unfold f64_mul. simpl SFmul.
  rewrite Pos2Z.inj_mul. change (Zpos 4503599627370496) with (2 ^ 52).
  replace (e + -53 + 52) with (e - 1) by lia.
  pose proof (canonical_normal m e Hc ltac:(lia)) as Hd.
  replace (S754_finite false m (e - 1)) with (S754_finite false m (e + -53 + 52))
    by (f_equal; lia).
  apply binary_round_aux_exact; try lia.
  unfold fexp64, fexp, emin, magnitude in *. lia.
Qed.

(** A float of the format divided by its half is 2. *)
Lemma f64_div_self_half (m : positive) (e : Z) :
  Zdigits2 (Zpos m) = 53 ->
  f64_div (S754_finite false m e) (S754_finite false m (e - 1))
    = S754_finite false 4503599627370496 (-51).
Proof.
  intros Hd. unfold f64_div. simpl SFdiv. unfold SFdiv_core_binary.
  rewrite Hd.
  replace (53 + e - (53 + (e - 1))) with 1 by lia.
  replace (e - (e - 1)) with 1 by lia.
  change (fexp 53 1024 1) with (-52).
  change (Z.min (-52) 1) with (-52).
  change (1 - -52) with 53. cbv iota.
  rewrite Z.shiftl_mul_pow2 by lia.
  pose proof (Z_div_mod (Zpos m * 2 ^ 53) (Zpos m) ltac:(lia)) as Hdm.
  destruct (Z.div_eucl (Zpos m * 2 ^ 53) (Zpos m)) as [q r].
  destruct Hdm as [Hdm Hr].
  assert (q = 2 ^ 53 /\ r = 0) as [-> ->].
  { apply (Z.div_mod_unique (Zpos m)); lia. }
  unfold new_location, new_location_even, new_location_odd.
  destruct (Z.even (Zpos m)); reflexivity.
Qed.
Lemma compare_scale (a b c : Z) : 0 < c -> (a * c ?= b * c) = (a ?= b).
Proof. intros Hc. symmetry. apply Zmult_compare_compat_r. lia. Qed.

(** Comparing a finite float with an integer, at any common scale. *)
Lemma compare_float_int_scaled (s : bool) (m : positive) (e n t : Z) :
  0 <= t -> 0 <= e + t ->
  compare_float_int (S754_finite s m e) n
    = Some ((if s then Zneg m else Zpos m) * 2 ^ (e + t) ?= n * 2 ^ t).
Proof.
  intros Ht Het. simpl. f_equal.
  set (z := if s then Zneg m else Zpos m).
  assert (Hpt : 0 < 2 ^ t) by (apply Z.pow_pos_nonneg; lia).
  destruct e as [|p|p].
  - rewrite Z.add_0_l, Z.pow_0_r, Z.mul_1_r.
    symmetry. apply compare_scale. assumption.
  - rewrite Z.pow_add_r by lia. rewrite Z.mul_assoc.
    symmetry. apply compare_scale. assumption.
  - replace t with (Zpos p + (Z.neg p + t)) at 2 by lia.
    rewrite (Z.pow_add_r 2 (Zpos p)) by lia. rewrite Z.mul_assoc.
    assert (0 < 2 ^ (Z.neg p + t)) by (apply Z.pow_pos_nonneg; lia).
    symmetry. apply compare_scale. assumption.
Qed.

(** Multiplying a float of the format by 16 is exact. *)
Lemma f64_mul_16 (s : bool) (m : positive) (e : Z) :
  canonical (S754_finite s m e) ->
  magnitude (Zpos m) e <= 1020 ->
  exists (m' : positive) (e' k : Z),
    f64_mul (S754_finite s m e) (S754_finite false 4503599627370496 (-48))
      = S754_finite s m' e' /\
    0 <= k <= 52 /\
    Zpos m' * 2 ^ k = Zpos m * 2 ^ 52 /\
    e' = e - 48 + k.
Proof.
  intros [Hc He] Hmag.
  assert (Hd : 1 <= Zdigits2 (Zpos m)) by (apply Zdigits2_ge; simpl; lia).
  set (k := fexp64 (magnitude (Zpos m) e + 4) - (e - 48)).
  assert (Hk : 48 <= k <= 52) by (unfold k, fexp64, fexp, emin, magnitude in *; lia).
  assert (Hpos : 0 < Zpos m * 2 ^ (52 - k)).
  { assert (0 < 2 ^ (52 - k)) by (apply Z.pow_pos_nonneg; lia). lia. }
  destruct (Zpos m * 2 ^ (52 - k)) as [|m'|m'] eqn:Em'; try lia.
  assert (Hm' : Zpos m' * 2 ^ k = Zpos m * 2 ^ 52).
  { rewrite <- Em'. rewrite <- Z.mul_assoc, <- Z.pow_add_r by lia.
    do 2 f_equal. lia. }
  exists m', (e - 48 + k), k.
  split; [|split; [lia|split; [exact Hm'|reflexivity]]].
  unfold f64_mul. simpl SFmul. rewrite xorb_false_r.
  rewrite Pos2Z.inj_mul. change (Zpos 4503599627370496) with (2 ^ 52).
  rewrite <- Hm'.
  replace (e + -48) with (e - 48) by lia.
  apply binary_round_aux_exact; try lia.
  - unfold magnitude. rewrite <- Em'.
    rewrite Zdigits2_mul_pow2 by lia.
    unfold k, magnitude. f_equal. unfold fexp64, fexp, emin. lia.
  - unfold k, fexp64, fexp, emin, magnitude in *. lia.
Qed.

(** Comparing sixteen times a float with sixteen times an integer. *)
Lemma compare_float_int_mul_16 (s : bool) (m : positive) (e n : Z) :
  canonical (S754_finite s m e) ->
  magnitude (Zpos m) e <= 1020 ->
  compare_float_int
    (f64_mul (S754_finite s m e) (S754_finite false 4503599627370496 (-48))) (n * 16)
  = compare_float_int (S754_finite s m e) n.
Proof.
  intros Hc Hmag.
  destruct (f64_mul_16 s m e Hc Hmag) as (m' & e' & k & -> & Hk & Hm' & ->).
  set (t := Z.max 0 (48 - e)).
  rewrite (compare_float_int_scaled s m' (e - 48 + k) (n * 16) t) by lia.
  rewrite (compare_float_int_scaled s m e n t) by lia.
  f_equal.
  assert (Hpt : 0 < 2 ^ t) by (apply Z.pow_pos_nonneg; lia).
  replace (e - 48 + k + t) with (k + (e - 48 + t)) by lia.
  rewrite Z.pow_add_r by lia.
  replace ((if s then Z.neg m' else Z.pos m') * (2 ^ k * 2 ^ (e - 48 + t)))
    with ((if s then Z.neg m else Z.pos m) * 2 ^ 52 * 2 ^ (e - 48 + t)).
  2:{ destruct s.
      - change (Z.neg m) with (- Zpos m). change (Z.neg m') with (- Zpos m'). nia.
      - nia. }
  rewrite <- Z.mul_assoc, <- Z.pow_add_r by lia.
  replace (52 + (e - 48 + t)) with (e + t + 4) by lia.
  rewrite Z.pow_add_r by lia.
  replace ((if s then Z.neg m else Z.pos m) * (2 ^ (e + t) * 2 ^ 4))
    with ((if s then Z.neg m else Z.pos m) * 2 ^ (e + t) * 16) by (simpl; lia).
  replace (n * 16 * 2 ^ t) with (n * 2 ^ t * 16) by lia.
  apply compare_scale. lia.
Qed.

Lemma magnitude_le_weaken (x : spec_float) (b b' : Z) :
  magnitude_le x b -> b <= b' -> magnitude_le x b'.
Proof. destruct x; simpl; auto. lia. Qed.

(** The digits that the division of two integers hands to rounding: the
    quotient of the dividend, shifted left, by the divisor. *)
Lemma SFdiv_core_binary_int (a b : positive) :
  exists (s : Z) (l : location),
    0 <= s /\
    SFdiv_core_binary 53 1024 (Zpos a) 0 (Zpos b) 0 = (Zpos a * 2 ^ s / Zpos b, - s, l).
Proof.
  unfold SFdiv_core_binary.
  set (e' := Z.min (fexp 53 1024 (Zdigits2 (Zpos a) + 0 - (Zdigits2 (Zpos b) + 0))) (0 - 0)).
  set (s := 0 - 0 - e').
  assert (Hs : 0 <= s) by lia.
  set (m' := match s with Z0 => Zpos a | Zpos _ => Z.shiftl (Zpos a) s | Zneg _ => 0 end).
  assert (Hm' : m' = Zpos a * 2 ^ s).
  { subst m'. destruct s as [|p|p] eqn:Es; try lia.
    apply Z.shiftl_mul_pow2. lia. }
  clearbody m'.
  exists s. rewrite <- Hm'. unfold Z.div.
  destruct (Z.div_eucl m' (Zpos b)) as [q r].
  exists (new_location (Zpos b) r). split; [assumption|].
  replace (- s) with e' by lia. reflexivity.
Qed.

(** Dividing an integer below 2^52 in size by 5 and cutting the float to
    its integer part gives the integer quotient towards zero: rounding
    moves the quotient by less than the fifth that separates it from the
    next integer. *)
Lemma py_int_div_5 (sg : bool) (a : positive) :
  Zpos a < 2 ^ 52 ->
  py_int (f64_div (S754_finite sg a 0) (S754_finite false 5 0))
  = Ok (if sg then - (Zpos a / 5) else Zpos a / 5).
Proof.
  intros Ha. unfold f64_div, SFdiv.
  destruct (SFdiv_core_binary_spec a 5 0 0) as (q & e' & l & E & Hq & Hprec & Hhi & _).
  destruct (SFdiv_core_binary_int a 5) as (s & l' & Hs & E').
  rewrite E in E'. injection E' as Eq Ee _. rewrite E.
  destruct (binary_round_aux_cases (xorb sg false) q e' l Hq) as (m1 & Hm1 & ->).
  rewrite xorb_false_r.
  set (T := Z.max 0 (fexp64 (magnitude q e') - e')) in *.
  set (T2 := Z.max 0 (fexp64 (magnitude m1 (e' + T)) - (e' + T))) in *.
  set (N := Zpos a / 5).
  (* the exponent after the first shift is at most -3 *)
  assert (Hda : Zdigits2 (Zpos a) <= 52) by (apply Zdigits2_le; lia).
  change (magnitude (Zpos 5) 0) with 3 in Hhi.
  unfold magnitude at 2 in Hhi. rewrite Z.add_0_r in Hhi.
  set (W := - (e' + T)).
  assert (HW : 3 <= W) by (unfold W, T, fexp64, fexp, emin in *; lia).
  assert (HsW : s = W + T) by lia.
  assert (HT : 0 <= T) by lia.
  (* the mantissa before rounding *)
  assert (Hm0 : q / 2 ^ T = Zpos a * 2 ^ W / 5).
  { rewrite Eq, HsW, Z.pow_add_r by lia.
    rewrite Z.div_div by (try apply Z.pow_pos_nonneg; lia).
    rewrite Z.mul_assoc.
    apply Z.div_mul_cancel_r; first [lia | apply Z.pow_nonzero; lia]. }
  assert (HpW : 8 <= 2 ^ W).
  { change 8 with (2 ^ 3). apply Z.pow_le_mono_r; lia. }
  pose proof (Z.mul_div_le (Zpos a * 2 ^ W) 5 ltac:(lia)) as Hlo0.
  pose proof (Z.mul_succ_div_gt (Zpos a * 2 ^ W) 5 ltac:(lia)) as Hhi0.
  pose proof (Z.mul_div_le (Zpos a) 5 ltac:(lia)) as HNlo. fold N in HNlo.
  pose proof (Z.mul_succ_div_gt (Zpos a) 5 ltac:(lia)) as HNhi. fold N in HNhi.
  assert (HN0 : 0 <= N) by (apply Z.div_pos; lia).
  assert (Hlo : N * 2 ^ W <= m1) by nia.
  assert (Hhi1 : m1 < (N + 1) * 2 ^ W) by nia.
  (* the second shift stays below the binary point *)
  assert (HNb : N + 1 <= 2 ^ 50).
  { change (2 ^ 52) with (4 * 2 ^ 50) in Ha. lia. }
  assert (Hdm1 : Zdigits2 m1 <= 50 + W).
  { apply Zdigits2_le; [lia|]. split; [nia|].
    rewrite Z.pow_add_r by lia. nia. }
  assert (HT2 : 0 <= T2 <= W - 3).
  { unfold T2, magnitude, fexp64, fexp, emin. fold W.
    replace (e' + T) with (- W) by lia. lia. }
  assert (Hexp : e' + T + T2 = - (W - T2)) by lia.
  rewrite Hexp.
  assert (Hdiv : m1 / 2 ^ T2 / 2 ^ (W - T2) = N).
  { rewrite Z.div_div by (try apply Z.pow_pos_nonneg; lia).
    rewrite <- Z.pow_add_r by lia. replace (T2 + (W - T2)) with W by lia.
    symmetry. apply (Z.div_unique _ _ N (m1 - N * 2 ^ W)); lia. }
  assert (Hmf : 0 <= m1 / 2 ^ T2) by (apply Z.div_pos; [nia|apply Z.pow_pos_nonneg; lia]).
  destruct (m1 / 2 ^ T2) as [|mf|mf] eqn:Emf; try lia.
  - simpl. rewrite Z.div_0_l in Hdiv by (apply Z.pow_nonzero; lia).
    rewrite <- Hdiv. destruct sg; reflexivity.
  - unfold round_result.
    replace (- (W - T2) <=? 1024 - 53) with true by (symmetry; apply Z.leb_le; lia).
    destruct (W - T2) as [|k|k] eqn:Ek; try lia.
    simpl. rewrite Hdiv. reflexivity.
Qed.

(** An integer below 2^53 is a float: its conversion is exact. *)
Lemma f64_of_exact (p : positive) :
  Zdigits2 (Zpos p) <= 53 ->
  f64_of (Zpos p)
  = S754_finite false (Z.to_pos (Zpos p * 2 ^ (53 - Zdigits2 (Zpos p))))
      (Zdigits2 (Zpos p) - 53).
Proof.
  intros Hd.
  assert (Hd1 : 1 <= Zdigits2 (Zpos p)) by (apply Zdigits2_ge; simpl; lia).
  unfold f64_of, binary_normalize, binary_round.
  destruct (shl_align_spec p 0 (fexp 53 1024 (Zpos (digits2_pos p) + 0)))
    as (k & Hk & Hm & He & Hmin).
  destruct (shl_align p 0 (fexp 53 1024 (Zpos (digits2_pos p) + 0))) as [mz ez].
  simpl in Hm, He, Hmin.
  change (Zpos (digits2_pos p)) with (Zdigits2 (Zpos p)) in Hmin.
  assert (Hez : ez = Zdigits2 (Zpos p) - 53) by (unfold fexp, emin in Hmin; lia).
  assert (Hkk : k = 53 - Zdigits2 (Zpos p)) by lia.
  rewrite <- Hkk, <- Hm. simpl Z.to_pos. rewrite Hez.
  rewrite <- (Z.mul_1_r (Zpos mz)). change 1 with (2 ^ 0) at 1.
  replace (Zdigits2 (Zpos p) - 53) with (Zdigits2 (Zpos p) - 53 + 0) at 2 by lia.
  apply binary_round_aux_exact; try lia.
  unfold fexp64, fexp, emin, magnitude. rewrite Hm, Zdigits2_mul_pow2 by lia. lia.
Qed.

(** A float divided by itself is 1. *)
Lemma f64_div_same (m : positive) (e : Z) :
  f64_div (S754_finite false m e) (S754_finite false m e)
  = S754_finite false 4503599627370496 (-52).
Proof.
  unfold f64_div. simpl SFdiv. unfold SFdiv_core_binary.
  replace (Zdigits2 (Zpos m) + e - (Zdigits2 (Zpos m) + e)) with 0 by lia.
  replace (e - e) with 0 by lia.
  change (fexp 53 1024 0) with (-53).
  change (Z.min (-53) 0) with (-53).
  change (0 - -53) with 53. cbv iota.
  rewrite Z.shiftl_mul_pow2 by lia.
  pose proof (Z_div_mod (Zpos m * 2 ^ 53) (Zpos m) ltac:(lia)) as Hdm.
  destruct (Z.div_eucl (Zpos m * 2 ^ 53) (Zpos m)) as [q r].
  destruct Hdm as [Hdm Hr].
  assert (q = 2 ^ 53 /\ r = 0) as [-> ->].
  { apply (Z.div_mod_unique (Zpos m)); lia. }
  unfold new_location, new_location_even, new_location_odd.
  destruct (Z.even (Zpos m)); reflexivity.
Qed.

(** [float(n)], when it returns, is the float nearest to [n]. *)
Lemma float_of_int_eq (n : Z) (x : spec_float) :
  float_of_int n = Ok x -> x = f64_of n.
Proof.
  unfold float_of_int. destruct (f64_of n); intros E; try discriminate;
    injection E as <-; reflexivity.
Qed.
Lemma Zdigits2_mono_bound (n : Z) : 0 <= n < 2 ^ 1023 -> Zdigits2 n <= 1023.
Proof. intros H. apply Zdigits2_le; lia. Qed.

(** [float(n)] for a natural number below [2 ^ 1023]. *)
Lemma float_of_int_nat (n : Z) :
  0 <= n < 2 ^ 1023 ->
  exists x, float_of_int n = Ok x /\ is_finite x /\ has_sign false x /\ canonical x /\
    (0 < n -> exists m e, x = S754_finite false m e /\ -52 <= e).
Proof.
  intros Hn. destruct (Z.eq_dec n 0) as [->|Hne].
  - exists (S754_zero false). repeat split. lia.
  - destruct (f64_of_pos n ltac:(lia) (Zdigits2_mono_bound n Hn))
      as (m & e & E & Hc & He & Hlo & Hhi).
    exists (S754_finite false m e). unfold float_of_int. rewrite E.
    repeat split; try assumption. intros _. exists m, e. split; [reflexivity|].
    assert (1 <= Zdigits2 n) by (apply Zdigits2_ge; simpl; lia).
    unfold fexp64, fexp, emin in Hc. lia.
Qed.

(** What [float(n)] returns, when it returns, for a natural number. *)
Lemma float_of_int_inv (n : Z) (x : spec_float) :
  0 <= n -> float_of_int n = Ok x ->
  is_finite x /\ has_sign false x /\ canonical x /\
  (0 < n ->
   exists m e,
     x = S754_finite false m e /\ -52 <= e /\
     Zdigits2 n <= magnitude (Zpos m) e <= Zdigits2 n + 1).
Proof.
  intros Hn. destruct (Z.eq_dec n 0) as [->|Hne].
  - intros E. injection E as <-. repeat split. lia.
  - destruct (f64_of_pos_cases n ltac:(lia)) as (m & e & E & Hc & Hlo & Hhi).
    unfold float_of_int. rewrite E. simpl round_result.
    destruct (Z.leb_spec e (1024 - 53)) as [He|He]; [|discriminate].
    intros Ex. injection Ex as <-.
    repeat split; try assumption; try lia.
    intros _. exists m, e. split; [reflexivity|].
    assert (1 <= Zdigits2 n) by (apply Zdigits2_ge; simpl; lia).
    unfold fexp64, fexp, emin in Hc. lia.
Qed.

Ltac run_result := unfold mbind, result_bind, mret, result_ret.

Ltac head_result :=
  match goal with
  | |- (match ?r with Ok _ => _ | Raise _ => _ end) = _ -> _ =>
      destruct r eqn:?; [|discriminate]
  | |- (if ?b then _ else _) = _ -> _ => destruct b eqn:?
  end.

Lemma float_truediv_finite (x : spec_float) (s : bool) (m : positive) (e : Z) :
  float_truediv x (S754_finite s m e) = Ok (f64_div x (S754_finite s m e)).
Proof. reflexivity. Qed.

(** [max_value * .5] for a positive maximum: when the conversion of the
    maximum returns, halving it is exact. *)
Lemma half_max_inv (max_value : Z) (half : spec_float) :
  0 < max_value ->
  int_mul_float max_value (decimal 5 1) = Ok half ->
  exists m e,
    float_of_int max_value = Ok (S754_finite false m e) /\
    Zdigits2 (Zpos m) = 53 /\
    Zdigits2 max_value <= magnitude (Zpos m) e /\
    half = S754_finite false m (e - 1).
Proof.
  intros Hm. unfold int_mul_float. run_result.
  destruct (float_of_int max_value) as [x|] eqn:E; [|discriminate].
  destruct (float_of_int_inv max_value x ltac:(lia) E) as (_ & _ & Hc & Hpos).
  destruct (Hpos Hm) as (m & e & -> & He & Hmag). destruct Hc as [Hc Hhi].
  rewrite f64_mul_half by (assumption || lia).
  intros Eh. injection Eh as <-. exists m, e.
  split; [reflexivity|]. split; [|split; [lia|reflexivity]].
  apply (canonical_normal m e Hc). lia.
Qed.

Lemma half_max_ok (max_value : Z) :
  0 < max_value < 2 ^ 1023 ->
  exists half, int_mul_float max_value (decimal 5 1) = Ok half.
Proof.
  intros Hm.
  destruct (float_of_int_nat max_value ltac:(lia)) as (x & E & _).
  unfold int_mul_float. rewrite E. eexists. reflexivity.
Qed.

(** The ratio [value / (max_value*.5)]: it is not negative; when the value
    is at most the maximum it is a float of the format, zero or finite, of
    magnitude at most 4; and at full scale it is 2. *)
Lemma half_scale_ratio_inv (value max_value : Z) (half ratio : spec_float) :
  0 < max_value -> 0 <= value ->
  int_mul_float max_value (decimal 5 1) = Ok half ->
  int_div_float value half = Ok ratio ->
  has_sign false ratio /\
  (value <= max_value -> is_finite ratio /\ canonical ratio /\ magnitude_le ratio 4) /\
  (value = max_value -> ratio = S754_finite false 4503599627370496 (-51)).
Proof.
  intros Hm Hv Eh.
  destruct (half_max_inv max_value half Hm Eh) as (m & e & Em & Hd & Hmag & ->).
  unfold int_div_float. run_result.
  destruct (float_of_int value) as [x|] eqn:Ex; [|discriminate].
  destruct (float_of_int_inv value x Hv Ex) as (_ & Hs & _ & Hpos).
  rewrite float_truediv_finite. intros Er. injection Er as <-. split; [|split].
  - apply (f64_div_sign false false). assumption.
  - intros Hle. destruct (Z.eq_dec value 0) as [->|Hne].
    + injection Ex as <-. simpl. auto.
    + destruct (Hpos ltac:(lia)) as (mv & ev & -> & _ & _ & Hvhi).
      pose proof (Zdigits2_mono value max_value ltac:(lia)) as Hmono.
      destruct (f64_div_bounded false false mv m ev (e - 1)) as (Hf & Hc & Hb).
      { unfold magnitude in *. lia. }
      split; [exact Hf|]. split; [exact Hc|].
      destruct (f64_div (S754_finite false mv ev) (S754_finite false m (e - 1)));
        simpl in *; auto.
      unfold magnitude in *. lia.
  - intros ->. rewrite Em in Ex. injection Ex as <-.
    apply f64_div_self_half. assumption.
Qed.

Lemma half_scale_ratio_ok (value max_value : Z) (half : spec_float) :
  0 < max_value -> 0 <= value < 2 ^ 1023 ->
  int_mul_float max_value (decimal 5 1) = Ok half ->
  exists ratio, int_div_float value half = Ok ratio.
Proof.
  intros Hm Hv Eh.
  destruct (half_max_inv max_value half Hm Eh) as (m & e & _ & _ & _ & ->).
  destruct (float_of_int_nat value Hv) as (x & Ex & _).
  unfold int_div_float. rewrite Ex. eexists. reflexivity.
Qed.

Lemma compare_nonpositive (a : spec_float) :
  has_sign true a ->
  compare_float_int a 0 = Some Lt \/ compare_float_int a 0 = Some Eq.
Proof.
  destruct a as [s|s| |s m e]; simpl; try tauto; intros ->; auto.
  left. destruct e as [|p|p]; try reflexivity.
  f_equal. apply Z.compare_lt_iff.
  assert (0 < 2 ^ Zpos p) by (apply Z.pow_pos_nonneg; lia). nia.
Qed.

Lemma float_lt_int_false (a : spec_float) (b : bool) (n : Z) :
  has_sign b a -> float_lt_int a n = false ->
  compare_float_int a n = Some Gt \/ compare_float_int a n = Some Eq.
Proof.
  unfold float_lt_int. intros Hs.
  destruct (compare_float_int a n) as [[]|] eqn:E; auto; try discriminate.
  destruct a; simpl in *; try discriminate; tauto.
Qed.

Lemma int_truediv_small (a b : Z) :
  0 <= a < 2 ^ 1025 -> 4 <= b ->
  exists q, int_truediv a b = Ok q /\ is_finite q /\ has_sign false q.
Proof.
  intros Ha Hb.
  assert (Zdigits2 a <= 1025) by (apply Zdigits2_le; lia).
  assert (3 <= Zdigits2 b) by (apply Zdigits2_ge; simpl; lia).
  destruct (int_truediv_ok a b) as (q & E & Hf & Hs & _); try lia.
  exists q. auto.
Qed.

(** Half of a widget dimension. *)
Lemma int_truediv_by_2 (a : Z) :
  0 <= a < 2 ^ 31 ->
  exists q,
    int_truediv a 2 = Ok q /\ is_finite q /\ has_sign false q /\ canonical q /\
    magnitude_le q 31.
Proof.
  intros Ha.
  assert (Zdigits2 a <= 31) by (apply Zdigits2_le; lia).
  assert (0 <= Zdigits2 a) by (apply Zdigits2_nonneg; lia).
  destruct (int_truediv_ok a 2) as (q & E & Hf & Hs & Hc & Hm); try lia.
  { change (Zdigits2 2) with 2. lia. }
  exists q. repeat split; try assumption.
  change (Zdigits2 2) with 2 in Hm.
  destruct q; simpl in *; auto. lia.
Qed.

(** The size factor [min(width, height) / 2 * k] of a widget: a float that
    is zero or finite, with sign bit clear. *)
Lemma size_factor_finite (half : spec_float) (k : Z) :
  is_finite half -> has_sign false half -> canonical half -> magnitude_le half 31 ->
  1 <= k <= 9 ->
  is_finite (f64_mul half (decimal k 1)) /\ has_sign false (f64_mul half (decimal k 1)).
Proof.
  intros Hf Hs Hc Hm Hk.
  assert (Hdec : exists m e,
            decimal k 1 = S754_finite false m e /\
            canonical (S754_finite false m e) /\ magnitude (Zpos m) e <= 0).
  { assert (k = 1 \/ k = 2 \/ k = 3 \/ k = 4 \/ k = 5 \/ k = 6 \/ k = 7 \/ k = 8 \/ k = 9)
      as [->|[->|[->|[->|[->|[->|[->|[->| ->]]]]]]]] by lia;
      eexists _, _; (split; [vm_compute; reflexivity|]);
      (split; [split; vm_compute; congruence|vm_compute; congruence]). }
  destruct Hdec as (m & e & -> & Hcd & Hmd).
  destruct half as [s|s| |s mh eh]; simpl in Hf, Hs; try tauto; subst s.
  - split; simpl; auto.
  - destruct (f64_mul_bounded false false mh m eh e Hc Hcd) as (Hfin & _).
    { simpl in Hm. lia. }
    split; [exact Hfin|]. apply (f64_mul_sign_r false false). reflexivity.
Qed.

(** [int(max_value * k / 5)] returns for a maximum below [2 ^ 1023]. *)
Lemma tick_label_ok (max_value k : Z) :
  0 <= max_value < 2 ^ 1023 -> 0 <= k <= 4 ->
  exists q n,
    int_truediv (max_value * k) 5 = Ok q /\ is_finite q /\ py_int q = Ok n.
Proof.
  intros Hm Hk.
  destruct (int_truediv_small (max_value * k) 5) as (q & E & Hf & _); [|lia|].
  { change (2 ^ 1025) with (2 ^ 1023 * 4). nia. }
  destruct (py_int_finite q Hf) as (n & En).
  exists q, n. auto.
Qed.


(** The tachometer's [arc_value]: it is not positive; with the value at
    most the maximum it is a float of the format, zero or finite, of
    magnitude at most 14; and at full scale it is below -90. *)
Lemma tachometer_arc_value_inv (g : Tachometer.t) (a : spec_float) :
  0 < Tachometer.max_value g -> 0 <= Tachometer.value g ->
  Tachometer.arc_value g = Ok a ->
  has_sign true a /\
  (Tachometer.value g <= Tachometer.max_value g ->
   is_finite a /\ canonical a /\ magnitude_le a 14) /\
  (Tachometer.value g = Tachometer.max_value g -> float_lt_int a (-90) = true).
Proof.
  intros Hm Hv. unfold Tachometer.arc_value. run_result.
  destruct (int_mul_float (Tachometer.max_value g) (decimal 5 1)) as [half|] eqn:Eh;
    [|discriminate].
  destruct (int_div_float (Tachometer.value g) half) as [ratio|] eqn:Er; [|discriminate].
  destruct (half_scale_ratio_inv _ _ _ _ Hm Hv Eh Er) as (Hs & Hbound & Hfull).
  unfold float_mul_int, int_mul_float.
  change (float_of_int 90) with (Ok (S754_finite false 6333186975989760 (-46))).
  change (float_of_int (-1)) with (Ok (S754_finite true 4503599627370496 (-52))).
  run_result. intros E. injection E as <-. split; [|split].
  - apply (f64_mul_sign_l false true).
    apply (f64_mul_sign_r false false). assumption.
  - intros Hle. destruct (Hbound Hle) as (Hf & Hc & Hmag).
    destruct ratio as [s|s| |s mr er]; simpl in Hf; try tauto; [].
    destruct (f64_mul_bounded s false mr 6333186975989760 er (-46) Hc)
      as (Hf1 & Hc1 & Hm1).
    { split; vm_compute; congruence. }
    { simpl in Hmag. change (magnitude (Zpos 6333186975989760) (-46)) with 7. lia. }
    change (magnitude (Zpos 6333186975989760) (-46)) with 7 in Hm1.
    destruct (f64_mul (S754_finite s mr er) (S754_finite false 6333186975989760 (-46)))
      as [s1|s1| |s1 m1 e1]; simpl in Hf1; try tauto; [].
    destruct (f64_mul_bounded true s1 4503599627370496 m1 (-52) e1) as (Hf2 & Hc2 & Hm2).
    { split; vm_compute; congruence. }
    { exact Hc1. }
    { simpl in Hm1, Hmag. change (magnitude (Zpos 4503599627370496) (-52)) with 1. lia. }
    split; [exact Hf2|]. split; [exact Hc2|].
    change (magnitude (Zpos 4503599627370496) (-52)) with 1 in Hm2.
    simpl in Hm1, Hmag.
    apply (magnitude_le_weaken _ _ 14) in Hm2; [exact Hm2 | lia].
  - intros Heq. rewrite (Hfull Heq). vm_compute. reflexivity.
Qed.

Lemma tachometer_arc_value_ok (g : Tachometer.t) :
  0 < Tachometer.max_value g < 2 ^ 1023 ->
  0 <= Tachometer.value g <= Tachometer.max_value g ->
  exists a, Tachometer.arc_value g = Ok a.
Proof.
  intros Hm Hv.
  destruct (half_max_ok _ Hm) as (half & Eh).
  destruct (half_scale_ratio_ok (Tachometer.value g) (Tachometer.max_value g) half
              ltac:(lia) ltac:(lia) Eh)
    as (ratio & Er).
  unfold Tachometer.arc_value. rewrite Eh. run_result. rewrite Er.
  unfold float_mul_int, int_mul_float.
  change (float_of_int 90) with (Ok (S754_finite false 6333186975989760 (-46))).
  change (float_of_int (-1)) with (Ok (S754_finite true 4503599627370496 (-52))).
  eexists. reflexivity.
Qed.

(** The arc the tachometer draws: the clamped [arc_value], in sixteenths of
    a degree. *)
Lemma tachometer_fill_arc_inv (g : Tachometer.t) (arc : paint_cmd) :
  0 < Tachometer.max_value g ->
  0 <= Tachometer.value g <= Tachometer.max_value g ->
  Tachometer.fill_arc g = Ok arc ->
  exists a span,
    Tachometer.arc_value g = Ok a /\
    sixteenths (clamp_below (-90) a) = Ok span /\
    arc = FillArc (IntNum (180 * 16)) span /\
    in_interval (-90) 0 (clamp_below (-90) a) /\
    in_interval (-90 * 16) 0 span /\
    (Tachometer.value g = Tachometer.max_value g ->
     clamp_below (-90) a = IntNum (-90) /\ span = IntNum (-90 * 16)).
Proof.
  intros Hm Hv. unfold Tachometer.fill_arc. run_result.
  destruct (Tachometer.arc_value g) as [a|] eqn:Ea; [|discriminate].
  destruct (tachometer_arc_value_inv g a Hm ltac:(lia) Ea) as (Hs & Hbound & Hfull).
  destruct (Hbound ltac:(lia)) as (Hf & Hc & Hmag).
  unfold clamp_below, in_interval.
  destruct (float_lt_int a (-90)) eqn:Hlt.
  - intros E. injection E as <-.
    exists a, (IntNum (-90 * 16)). rewrite Hlt. repeat split; auto.
  - unfold sixteenths, float_mul_int.
    change (float_of_int 16) with (Ok (S754_finite false 4503599627370496 (-48))).
    run_result. intros E. injection E as <-.
    eexists a, _. rewrite Hlt. split; [reflexivity|]. split; [reflexivity|].
    split; [reflexivity|].
    pose proof (float_lt_int_false a true (-90) Hs Hlt) as Hlo.
    pose proof (compare_nonpositive a Hs) as Hhi.
    split; [split; assumption|]. split.
    + destruct a as [s|s| |s ma ea]; simpl in Hf, Hs; try tauto; subst s;
        try solve [simpl; auto]; [].
      assert (Hmag' : magnitude (Zpos ma) ea <= 1020) by (simpl in Hmag; lia).
      pose proof (compare_float_int_mul_16 true ma ea (-90) Hc Hmag') as E1.
      pose proof (compare_float_int_mul_16 true ma ea 0 Hc Hmag') as E2.
      change (0 * 16) with 0 in E2.
      cbv beta iota delta [compare_num_int].
      rewrite E1, E2. split; assumption.
    + intros Heq. specialize (Hfull Heq). discriminate.
Qed.

Lemma tachometer_fill_arc_ok (g : Tachometer.t) :
  0 < Tachometer.max_value g < 2 ^ 1023 ->
  0 <= Tachometer.value g <= Tachometer.max_value g ->
  exists arc, Tachometer.fill_arc g = Ok arc.
Proof.
  intros Hm Hv. destruct (tachometer_arc_value_ok g Hm Hv) as (a & Ea).
  unfold Tachometer.fill_arc. rewrite Ea. run_result.
  destruct (float_lt_int a (-90)); [eexists; reflexivity|].
  unfold float_mul_int.
  change (float_of_int 16) with (Ok (S754_finite false 4503599627370496 (-48))).
  eexists. reflexivity.
Qed.

Lemma tachometer_fill_line_arcs (g : Tachometer.t) (size_factor : spec_float)
    (line : list paint_cmd) :
  Tachometer.fill_line g size_factor = Ok line -> arcs line = [].
Proof.
  unfold Tachometer.fill_line. run_result.
  repeat head_result; intros E; injection E as <-; reflexivity.
Qed.

Lemma tachometer_fill_line_ok (g : Tachometer.t) (size_factor : spec_float) :
  0 < Tachometer.max_value g < 2 ^ 1023 ->
  0 <= Tachometer.value g <= Tachometer.max_value g ->
  exists line, Tachometer.fill_line g size_factor = Ok line.
Proof.
  intros Hm Hv.
  destruct (half_max_ok _ Hm) as (half & Eh).
  destruct (half_max_inv (Tachometer.max_value g) half ltac:(lia) Eh) as (m & e & _ & _ & _ & ->).
  destruct (float_of_int_nat (Tachometer.value g) ltac:(lia)) as (x & Ex & _).
  unfold Tachometer.fill_line. rewrite Eh. run_result.
  destruct (int_gt_float _ _); [|eexists; reflexivity].
  unfold int_sub_float. rewrite Ex. run_result.
  rewrite float_truediv_finite. eexists. reflexivity.
Qed.

Lemma tachometer_paintEvent_ok (width height : Z) (g : Tachometer.t) :
  0 <= width < 2 ^ 31 -> 0 <= height < 2 ^ 31 ->
  0 < Tachometer.max_value g < 2 ^ 1023 ->
  0 <= Tachometer.value g <= Tachometer.max_value g ->
  exists cmds, Tachometer.paintEvent width height g = Ok cmds.
Proof.
  intros Hw Hh Hm Hv.
  destruct (int_truediv_by_2 width Hw) as (cx & Ecx & _).
  destruct (int_truediv_by_2 height Hh) as (cy & Ecy & _).
  destruct (int_truediv_by_2 (Z.min width height) ltac:(lia)) as (half & Ehalf & _).
  destruct (tachometer_fill_arc_ok g Hm Hv) as (arc & Earc).
  destruct (tachometer_fill_line_ok g (f64_mul half (decimal 8 1)) Hm Hv) as (line & Eline).
  destruct (tick_label_ok (Tachometer.max_value g) 4 ltac:(lia) ltac:(lia))
    as (q4 & l4 & E4 & _ & I4).
  destruct (tick_label_ok (Tachometer.max_value g) 3 ltac:(lia) ltac:(lia))
    as (q3 & l3 & E3 & _ & I3).
  destruct (tick_label_ok (Tachometer.max_value g) 2 ltac:(lia) ltac:(lia))
    as (q2 & l2 & E2 & _ & I2).
  destruct (tick_label_ok (Tachometer.max_value g) 1 ltac:(lia) ltac:(lia))
    as (q1 & l1 & E1 & _ & I1).
  unfold Tachometer.paintEvent, Tachometer.tick_label.
  rewrite Ecx, Ecy, Ehalf. run_result. rewrite Earc, Eline.
  rewrite E4, I4, E3, I3, E2, I2, E1, I1.
  eexists. reflexivity.
Qed.

(** The arc a tachometer paint draws is the one [fill_arc] computes. *)
Lemma tachometer_paintEvent_arcs (width height : Z) (g : Tachometer.t) (cmds : list paint_cmd) :
  Tachometer.paintEvent width height g = Ok cmds ->
  exists arc, Tachometer.fill_arc g = Ok arc /\ arcs cmds = arcs [arc].
Proof.
  unfold Tachometer.paintEvent. run_result.
  destruct (int_truediv width 2); [|discriminate].
  destruct (int_truediv height 2); [|discriminate].
  destruct (int_truediv (Z.min width height) 2) as [half|]; [|discriminate].
  destruct (Tachometer.fill_arc g) as [arc|]; [|discriminate].
  destruct (Tachometer.fill_line g (f64_mul half (decimal 8 1))) as [line|] eqn:El; [|discriminate].
  destruct (Tachometer.tick_label g 4); [|discriminate].
  destruct (Tachometer.tick_label g 3); [|discriminate].
  destruct (Tachometer.tick_label g 2); [|discriminate].
  destruct (Tachometer.tick_label g 1); [|discriminate].
  intros E. injection E as <-. exists arc. split; [reflexivity|].
  pose proof (tachometer_fill_line_arcs g _ line El) as Hline.
  unfold arcs in *. simpl.
  rewrite List.filter_app, Hline. simpl. reflexivity.
Qed.

(** The tachometer's [arc_value], when it returns, is the formula
    [-1 * ((value / (max_value*.5)) * 90)] on floats, every operation
    rounded to the nearest float. *)
Lemma tachometer_arc_value_eq (g : Tachometer.t) (a : spec_float) :
  Tachometer.arc_value g = Ok a ->
  a = f64_mul (f64_of (-1))
        (f64_mul
           (f64_div (f64_of (Tachometer.value g))
              (f64_mul (f64_of (Tachometer.max_value g)) (decimal 5 1)))
           (f64_of 90)).
Proof.
  unfold Tachometer.arc_value, int_mul_float, int_div_float, float_mul_int, float_truediv.
  run_result.
  destruct (float_of_int (Tachometer.max_value g)) as [fm|] eqn:Em; [|discriminate].
  apply float_of_int_eq in Em. subst fm.
  destruct (float_of_int (Tachometer.value g)) as [fv|] eqn:Ev; [|discriminate].
  apply float_of_int_eq in Ev. subst fv.
  destruct (is_zero _); [discriminate|].
  change (float_of_int 90) with (Ok (f64_of 90)).
  change (float_of_int (-1)) with (Ok (f64_of (-1))).
  intros E. injection E as <-. reflexivity.
Qed.

(** At value 0 the [arc_value] is the zero float, with the sign of -1. *)
Lemma tachometer_arc_at_zero (g : Tachometer.t) (a : spec_float) :
  0 < Tachometer.max_value g -> Tachometer.value g = 0 ->
  Tachometer.arc_value g = Ok a -> a = S754_zero true.
Proof.
  intros Hm Hv. unfold Tachometer.arc_value. run_result.
  destruct (int_mul_float (Tachometer.max_value g) (decimal 5 1)) as [half|] eqn:Eh;
    [|discriminate].
  destruct (half_max_inv _ half Hm Eh) as (m & e & _ & _ & _ & ->).
  rewrite Hv. intros E. vm_compute in E. injection E as <-. reflexivity.
Qed.

(** At half scale, for a maximum below 2^53, the ratio is exactly 1 and
    the [arc_value] exactly -90. *)
Lemma tachometer_arc_at_half (g : Tachometer.t) (a : spec_float) :
  0 < Tachometer.max_value g < 2 ^ 53 ->
  2 * Tachometer.value g = Tachometer.max_value g ->
  Tachometer.arc_value g = Ok a ->
  a = S754_finite true 6333186975989760 (-46).
Proof.
  intros Hm Hv. unfold Tachometer.arc_value. run_result.
  destruct (int_mul_float (Tachometer.max_value g) (decimal 5 1)) as [half|] eqn:Eh;
    [|discriminate].
  destruct (half_max_inv _ half (proj1 Hm) Eh) as (m & e & Ef & _ & _ & ->).
  destruct (Tachometer.max_value g) as [|p|p] eqn:Ep; try lia.
  destruct (Tachometer.value g) as [|pv|pv] eqn:Epv; try lia.
  assert (Hd : Zdigits2 (Zpos p) <= 53) by (apply Zdigits2_le; lia).
  assert (Hdv : Zdigits2 (Zpos p) = Zdigits2 (Zpos pv) + 1).
  { rewrite <- Hv. replace (2 * Zpos pv) with (Zpos pv * 2 ^ 1) by lia.
    apply Zdigits2_mul_pow2; lia. }
  assert (Hd1 : 1 <= Zdigits2 (Zpos pv)) by (apply Zdigits2_ge; simpl; lia).
  unfold float_of_int in Ef. rewrite (f64_of_exact p Hd) in Ef. injection Ef as <- <-.
  assert (Ev : float_of_int (Zpos pv)
               = Ok (S754_finite false
                       (Z.to_pos (Zpos p * 2 ^ (53 - Zdigits2 (Zpos p))))
                       (Zdigits2 (Zpos p) - 53 - 1))).
  { unfold float_of_int. rewrite (f64_of_exact pv) by lia.
    replace (Zdigits2 (Zpos pv) - 53) with (Zdigits2 (Zpos p) - 53 - 1) by lia.
    replace (Zpos pv * 2 ^ (53 - Zdigits2 (Zpos pv)))
      with (Zpos p * 2 ^ (53 - Zdigits2 (Zpos p))); [reflexivity|].
    replace (53 - Zdigits2 (Zpos pv)) with (53 - Zdigits2 (Zpos p) + 1) by lia.
    rewrite Z.pow_add_r by lia. lia. }
  unfold int_div_float. rewrite Ev. run_result.
  rewrite float_truediv_finite, f64_div_same.
  intros E. vm_compute in E. injection E as <-. reflexivity.
Qed.
(** ** What the paint events draw *)

Lemma tachometer_fill_arc_shape (g : Tachometer.t) (arc : paint_cmd) :
  Tachometer.fill_arc g = Ok arc -> exists span, arc = FillArc (IntNum (180 * 16)) span.
Proof.
  unfold Tachometer.fill_arc, float_mul_int. run_result.
  change (float_of_int 16) with (Ok (S754_finite false 4503599627370496 (-48))).
  repeat head_result; intros E; injection E as <-; eexists; reflexivity.
Qed.

Lemma tachometer_fill_line_texts (g : Tachometer.t) (size_factor : spec_float)
    (line : list paint_cmd) :
  Tachometer.fill_line g size_factor = Ok line ->
  texts line = [] /\ forall pen, fill_pen_from pen (line ++ []) = fill_pen_from pen line.
Proof.
  unfold Tachometer.fill_line. run_result.
  repeat head_result; intros E; injection E as <-; split; reflexivity.
Qed.

(** The commands of a tachometer paint. *)
Lemma tachometer_paintEvent_inv (width height : Z) (g : Tachometer.t) (cmds : list paint_cmd) :
  Tachometer.paintEvent width height g = Ok cmds ->
  exists span l4 l3 l2 l1,
    Tachometer.fill_arc g = Ok (FillArc (IntNum (180 * 16)) span) /\
    Tachometer.tick_label g 4 = Ok l4 /\
    Tachometer.tick_label g 3 = Ok l3 /\
    Tachometer.tick_label g 2 = Ok l2 /\
    Tachometer.tick_label g 1 = Ok l1 /\
    arcs cmds = [FillArc (IntNum (180 * 16)) span] /\
    fill_pen cmds = Some (Gradient Tachometer.gaugeGrad) /\
    texts cmds
      = [Int (Tachometer.max_value g) ""; Int l4 ""; Int l3 ""; Int l2 ""; Int l1 "";
         Int 0 ""; Int (Tachometer.value g) " RPM"].
Proof.
  unfold Tachometer.paintEvent. run_result.
  destruct (int_truediv width 2); [|discriminate].
  destruct (int_truediv height 2); [|discriminate].
  destruct (int_truediv (Z.min width height) 2) as [half|]; [|discriminate].
  destruct (Tachometer.fill_arc g) as [arc|] eqn:Earc; [|discriminate].
  destruct (Tachometer.fill_line g (f64_mul half (decimal 8 1))) as [line|] eqn:El; [|discriminate].
  destruct (Tachometer.tick_label g 4) as [l4|]; [|discriminate].
  destruct (Tachometer.tick_label g 3) as [l3|]; [|discriminate].
  destruct (Tachometer.tick_label g 2) as [l2|]; [|discriminate].
  destruct (Tachometer.tick_label g 1) as [l1|]; [|discriminate].
  intros E. injection E as <-.
  destruct (tachometer_fill_arc_shape g arc Earc) as (span & ->).
  pose proof (tachometer_fill_line_arcs g _ line El) as Harcs.
  destruct (tachometer_fill_line_texts g _ line El) as [Htexts _].
  exists span, l4, l3, l2, l1. repeat split; try reflexivity.
  - unfold arcs in *. simpl. rewrite List.filter_app, Harcs. reflexivity.
  - unfold texts in *. simpl. rewrite omap_app, Htexts. reflexivity.
Qed.

(** The commands of a temperature-gauge paint. *)
Lemma temp_gauge_paintEvent_inv (width height : Z) (g : Temp_Gauge.t) (cmds : list paint_cmd) :
  Temp_Gauge.paintEvent width height g = Ok cmds ->
  exists l4 l3 l2 l1,
    Temp_Gauge.tick_label g 4 = Ok l4 /\
    Temp_Gauge.tick_label g 3 = Ok l3 /\
    Temp_Gauge.tick_label g 2 = Ok l2 /\
    Temp_Gauge.tick_label g 1 = Ok l1 /\
    fill_pen cmds
      = (if fills cmds is [] then None else Some (Gradient Temp_Gauge.gaugeGrad)) /\
    texts cmds
      = [Int (Temp_Gauge.max_value g) ""; Int l4 ""; Int l3 ""; Int l2 ""; Int l1 "";
         Int 0 ""; Int (Temp_Gauge.value g) ""; Str "°C"].
Proof.
  unfold Temp_Gauge.paintEvent. run_result.
  destruct (int_truediv width 2); [|discriminate].
  destruct (int_truediv height 2); [|discriminate].
  destruct (int_truediv (Z.min width height) 2) as [half|]; [|discriminate].
  destruct (Temp_Gauge.fill_length g (f64_mul half (decimal 7 1))) as [length|]; [|discriminate].
  destruct (Temp_Gauge.tick_label g 4) as [l4|]; [|discriminate].
  destruct (Temp_Gauge.tick_label g 3) as [l3|]; [|discriminate].
  destruct (Temp_Gauge.tick_label g 2) as [l2|]; [|discriminate].
  destruct (Temp_Gauge.tick_label g 1) as [l1|]; [|discriminate].
  intros E. injection E as <-.
  exists l4, l3, l2, l1. repeat split; try reflexivity;
    destruct (float_ge_int length 0); reflexivity.
Qed.

Lemma temp_gauge_paintEvent_ok (width height : Z) (g : Temp_Gauge.t) :
  0 <= width < 2 ^ 31 -> 0 <= height < 2 ^ 31 ->
  0 < Temp_Gauge.max_value g < 2 ^ 1023 ->
  0 <= Temp_Gauge.value g <= Temp_Gauge.max_value g ->
  exists cmds, Temp_Gauge.paintEvent width height g = Ok cmds.
Proof.
  intros Hw Hh Hm Hv.
  destruct (int_truediv_by_2 width Hw) as (cx & Ecx & _).
  destruct (int_truediv_by_2 height Hh) as (cy & Ecy & _).
  destruct (int_truediv_by_2 (Z.min width height) ltac:(lia)) as (half & Ehalf & _).
  destruct (half_max_ok _ Hm) as (hm & Eh).
  destruct (half_scale_ratio_ok (Temp_Gauge.value g) (Temp_Gauge.max_value g) hm
              ltac:(lia) ltac:(lia) Eh) as (ratio & Er).
  destruct (tick_label_ok (Temp_Gauge.max_value g) 4 ltac:(lia) ltac:(lia))
    as (q4 & l4 & E4 & _ & I4).
  destruct (tick_label_ok (Temp_Gauge.max_value g) 3 ltac:(lia) ltac:(lia))
    as (q3 & l3 & E3 & _ & I3).
  destruct (tick_label_ok (Temp_Gauge.max_value g) 2 ltac:(lia) ltac:(lia))
    as (q2 & l2 & E2 & _ & I2).
  destruct (tick_label_ok (Temp_Gauge.max_value g) 1 ltac:(lia) ltac:(lia))
    as (q1 & l1 & E1 & _ & I1).
  unfold Temp_Gauge.paintEvent, Temp_Gauge.tick_label, Temp_Gauge.fill_length.
  rewrite Ecx, Ecy, Ehalf. run_result. rewrite Eh, Er.
  rewrite E4, I4, E3, I3, E2, I2, E1, I1.
  eexists. reflexivity.
Qed.

(** [int(x)] is the integer part of [x]. *)
Lemma py_int_truncates (x : spec_float) (n : Z) :
  py_int x = Ok n -> truncation_of x n.
Proof.
  destruct x as [s|s| |s m e]; simpl; try discriminate.
  - intros E. injection E as <-. unfold truncation_of. simpl. repeat split; auto; lia.
  - intros E. injection E as <-. unfold truncation_of.
    destruct e as [|k|k]; destruct s; cbn [compare_float_int].
    + replace (Z.neg m * 2 ^ 0 ?= 0) with Lt by (symmetry; apply Z.compare_lt_iff; lia).
      repeat split; try lia.
      * right. f_equal. apply Z.compare_eq_iff. lia.
      * f_equal. apply Z.compare_gt_iff. lia.
    + replace (Z.pos m * 2 ^ 0 ?= 0) with Gt by (symmetry; apply Z.compare_gt_iff; lia).
      repeat split; try lia.
      * right. f_equal. apply Z.compare_eq_iff. lia.
      * f_equal. apply Z.compare_lt_iff. lia.
    + assert (0 < 2 ^ Z.pos k) by (apply Z.pow_pos_nonneg; lia).
      replace (Z.neg m * 2 ^ Z.pos k ?= 0) with Lt by (symmetry; apply Z.compare_lt_iff; nia).
      repeat split; try nia.
      * right. f_equal. apply Z.compare_eq_iff. lia.
      * f_equal. apply Z.compare_gt_iff. lia.
    + assert (0 < 2 ^ Z.pos k) by (apply Z.pow_pos_nonneg; lia).
      replace (Z.pos m * 2 ^ Z.pos k ?= 0) with Gt by (symmetry; apply Z.compare_gt_iff; nia).
      repeat split; try nia.
      * right. f_equal. apply Z.compare_eq_iff. lia.
      * f_equal. apply Z.compare_lt_iff. lia.
    + assert (Hp : 0 < 2 ^ Z.pos k) by (apply Z.pow_pos_nonneg; lia).
      pose proof (Z.div_pos (Z.pos m) (2 ^ Z.pos k) ltac:(lia) Hp) as Hq.
      pose proof (Z.mul_div_le (Z.pos m) (2 ^ Z.pos k) Hp) as Hle.
      pose proof (Z.mul_succ_div_gt (Z.pos m) (2 ^ Z.pos k) Hp) as Hgt.
      replace (Z.neg m ?= 0 * 2 ^ Z.pos k) with Lt by reflexivity.
      repeat split; try lia.
      * destruct (Z.compare_spec (Z.neg m) (- (Z.pos m / 2 ^ Z.pos k) * 2 ^ Z.pos k));
          auto. nia.
      * f_equal. apply Z.compare_gt_iff. nia.
    + assert (Hp : 0 < 2 ^ Z.pos k) by (apply Z.pow_pos_nonneg; lia).
      pose proof (Z.div_pos (Z.pos m) (2 ^ Z.pos k) ltac:(lia) Hp) as Hq.
      pose proof (Z.mul_div_le (Z.pos m) (2 ^ Z.pos k) Hp) as Hle.
      pose proof (Z.mul_succ_div_gt (Z.pos m) (2 ^ Z.pos k) Hp) as Hgt.
      replace (Z.pos m ?= 0 * 2 ^ Z.pos k) with Gt by reflexivity.
      repeat split; try lia.
      * destruct (Z.compare_spec (Z.pos m) (Z.pos m / 2 ^ Z.pos k * 2 ^ Z.pos k));
          auto. nia.
      * f_equal. apply Z.compare_lt_iff. nia.
Qed.

Lemma tick_label_truncates_temp (g : Temp_Gauge.t) (k n : Z) :
  Temp_Gauge.tick_label g k = Ok n -> label_of (Temp_Gauge.max_value g) k n.
Proof.
  unfold Temp_Gauge.tick_label, label_of. run_result.
  destruct (int_truediv (Temp_Gauge.max_value g * k) 5) as [q|]; [|discriminate].
  intros E. exists q. auto using py_int_truncates.
Qed.

Lemma tick_label_truncates_tach (g : Tachometer.t) (k n : Z) :
  Tachometer.tick_label g k = Ok n -> label_of (Tachometer.max_value g) k n.
Proof.
  unfold Tachometer.tick_label, label_of. run_result.
  destruct (int_truediv (Tachometer.max_value g * k) 5) as [q|]; [|discriminate].
  intros E. exists q. auto using py_int_truncates.
Qed.

(** C5: for a tachometer with a positive maximum and a value between 0
    and the maximum, every paint that returns draws one arc, whose span is
    [arc_value = -1 * ((value / (max_value*.5)) * 90)] degrees, each
    operation rounded to the nearest float, clamped below at -90 and handed
    over in sixteenths of a degree: the integer -90 * 16 when the
    [arc_value] is below -90 and [arc_value * 16] otherwise.  The clamped
    span lies between -90 and 0 degrees, the span handed over between
    -90 * 16 and 0 sixteenths; at value = max_value it is exactly -90
    degrees, at value 0 it is zero, and at half scale, for a maximum below
    2^53, the [arc_value] is exactly -90 already and is handed over
    unclamped.  The paint does return for every maximum below 2^1023 on a
    widget of Qt's size. *)
Theorem tachometer_arc_clamped (g : Tachometer.t)
    (Hmax : 0 < Tachometer.max_value g)
    (Hvalue : 0 <= Tachometer.value g <= Tachometer.max_value g) :
  (forall (width height : Z) (cmds : list paint_cmd),
     Tachometer.paintEvent width height g = Ok cmds ->
     exists a span,
       Tachometer.arc_value g = Ok a /\
       arcs cmds = [FillArc (IntNum (180 * 16)) span] /\
       sixteenths (clamp_below (-90) a) = Ok span /\
       in_interval (-90) 0 (clamp_below (-90) a) /\
       in_interval (-90 * 16) 0 span /\
       (Tachometer.value g = Tachometer.max_value g ->
        clamp_below (-90) a = IntNum (-90) /\ span = IntNum (-90 * 16)) /\
       a = f64_mul (f64_of (-1))
             (f64_mul
                (f64_div (f64_of (Tachometer.value g))
                   (f64_mul (f64_of (Tachometer.max_value g)) (decimal 5 1)))
                (f64_of 90)) /\
       span = (if float_lt_int a (-90) then IntNum (-90 * 16)
               else FloatNum (f64_mul a (f64_of 16))) /\
       (Tachometer.value g = 0 -> span = FloatNum (S754_zero true)) /\
       (Tachometer.max_value g < 2 ^ 53 ->
        2 * Tachometer.value g = Tachometer.max_value g ->
        compare_float_int a (-90) = Some Eq /\
        span = FloatNum (f64_mul a (f64_of 16)) /\
        compare_num_int span (-90 * 16) = Some Eq)) /\
  (Tachometer.max_value g < 2 ^ 1023 ->
   forall width height : Z,
     0 <= width < 2 ^ 31 -> 0 <= height < 2 ^ 31 ->
     exists cmds, Tachometer.paintEvent width height g = Ok cmds).
Proof.
  split.
  - intros width height cmds Hpaint.
    destruct (tachometer_paintEvent_inv width height g cmds Hpaint)
      as (span & _ & _ & _ & _ & Earc & _ & _ & _ & _ & Harcs & _).
    destruct (tachometer_fill_arc_inv g _ ltac:(lia) ltac:(lia) Earc)
      as (a & span' & Ea & Es & Heq & Hin & Hin16 & Hfull).
    injection Heq as <-.
    assert (Hspan : span = (if float_lt_int a (-90) then IntNum (-90 * 16)
                            else FloatNum (f64_mul a (f64_of 16)))).
    { revert Es. unfold clamp_below, sixteenths, float_mul_int.
      change (float_of_int 16) with (Ok (f64_of 16)). run_result.
      destruct (float_lt_int a (-90)); intros E; injection E as <-; reflexivity. }
    exists a, span.
    split; [exact Ea|]. split; [exact Harcs|]. split; [exact Es|].
    split; [exact Hin|]. split; [exact Hin16|]. split; [exact Hfull|].
    split; [exact (tachometer_arc_value_eq g a Ea)|].
    split; [exact Hspan|]. split.
    + intros H0. rewrite Hspan, (tachometer_arc_at_zero g a Hmax H0 Ea). reflexivity.
    + intros H53 Hhalf.
      rewrite Hspan, (tachometer_arc_at_half g a (conj Hmax H53) Hhalf Ea).
      repeat split.
  - intros Hfit width height Hw Hh.
    apply tachometer_paintEvent_ok; auto; lia.
Qed.

Lemma tachometer_arc_clamped_witness :
  (exists cmds,
     Tachometer.paintEvent 400 300
       {| Tachometer.value := 5000; Tachometer.max_value := 5000 |} = Ok cmds /\
     arcs cmds = [FillArc (IntNum (180 * 16)) (IntNum (-90 * 16))]) /\
  (exists cmds,
     Tachometer.paintEvent 400 300
       {| Tachometer.value := 1250; Tachometer.max_value := 5000 |} = Ok cmds /\
     arcs cmds = [FillArc (IntNum (180 * 16))
                    (FloatNum (S754_finite true 6333186975989760 (-43)))]).
Proof.
  split.
  - destruct (tachometer_arc_clamped
      {| Tachometer.value := 5000; Tachometer.max_value := 5000 |}) as [Hspan Hok].
    + simpl. lia.
    + simpl. lia.
    + destruct (Hok ltac:(simpl; lia) 400 300 ltac:(lia) ltac:(lia)) as (cmds & E).
      exists cmds. split; [exact E|].
      destruct (Hspan 400 300 cmds E) as (a & span & _ & Harcs & _ & _ & _ & Hfull & _).
      destruct (Hfull eq_refl) as [_ ->]. exact Harcs.
  - destruct (tachometer_arc_clamped
      {| Tachometer.value := 1250; Tachometer.max_value := 5000 |}) as [Hspan Hok].
    + simpl. lia.
    + simpl. lia.
    + destruct (Hok ltac:(simpl; lia) 400 300 ltac:(lia) ltac:(lia)) as (cmds & E).
      exists cmds. split; [exact E|].
      destruct (Hspan 400 300 cmds E)
        as (a & span & _ & Harcs & _ & _ & _ & _ & Ha & Hs & _).
      rewrite Harcs, Hs, Ha. reflexivity.
Defined.

Lemma compare_nonnegative (x : spec_float) :
  has_sign false x -> float_ge_int x 0 = true.
Proof.
  unfold float_ge_int.
  destruct x as [s|s| |s m e]; simpl; try tauto; intros ->; auto.
  destruct e as [|p|p]; try reflexivity.
  assert (0 < 2 ^ Zpos p) by (apply Z.pow_pos_nonneg; lia).
  replace (Z.pos m * 2 ^ Z.pos p ?= 0) with Gt; [reflexivity|].
  symmetry. apply Z.compare_gt_iff. nia.
Qed.

Lemma f64_mul_nonneg (x y : spec_float) :
  is_finite x -> is_finite y -> has_sign false x -> has_sign false y ->
  has_sign false (f64_mul x y).
Proof.
  destruct x as [sx|sx| |sx mx ex]; simpl; try tauto;
    destruct y as [sy|sy| |sy my ey]; simpl; try tauto;
    intros _ _ -> ->; try reflexivity.
  apply binary_round_aux_sign. lia.
Qed.

(** In range, on a widget of Qt's size, the temperature gauge draws its
    fill, with the gradient pen. *)
Lemma temp_gauge_fill_drawn (width height : Z) (g : Temp_Gauge.t) (cmds : list paint_cmd) :
  0 <= width < 2 ^ 31 -> 0 <= height < 2 ^ 31 ->
  0 <= Temp_Gauge.value g <= Temp_Gauge.max_value g ->
  Temp_Gauge.paintEvent width height g = Ok cmds ->
  fill_pen cmds = Some (Gradient Temp_Gauge.gaugeGrad).
Proof.
  intros Hw Hh Hv.
  destruct (int_truediv_by_2 (Z.min width height) ltac:(lia))
    as (half & Ehalf & Hf & Hs & Hc & Hm).
  destruct (size_factor_finite half 7 Hf Hs Hc Hm ltac:(lia)) as [Hsf Hss].
  unfold Temp_Gauge.paintEvent. run_result.
  destruct (int_truediv width 2); [|discriminate].
  destruct (int_truediv height 2); [|discriminate].
  rewrite Ehalf.
  destruct (Temp_Gauge.fill_length g (f64_mul half (decimal 7 1))) as [length|] eqn:El;
    [|discriminate].
  assert (Hlen : float_ge_int length 0 = true).
  { revert El. unfold Temp_Gauge.fill_length. run_result.
    destruct (int_mul_float (Temp_Gauge.max_value g) (decimal 5 1)) as [hm|] eqn:Eh;
      [|discriminate].
    destruct (int_div_float (Temp_Gauge.value g) hm) as [ratio|] eqn:Er; [|discriminate].
    intros E. injection E as <-.
    destruct (Z.eq_dec (Temp_Gauge.max_value g) 0) as [H0|Hne].
    - exfalso. rewrite H0 in *. assert (Temp_Gauge.value g = 0) as Hv0 by lia.
      rewrite Hv0 in Er. vm_compute in Eh. injection Eh as <-. discriminate Er.
    - destruct (half_scale_ratio_inv (Temp_Gauge.value g) (Temp_Gauge.max_value g)
                  hm ratio ltac:(lia) ltac:(lia) Eh Er) as (Hrs & Hrf & _).
      apply compare_nonnegative. apply f64_mul_nonneg; auto. apply Hrf. lia. }
  destruct (Temp_Gauge.tick_label g 4); [|discriminate].
  destruct (Temp_Gauge.tick_label g 3); [|discriminate].
  destruct (Temp_Gauge.tick_label g 2); [|discriminate].
  destruct (Temp_Gauge.tick_label g 1); [|discriminate].
  intros E. injection E as <-. rewrite Hlen. reflexivity.
Qed.

(** The fill of a temperature-gauge paint: a line of length
    [(value / (max_value*.5)) * size_factor], drawn when the length is not
    negative. *)
Lemma temp_gauge_paintEvent_fills (width height : Z) (g : Temp_Gauge.t)
    (cmds : list paint_cmd) :
  Temp_Gauge.paintEvent width height g = Ok cmds ->
  exists half,
    int_truediv (Z.min width height) 2 = Ok half /\
    fills cmds
    = (let length :=
         f64_mul
           (f64_div (f64_of (Temp_Gauge.value g))
              (f64_mul (f64_of (Temp_Gauge.max_value g)) (decimal 5 1)))
           (f64_mul half (decimal 7 1)) in
       if float_ge_int length 0 then [FillLine length] else []).
Proof.
  unfold Temp_Gauge.paintEvent. run_result.
  destruct (int_truediv width 2); [|discriminate].
  destruct (int_truediv height 2); [|discriminate].
  destruct (int_truediv (Z.min width height) 2) as [half|]; [|discriminate].
  destruct (Temp_Gauge.fill_length g (f64_mul half (decimal 7 1))) as [length|] eqn:El;
    [|discriminate].
  assert (Hlen : length
                 = f64_mul
                     (f64_div (f64_of (Temp_Gauge.value g))
                        (f64_mul (f64_of (Temp_Gauge.max_value g)) (decimal 5 1)))
                     (f64_mul half (decimal 7 1))).
  { revert El.
    unfold Temp_Gauge.fill_length, int_mul_float, int_div_float, float_truediv. run_result.
    destruct (float_of_int (Temp_Gauge.max_value g)) as [fm|] eqn:Em; [|discriminate].
    apply float_of_int_eq in Em. subst fm.
    destruct (float_of_int (Temp_Gauge.value g)) as [fv|] eqn:Ev; [|discriminate].
    apply float_of_int_eq in Ev. subst fv.
    destruct (is_zero _); [discriminate|].
    intros E. injection E as <-. reflexivity. }
  destruct (Temp_Gauge.tick_label g 4); [|discriminate].
  destruct (Temp_Gauge.tick_label g 3); [|discriminate].
  destruct (Temp_Gauge.tick_label g 2); [|discriminate].
  destruct (Temp_Gauge.tick_label g 1); [|discriminate].
  intros E. injection E as <-. exists half. split; [reflexivity|].
  cbv zeta. rewrite <- Hlen.
  destruct (float_ge_int length 0); reflexivity.
Qed.

Lemma fuel_gauge_paintEvent_inv (width height : Z) (g : Fuel_Gauge.t) (cmds : list paint_cmd) :
  Fuel_Gauge.paintEvent width height g = Ok cmds ->
  exists pen, Fuel_Gauge.indicator_pen g = Ok pen /\ fill_pen cmds = Some pen.
Proof.
  unfold Fuel_Gauge.paintEvent. run_result.
  destruct (int_truediv width 2); [|discriminate].
  destruct (int_truediv height 2); [|discriminate].
  destruct (int_truediv (Z.min width height) 2); [|discriminate].
  destruct (Fuel_Gauge.indicator_pen g) as [pen|]; [|discriminate].
  destruct (Fuel_Gauge.arc_value g) as [av|]; [|discriminate].
  destruct (float_mul_int av 16); [|discriminate].
  intros E. injection E as <-. exists pen. split; reflexivity.
Qed.

Lemma speedometer_paintEvent_inv (width height : Z) (g : Speedometer.t) (cmds : list paint_cmd) :
  Speedometer.paintEvent width height g = Ok cmds -> fills cmds = [].
Proof.
  unfold Speedometer.paintEvent. run_result.
  destruct (int_truediv width 2); [|discriminate].
  destruct (int_truediv height 2); [|discriminate].
  destruct (int_truediv (Z.min width height) 2); [|discriminate].
  destruct (format_int (Speedometer.value g) ""); [|discriminate].
  intros E. injection E as <-. reflexivity.
Qed.

(** The pen [indicator_pen] returns, by the thresholds [max_value*.4] and
    [max_value*.2], products of floats. *)
Lemma fuel_indicator_pen_eq (g : Fuel_Gauge.t) (pen : brush) :
  Fuel_Gauge.indicator_pen g = Ok pen ->
  pen = Solid
          (if int_ge_float (Fuel_Gauge.value g)
                (f64_mul (f64_of (Fuel_Gauge.max_value g)) (decimal 4 1))
           then RGB 0 255 0
           else if int_ge_float (Fuel_Gauge.value g)
                     (f64_mul (f64_of (Fuel_Gauge.max_value g)) (decimal 2 1))
           then RGB 255 255 0
           else if bool_decide (0 <= Fuel_Gauge.value g) then RGB 255 0 0
           else RGB 255 0 255).
Proof.
  unfold Fuel_Gauge.indicator_pen, int_mul_float. run_result.
  destruct (float_of_int (Fuel_Gauge.max_value g)) as [fm|] eqn:Em; [|discriminate].
  apply float_of_int_eq in Em. subst fm.
  destruct (int_ge_float _ (f64_mul _ (decimal 4 1))).
  { intros E. injection E as <-. reflexivity. }
  destruct (int_ge_float _ (f64_mul _ (decimal 2 1))).
  { intros E. injection E as <-. reflexivity. }
  destruct (decide (Fuel_Gauge.value g >= 0)) as [Hv|Hv]; intros E; injection E as <-.
  - rewrite bool_decide_eq_true_2 by lia. reflexivity.
  - rewrite bool_decide_eq_false_2 by lia. reflexivity.
Qed.

(** C6, as the code has it: the temperature gauge and the tachometer draw
    their fill with a gradient pen whose stops are fixed, red at 0, yellow
    at 0.2 and green at 1 for the temperature gauge and the mirrored green
    at 0, yellow at 0.8 and red at 1 for the tachometer, whatever the value.
    The fill of the temperature gauge is a line of length
    [(value / (max_value*.5)) * size_factor], drawn when the length is not
    negative, as it is for every value from 0 to the maximum.
    The fuel gauge draws its fill with a solid pen chosen from the value:
    green (0, 255, 0) when [value >= max_value*.4], else yellow
    (255, 255, 0) when [value >= max_value*.2], else red (255, 0, 0) when
    [value >= 0], else (255, 0, 255), the two products being floats; so
    with a value from 0 up the pen is green, yellow or red.  The speed
    readout draws no fill. *)
Theorem fill_pens (width height : Z) :
  (forall (g : Temp_Gauge.t) (cmds : list paint_cmd),
     Temp_Gauge.paintEvent width height g = Ok cmds ->
     fill_pen cmds
       = (if fills cmds is [] then None
          else Some (Gradient [(f64_of 0, Qt_red);
                               (decimal 2 1, Qt_yellow);
                               (f64_of 1, Qt_green)])) /\
     (exists half,
        int_truediv (Z.min width height) 2 = Ok half /\
        fills cmds
        = (let length :=
             f64_mul
               (f64_div (f64_of (Temp_Gauge.value g))
                  (f64_mul (f64_of (Temp_Gauge.max_value g)) (decimal 5 1)))
               (f64_mul half (decimal 7 1)) in
           if float_ge_int length 0 then [FillLine length] else [])) /\
     (0 <= width < 2 ^ 31 -> 0 <= height < 2 ^ 31 ->
      0 <= Temp_Gauge.value g <= Temp_Gauge.max_value g ->
      fill_pen cmds
        = Some (Gradient [(f64_of 0, Qt_red);
                          (decimal 2 1, Qt_yellow);
                          (f64_of 1, Qt_green)]))) /\
  (forall (g : Tachometer.t) (cmds : list paint_cmd),
     Tachometer.paintEvent width height g = Ok cmds ->
     fill_pen cmds
       = Some (Gradient [(f64_of 0, Qt_green);
                         (decimal 8 1, Qt_yellow);
                         (f64_of 1, Qt_red)])) /\
  (forall (g : Fuel_Gauge.t) (cmds : list paint_cmd),
     Fuel_Gauge.paintEvent width height g = Ok cmds ->
     (exists pen, Fuel_Gauge.indicator_pen g = Ok pen /\ fill_pen cmds = Some pen) /\
     fill_pen cmds
       = Some (Solid
                 (if int_ge_float (Fuel_Gauge.value g)
                       (f64_mul (f64_of (Fuel_Gauge.max_value g)) (decimal 4 1))
                  then RGB 0 255 0
                  else if int_ge_float (Fuel_Gauge.value g)
                            (f64_mul (f64_of (Fuel_Gauge.max_value g)) (decimal 2 1))
                  then RGB 255 255 0
                  else if bool_decide (0 <= Fuel_Gauge.value g) then RGB 255 0 0
                  else RGB 255 0 255)) /\
     (0 <= Fuel_Gauge.value g ->
      fill_pen cmds = Some (Solid (RGB 0 255 0)) \/
      fill_pen cmds = Some (Solid (RGB 255 255 0)) \/
      fill_pen cmds = Some (Solid (RGB 255 0 0)))) /\
  (forall (g : Speedometer.t) (cmds : list paint_cmd),
     Speedometer.paintEvent width height g = Ok cmds -> fills cmds = []) /\
  fill_pen_fixed Temp /\
  fill_pen_fixed Tach.
Proof.
  split; [|split; [|split; [|split; [|split]]]].
  - intros g cmds E.
    destruct (temp_gauge_paintEvent_inv width height g cmds E)
      as (_ & _ & _ & _ & _ & _ & _ & _ & Hpen & _).
    split; [exact Hpen|]. split; [exact (temp_gauge_paintEvent_fills width height g cmds E)|].
    intros Hw Hh Hv. exact (temp_gauge_fill_drawn width height g cmds Hw Hh Hv E).
  - intros g cmds E.
    destruct (tachometer_paintEvent_inv width height g cmds E)
      as (_ & _ & _ & _ & _ & _ & _ & _ & _ & _ & _ & Hpen & _).
    exact Hpen.
  - intros g cmds E.
    destruct (fuel_gauge_paintEvent_inv width height g cmds E) as (pen & Epen & Hpen).
    pose proof (fuel_indicator_pen_eq g pen Epen) as Hcol.
    split; [exists pen; auto|]. rewrite Hpen, Hcol. split; [reflexivity|].
    intros Hv. rewrite (bool_decide_eq_true_2 _ Hv).
    destruct (int_ge_float _ (f64_mul _ (decimal 4 1))); [auto|].
    destruct (int_ge_float _ (f64_mul _ (decimal 2 1))); auto.
  - apply speedometer_paintEvent_inv.
  - intros w h m v1 v2 cmds1 cmds2 Hw Hh Hv1 Hv2 E1 E2. simpl in E1, E2.
    rewrite (temp_gauge_fill_drawn w h
               {| Temp_Gauge.value := v1; Temp_Gauge.max_value := m |} cmds1 Hw Hh Hv1 E1).
    rewrite (temp_gauge_fill_drawn w h
               {| Temp_Gauge.value := v2; Temp_Gauge.max_value := m |} cmds2 Hw Hh Hv2 E2).
    reflexivity.
  - intros w h m v1 v2 cmds1 cmds2 _ _ _ _ E1 E2. simpl in E1, E2.
    destruct (tachometer_paintEvent_inv w h _ cmds1 E1)
      as (_ & _ & _ & _ & _ & _ & _ & _ & _ & _ & _ & -> & _).
    destruct (tachometer_paintEvent_inv w h _ cmds2 E2)
      as (_ & _ & _ & _ & _ & _ & _ & _ & _ & _ & _ & -> & _).
    reflexivity.
Qed.

(** C6, as the spec states it, fails for the fuel gauge: at maximum 100
    the fill is red at value 10, yellow at value 30 and green at value
    50. *)
Lemma fuel_fill_pen_depends_on_value :
  (exists cmds,
     Fuel_Gauge.paintEvent 400 300 {| Fuel_Gauge.value := 10; Fuel_Gauge.max_value := 100 |}
       = Ok cmds /\
     fill_pen cmds = Some (Solid (RGB 255 0 0))) /\
  (exists cmds,
     Fuel_Gauge.paintEvent 400 300 {| Fuel_Gauge.value := 30; Fuel_Gauge.max_value := 100 |}
       = Ok cmds /\
     fill_pen cmds = Some (Solid (RGB 255 255 0))) /\
  (exists cmds,
     Fuel_Gauge.paintEvent 400 300 {| Fuel_Gauge.value := 50; Fuel_Gauge.max_value := 100 |}
       = Ok cmds /\
     fill_pen cmds = Some (Solid (RGB 0 255 0))) /\
  ~ fill_pen_fixed Fuel.
Proof.
  split; [|split; [|split]].
  - eexists. split; vm_compute; reflexivity.
  - eexists. split; vm_compute; reflexivity.
  - eexists. split; vm_compute; reflexivity.
  - intros H.
    specialize (H 400 300 100 10 50 _ _
                  ltac:(lia) ltac:(lia) ltac:(lia) ltac:(lia) eq_refl eq_refl).
    vm_compute in H. discriminate H.
Qed.

(** The pens drawn: the tachometer's gradient at value 1000 of 5000; the
    fuel gauge's pen at maximum 100 on both sides of each threshold, red at
    19, yellow at 20 and at 39, green at 40; and the temperature gauge at
    values 75 and 150 of 300, one pen and two fills. *)
Lemma fill_pens_witness :
  (exists cmds,
     Tachometer.paintEvent 400 300
       {| Tachometer.value := 1000; Tachometer.max_value := 5000 |} = Ok cmds /\
     fill_pen cmds
       = Some (Gradient [(f64_of 0, Qt_green); (decimal 8 1, Qt_yellow); (f64_of 1, Qt_red)])) /\
  (exists cmds,
     Fuel_Gauge.paintEvent 400 300 {| Fuel_Gauge.value := 19; Fuel_Gauge.max_value := 100 |}
       = Ok cmds /\
     fill_pen cmds = Some (Solid (RGB 255 0 0))) /\
  (exists cmds,
     Fuel_Gauge.paintEvent 400 300 {| Fuel_Gauge.value := 20; Fuel_Gauge.max_value := 100 |}
       = Ok cmds /\
     fill_pen cmds = Some (Solid (RGB 255 255 0))) /\
  (exists cmds,
     Fuel_Gauge.paintEvent 400 300 {| Fuel_Gauge.value := 39; Fuel_Gauge.max_value := 100 |}
       = Ok cmds /\
     fill_pen cmds = Some (Solid (RGB 255 255 0))) /\
  (exists cmds,
     Fuel_Gauge.paintEvent 400 300 {| Fuel_Gauge.value := 40; Fuel_Gauge.max_value := 100 |}
       = Ok cmds /\
     fill_pen cmds = Some (Solid (RGB 0 255 0))) /\
  (exists cmds1 cmds2,
     Temp_Gauge.paintEvent 400 300 {| Temp_Gauge.value := 75; Temp_Gauge.max_value := 300 |}
       = Ok cmds1 /\
     Temp_Gauge.paintEvent 400 300 {| Temp_Gauge.value := 150; Temp_Gauge.max_value := 300 |}
       = Ok cmds2 /\
     fill_pen cmds1 = fill_pen cmds2 /\
     fill_pen cmds1
       = Some (Gradient [(f64_of 0, Qt_red); (decimal 2 1, Qt_yellow); (f64_of 1, Qt_green)]) /\
     fills cmds1 <> fills cmds2).
Proof.
  pose proof (fun g cmds E =>
                proj1 (proj2 (proj1 (proj2 (proj2 (fill_pens 400 300))) g cmds E)))
    as Hfuel.
  split; [|split; [|split; [|split; [|split]]]].
  - destruct (tachometer_paintEvent_ok 400 300
      {| Tachometer.value := 1000; Tachometer.max_value := 5000 |}) as (cmds & E);
      try (simpl; lia).
    exists cmds. split; [exact E|].
    exact (proj1 (proj2 (fill_pens 400 300)) _ cmds E).
  - destruct (Fuel_Gauge.paintEvent 400 300
                {| Fuel_Gauge.value := 19; Fuel_Gauge.max_value := 100 |})
      as [cmds|] eqn:E; [|vm_compute in E; discriminate E].
    exists cmds. split; [reflexivity|]. exact (Hfuel _ cmds E).
  - destruct (Fuel_Gauge.paintEvent 400 300
                {| Fuel_Gauge.value := 20; Fuel_Gauge.max_value := 100 |})
      as [cmds|] eqn:E; [|vm_compute in E; discriminate E].
    exists cmds. split; [reflexivity|]. exact (Hfuel _ cmds E).
  - destruct (Fuel_Gauge.paintEvent 400 300
                {| Fuel_Gauge.value := 39; Fuel_Gauge.max_value := 100 |})
      as [cmds|] eqn:E; [|vm_compute in E; discriminate E].
    exists cmds. split; [reflexivity|]. exact (Hfuel _ cmds E).
  - destruct (Fuel_Gauge.paintEvent 400 300
                {| Fuel_Gauge.value := 40; Fuel_Gauge.max_value := 100 |})
      as [cmds|] eqn:E; [|vm_compute in E; discriminate E].
    exists cmds. split; [reflexivity|]. exact (Hfuel _ cmds E).
  - destruct (Temp_Gauge.paintEvent 400 300
                {| Temp_Gauge.value := 75; Temp_Gauge.max_value := 300 |})
      as [cmds1|] eqn:E1; [|vm_compute in E1; discriminate E1].
    destruct (Temp_Gauge.paintEvent 400 300
                {| Temp_Gauge.value := 150; Temp_Gauge.max_value := 300 |})
      as [cmds2|] eqn:E2; [|vm_compute in E2; discriminate E2].
    exists cmds1, cmds2. split; [reflexivity|]. split; [reflexivity|].
    destruct (fill_pens 400 300) as (Htemp & _ & _ & _ & Hfixed & _).
    split; [|split].
    + apply (Hfixed 400 300 300 75 150); try lia; assumption.
    + apply (Htemp _ cmds1 E1); simpl; lia.
    + destruct (Htemp _ cmds1 E1) as (_ & (h1 & Eh1 & ->) & _).
      destruct (Htemp _ cmds2 E2) as (_ & (h2 & Eh2 & ->) & _).
      vm_compute in Eh1, Eh2. injection Eh1 as <-. injection Eh2 as <-.
      vm_compute. discriminate.
Defined.

(** While [max_value * k] stays below 2^52 in size, the label is the
    integer quotient of [max_value * k] by 5 towards zero: the floats in
    between change nothing. *)
Lemma label_of_quot (max_value k : Z) :
  Z.abs (max_value * k) < 2 ^ 52 ->
  label_of max_value k (Z.quot (max_value * k) 5).
Proof.
  intros Ha. unfold label_of, int_truediv.
  destruct (decide (5 = 0)) as [|_]; [lia|].
  destruct (max_value * k) as [|a|a] eqn:Ea.
  - exists (S754_zero false). repeat split; vm_compute; auto; discriminate.
  - pose proof (py_int_div_5 false a ltac:(lia)) as Hq.
    rewrite <- Z.quot_div_nonneg in Hq by lia.
    simpl exact_int.
    destruct (f64_div (S754_finite false a 0) (S754_finite false 5 0)) as [s|s| |s m e];
      try discriminate; eexists; (split; [reflexivity|]); auto using py_int_truncates.
  - pose proof (py_int_div_5 true a ltac:(lia)) as Hq.
    rewrite <- Z.quot_div_nonneg, <- Z.quot_opp_l in Hq by lia.
    simpl exact_int. change (- Zpos a) with (Zneg a) in Hq.
    destruct (f64_div (S754_finite true a 0) (S754_finite false 5 0)) as [s|s| |s m e];
      try discriminate; eexists; (split; [reflexivity|]); auto using py_int_truncates.
Qed.

(** C9: for every maximum, the texts a temperature-gauge or tachometer
    paint draws are the maximum, the four labels for 4/5, 3/5, 2/5 and 1/5
    and 0, followed by the value; each label is the float quotient
    [max_value * k / 5] cut to its integer part (not rounded).  The paints
    return for every maximum below 2^1023 with the value in range.  For
    maximum 300 the label of the 60 percent tick is 180; for maximum 2 the
    quotient 8/5 = 1.6 is cut to 1.  While [max_value * k] is below 2^52
    in size the label is the integer quotient of [max_value * k] by 5
    towards zero. *)
Theorem tick_labels_truncate (max_value : Z) :
  (forall (value width height : Z) (cmds : list paint_cmd),
     Temp_Gauge.paintEvent width height
       {| Temp_Gauge.value := value; Temp_Gauge.max_value := max_value |} = Ok cmds ->
     exists l4 l3 l2 l1,
       label_of max_value 4 l4 /\ label_of max_value 3 l3 /\
       label_of max_value 2 l2 /\ label_of max_value 1 l1 /\
       texts cmds
         = [Int max_value ""; Int l4 ""; Int l3 ""; Int l2 ""; Int l1 ""; Int 0 "";
            Int value ""; Str "°C"]) /\
  (forall (value width height : Z) (cmds : list paint_cmd),
     Tachometer.paintEvent width height
       {| Tachometer.value := value; Tachometer.max_value := max_value |} = Ok cmds ->
     exists l4 l3 l2 l1,
       label_of max_value 4 l4 /\ label_of max_value 3 l3 /\
       label_of max_value 2 l2 /\ label_of max_value 1 l1 /\
       texts cmds
         = [Int max_value ""; Int l4 ""; Int l3 ""; Int l2 ""; Int l1 ""; Int 0 "";
            Int value " RPM"]) /\
  (0 < max_value < 2 ^ 1023 ->
   forall value width height : Z,
     0 <= value <= max_value ->
     0 <= width < 2 ^ 31 -> 0 <= height < 2 ^ 31 ->
     (exists cmds,
        Temp_Gauge.paintEvent width height
          {| Temp_Gauge.value := value; Temp_Gauge.max_value := max_value |} = Ok cmds) /\
     (exists cmds,
        Tachometer.paintEvent width height
          {| Tachometer.value := value; Tachometer.max_value := max_value |} = Ok cmds)) /\
  label_of 300 3 180 /\
  label_of 2 4 1 /\
  (forall k : Z, Z.abs (max_value * k) < 2 ^ 52 ->
     label_of max_value k (Z.quot (max_value * k) 5)).
Proof.
  split; [|split; [|split; [|split; [|split]]]].
  - intros value width height cmds E.
    destruct (temp_gauge_paintEvent_inv width height _ cmds E)
      as (l4 & l3 & l2 & l1 & E4 & E3 & E2 & E1 & _ & Ht).
    exists l4, l3, l2, l1.
    repeat split; try exact Ht;
      apply (tick_label_truncates_temp
               {| Temp_Gauge.value := value; Temp_Gauge.max_value := max_value |});
      assumption.
  - intros value width height cmds E.
    destruct (tachometer_paintEvent_inv width height _ cmds E)
      as (span & l4 & l3 & l2 & l1 & _ & E4 & E3 & E2 & E1 & _ & _ & Ht).
    exists l4, l3, l2, l1.
    repeat split; try exact Ht;
      apply (tick_label_truncates_tach
               {| Tachometer.value := value; Tachometer.max_value := max_value |});
      assumption.
  - intros Hm value width height Hv Hw Hh. split.
    + apply temp_gauge_paintEvent_ok; assumption.
    + apply tachometer_paintEvent_ok; assumption.
  - apply (tick_label_truncates_temp
             {| Temp_Gauge.value := 0; Temp_Gauge.max_value := 300 |} 3 180).
    vm_compute. reflexivity.
  - apply (tick_label_truncates_temp
             {| Temp_Gauge.value := 0; Temp_Gauge.max_value := 2 |} 4 1).
    vm_compute. reflexivity.
  - intros k Hk. apply label_of_quot. exact Hk.
Qed.

Lemma tick_labels_truncate_witness :
  exists cmds,
    Temp_Gauge.paintEvent 400 300
      {| Temp_Gauge.value := 120; Temp_Gauge.max_value := 300 |} = Ok cmds /\
    texts cmds
      = [Int 300 ""; Int 240 ""; Int 180 ""; Int 120 ""; Int 60 ""; Int 0 "";
         Int 120 ""; Str "°C"].
Proof.
  destruct (tick_labels_truncate 300) as (Htemp & _ & Hok & _).
  destruct (Hok ltac:(lia) 120 400 300 ltac:(lia) ltac:(lia) ltac:(lia))
    as [(cmds & E) _].
  exists cmds. split; [exact E|].
  destruct (Htemp 120 400 300 cmds E) as (l4 & l3 & l2 & l1 & H4 & H3 & H2 & H1 & ->).
  destruct H4 as (q4 & E4 & I4 & _). destruct H3 as (q3 & E3 & I3 & _).
  destruct H2 as (q2 & E2 & I2 & _). destruct H1 as (q1 & E1 & I1 & _).
  vm_compute in E4. injection E4 as <-. vm_compute in I4. injection I4 as <-.
  vm_compute in E3. injection E3 as <-. vm_compute in I3. injection I3 as <-.
  vm_compute in E2. injection E2 as <-. vm_compute in I2. injection I2 as <-.
  vm_compute in E1. injection E1 as <-. vm_compute in I1. injection I1 as <-.
  reflexivity.
Defined.

(** ** Gauges outside their contract *)

Ltac run_gauge :=
  cbv [widget_add_to_value widget_update_value zoom
       Temp_Gauge.add_to_value Tachometer.add_to_value
       Fuel_Gauge.add_to_value Speedometer.add_to_value
       Temp_Gauge.update_value Tachometer.update_value
       Fuel_Gauge.update_value Speedometer.update_value
       mbind M_bind get put emit lift];
  simpl.

(** What the two mutators do whenever the modulus [max_value + 1] is not
    zero, whatever its sign. *)
Lemma widget_mutators_eq (n : Z) (w : gauge_widget) :
  widget_max_value w + 1 <> 0 ->
  widget_add_to_value n w
    = Ok (tt, widget_of (class_of w) ((widget_value w + n) mod (widget_max_value w + 1))
                (widget_max_value w), [Update]) /\
  widget_update_value n w
    = Ok (tt, widget_of (class_of w) (n mod (widget_max_value w + 1))
                (widget_max_value w), [Update]).
Proof.
  intros Hm.
  destruct w as [[v m]|[v m]|[v m]|[v m]]; simpl in Hm; run_gauge;
    unfold py_mod; destruct (decide _); try lia; split; reflexivity.
Qed.

(** X1: with [max_value = -1] the modulus [max_value + 1] is zero: in each of
    the four gauge classes [add_to_value] and [update_value] raise
    [ZeroDivisionError] for every argument. *)
Theorem gauge_mutators_raise_at_minus_one (w : gauge_widget) (n : Z) :
  widget_max_value w = -1 ->
  widget_add_to_value n w = Raise ZeroDivisionError /\
  widget_update_value n w = Raise ZeroDivisionError.
Proof.
  intros Hm.
  destruct w as [[v m]|[v m]|[v m]|[v m]]; simpl in Hm; subst m; split; reflexivity.
Qed.

Lemma gauge_mutators_raise_at_minus_one_witness :
  widget_add_to_value 5 (TachW {| Tachometer.value := 0; Tachometer.max_value := -1 |})
    = Raise ZeroDivisionError /\
  widget_update_value 5 (TachW {| Tachometer.value := 0; Tachometer.max_value := -1 |})
    = Raise ZeroDivisionError.
Proof.
  apply (gauge_mutators_raise_at_minus_one
           (TachW {| Tachometer.value := 0; Tachometer.max_value := -1 |}) 5).
  reflexivity.
Defined.

(** X2: with a maximum below -1 the two mutators return, and the value they
    store follows the sign of the modulus: it lies in
    [(max_value + 1, 0]], so it is never positive and the range
    [0 <= value <= max_value] is never met.  With the maximum 0 the value
    they store is 0. *)
Theorem gauge_mutators_nonpositive_max (w : gauge_widget) (n : Z) :
  (widget_max_value w < -1 ->
   exists w1 w2,
     widget_add_to_value n w = Ok (tt, w1, [Update]) /\
     widget_update_value n w = Ok (tt, w2, [Update]) /\
     widget_max_value w + 1 < widget_value w1 <= 0 /\
     widget_max_value w + 1 < widget_value w2 <= 0 /\
     ~ in_range w1 /\ ~ in_range w2) /\
  (widget_max_value w = 0 ->
   widget_add_to_value n w = Ok (tt, widget_of (class_of w) 0 0, [Update]) /\
   widget_update_value n w = Ok (tt, widget_of (class_of w) 0 0, [Update])).
Proof.
  split.
  - intros Hm.
    destruct (widget_mutators_eq n w ltac:(lia)) as [Ea Eu].
    eexists _, _. split; [exact Ea|]. split; [exact Eu|].
    pose proof (Z.mod_neg_bound (widget_value w + n) (widget_max_value w + 1) ltac:(lia)).
    pose proof (Z.mod_neg_bound n (widget_max_value w + 1) ltac:(lia)).
    unfold in_range.
    destruct w as [[v m]|[v m]|[v m]|[v m]]; simpl in *; repeat split; lia.
  - intros Hm.
    destruct (widget_mutators_eq n w ltac:(lia)) as [Ea Eu].
    rewrite Ea, Eu, Hm. simpl. rewrite !Z.mod_1_r. split; reflexivity.
Qed.

Lemma gauge_mutators_nonpositive_max_witness :
  exists w1,
    widget_add_to_value 7 (FuelW {| Fuel_Gauge.value := 0; Fuel_Gauge.max_value := -5 |})
      = Ok (tt, w1, [Update]) /\
    -4 < widget_value w1 <= 0.
Proof.
  destruct (gauge_mutators_nonpositive_max
              (FuelW {| Fuel_Gauge.value := 0; Fuel_Gauge.max_value := -5 |}) 7)
    as [H _].
  destruct (H ltac:(simpl; lia)) as (w1 & w2 & Ea & _ & Hr & _).
  exists w1. split; [exact Ea|exact Hr].
Defined.

Lemma widget_of_eq (w : gauge_widget) :
  w = widget_of (class_of w) (widget_value w) (widget_max_value w).
Proof. destruct w as [[v m]|[v m]|[v m]|[v m]]; reflexivity. Qed.

Lemma widget_of_fields (c : gauge_class) (v m : Z) :
  class_of (widget_of c v m) = c /\
  widget_value (widget_of c v m) = v /\
  widget_max_value (widget_of c v m) = m.
Proof. destruct c; repeat split. Qed.

Lemma add_all_widget_of (changes : list Z) : forall w : gauge_widget,
  0 < widget_max_value w ->
  changes <> [] ->
  add_all changes w
  = Ok (tt, widget_of (class_of w)
              ((widget_value w + sum_changes changes) mod (widget_max_value w + 1))
              (widget_max_value w),
        repeat Update (length changes)).
Proof.
  induction changes as [|c cs IH]; intros w Hm Hne; [congruence|].
  destruct (widget_mutators_eq c w ltac:(lia)) as [Ea _].
  simpl add_all. unfold mbind, M_bind. rewrite Ea.
  destruct cs as [|c' cs'].
  - simpl. rewrite Z.add_0_r. reflexivity.
  - rewrite IH; [|destruct w as [[]|[]|[]|[]]; simpl in *; lia|discriminate].
    assert (Hc : class_of (widget_of (class_of w)
                   ((widget_value w + c) mod (widget_max_value w + 1)) (widget_max_value w))
                 = class_of w) by (destruct w as [[]|[]|[]|[]]; reflexivity).
    assert (Hx : widget_max_value (widget_of (class_of w)
                   ((widget_value w + c) mod (widget_max_value w + 1)) (widget_max_value w))
                 = widget_max_value w) by (destruct w as [[]|[]|[]|[]]; reflexivity).
    assert (Hv : widget_value (widget_of (class_of w)
                   ((widget_value w + c) mod (widget_max_value w + 1)) (widget_max_value w))
                 = (widget_value w + c) mod (widget_max_value w + 1))
      by (destruct w as [[]|[]|[]|[]]; reflexivity).
    rewrite Hc, Hx, Hv.
    change (sum_changes (c :: c' :: cs')) with (c + sum_changes (c' :: cs')).
    rewrite Zplus_mod_idemp_l, Z.add_assoc. reflexivity.
Qed.

(** X3: with a positive maximum, a sequence of [add_to_value] calls leaves the
    gauge that one call with the sum of the arguments leaves, and asks for
    one redraw per call; and [update_value] followed by [add_to_value] is
    [update_value] of the sum. *)
Theorem add_to_value_composes (w : gauge_widget) (changes : list Z) (n d : Z) :
  0 < widget_max_value w ->
  changes <> [] ->
  (exists w',
     add_all changes w = Ok (tt, w', repeat Update (length changes)) /\
     widget_add_to_value (sum_changes changes) w = Ok (tt, w', [Update])) /\
  (exists w1 w2,
     widget_update_value n w = Ok (tt, w1, [Update]) /\
     widget_add_to_value d w1 = Ok (tt, w2, [Update]) /\
     widget_update_value (n + d) w = Ok (tt, w2, [Update])).
Proof.
  intros Hm Hne. split.
  - eexists. split; [apply add_all_widget_of; assumption|].
    apply (widget_mutators_eq (sum_changes changes) w). lia.
  - destruct (widget_mutators_eq n w ltac:(lia)) as [_ Eu].
    destruct (widget_mutators_eq (n + d) w ltac:(lia)) as [_ Eu'].
    set (w1 := widget_of (class_of w) (n mod (widget_max_value w + 1)) (widget_max_value w))
      in *.
    destruct (widget_of_fields (class_of w) (n mod (widget_max_value w + 1))
                (widget_max_value w)) as (Hc & Hv & Hx).
    fold w1 in Hc, Hv, Hx.
    destruct (widget_mutators_eq d w1 ltac:(lia)) as [Ea _].
    rewrite Hc, Hv, Hx, Zplus_mod_idemp_l in Ea.
    eexists _, _. split; [exact Eu|]. split; [exact Ea|exact Eu'].
Qed.

Lemma add_to_value_composes_witness :
  exists w',
    add_all [200; -350; 451] (TempW {| Temp_Gauge.value := 7; Temp_Gauge.max_value := 300 |})
      = Ok (tt, w', [Update; Update; Update]) /\
    widget_add_to_value 301 (TempW {| Temp_Gauge.value := 7; Temp_Gauge.max_value := 300 |})
      = Ok (tt, w', [Update]).
Proof.
  destruct (add_to_value_composes
              (TempW {| Temp_Gauge.value := 7; Temp_Gauge.max_value := 300 |})
              [200; -350; 451] 0 0) as [H _].
  - simpl. lia.
  - discriminate.
  - exact H.
Defined.

(** [value / (0*.5)]: the division by the float zero raises once the value
    has been converted. *)
Lemma ratio_of_zero_max (value : Z) :
  0 <= value < 2 ^ 1023 ->
  (half_max ← int_mul_float 0 (decimal 5 1); int_div_float value half_max)
  = Raise ZeroDivisionError.
Proof.
  intros Hv.
  destruct (float_of_int_nat value Hv) as (x & E & _).
  change (int_mul_float 0 (decimal 5 1)) with (Ok (S754_zero false)).
  run_result. unfold int_div_float. rewrite E. reflexivity.
Qed.

(** X4: A gauge built with [max_value = 0] cannot be painted: on a widget of
    Qt's size the paint events of the temperature gauge and the tachometer
    raise [ZeroDivisionError] for every value that converts to a float, and
    the paint event of the fuel gauge for every value.  The speed readout
    never reads [max_value]: whatever the maximum, it paints the value and
    the unit when the value has at most 4300 decimal digits, and raises
    [ValueError], from the conversion of the value to text, when it has
    more. *)
Theorem paint_with_zero_max (width height value : Z) :
  0 <= width < 2 ^ 31 -> 0 <= height < 2 ^ 31 ->
  (0 <= value < 2 ^ 1023 ->
   Temp_Gauge.paintEvent width height
     {| Temp_Gauge.value := value; Temp_Gauge.max_value := 0 |} = Raise ZeroDivisionError /\
   Tachometer.paintEvent width height
     {| Tachometer.value := value; Tachometer.max_value := 0 |} = Raise ZeroDivisionError) /\
  Fuel_Gauge.paintEvent width height
    {| Fuel_Gauge.value := value; Fuel_Gauge.max_value := 0 |} = Raise ZeroDivisionError /\
  (forall max_value : Z,
     (Z.abs value < 10 ^ 4300 ->
      Speedometer.paintEvent width height
        {| Speedometer.value := value; Speedometer.max_value := max_value |}
      = Ok [SetPen (Solid (RGB 255 255 255)); DrawText (Int value ""); DrawText (Str "MPH")]) /\
     (10 ^ 4300 <= Z.abs value ->
      Speedometer.paintEvent width height
        {| Speedometer.value := value; Speedometer.max_value := max_value |}
      = Raise ValueError)).
Proof.
  intros Hw Hh.
  destruct (int_truediv_by_2 width Hw) as (cx & Ecx & _).
  destruct (int_truediv_by_2 height Hh) as (cy & Ecy & _).
  destruct (int_truediv_by_2 (Z.min width height) ltac:(lia)) as (half & Ehalf & _).
  split; [|split].
  - intros Hv. pose proof (ratio_of_zero_max value Hv) as Hr. revert Hr. run_result.
    change (int_mul_float 0 (decimal 5 1)) with (Ok (S754_zero false)). intros Hr.
    split.
    + unfold Temp_Gauge.paintEvent, Temp_Gauge.fill_length. run_result.
      rewrite Ecx, Ecy, Ehalf. simpl Temp_Gauge.max_value. simpl Temp_Gauge.value.
      change (int_mul_float 0 (decimal 5 1)) with (Ok (S754_zero false)).
      cbv beta iota. rewrite Hr. reflexivity.
    + unfold Tachometer.paintEvent, Tachometer.fill_arc, Tachometer.arc_value. run_result.
      rewrite Ecx, Ecy, Ehalf. simpl Tachometer.max_value. simpl Tachometer.value.
      change (int_mul_float 0 (decimal 5 1)) with (Ok (S754_zero false)).
      cbv beta iota. rewrite Hr. reflexivity.
  - unfold Fuel_Gauge.paintEvent, Fuel_Gauge.indicator_pen, Fuel_Gauge.arc_value. run_result.
    rewrite Ecx, Ecy, Ehalf. simpl Fuel_Gauge.max_value. simpl Fuel_Gauge.value.
    change (int_mul_float 0 (decimal 4 1)) with (Ok (S754_zero false)).
    change (int_mul_float 0 (decimal 2 1)) with (Ok (S754_zero false)).
    assert (Hdiv : int_truediv value 0 = Raise ZeroDivisionError) by reflexivity.
    rewrite Hdiv.
    destruct (int_ge_float value (S754_zero false)); [reflexivity|].
    destruct (decide (value >= 0)); reflexivity.
  - intros max_value.
    unfold Speedometer.paintEvent, format_int, int_max_str_digits. run_result.
    rewrite Ecx, Ecy, Ehalf. cbv beta iota.
    change (Speedometer.value {| Speedometer.value := value;
                                 Speedometer.max_value := max_value |}) with value.
    split; intros Hv; destruct (decide (Z.abs value < 10 ^ 4300)) as [Hlt|Hge];
      try reflexivity.
    + contradiction.
    + apply Z.lt_nge in Hlt. contradiction.
Qed.

Lemma paint_with_zero_max_witness :
  Temp_Gauge.paintEvent 400 300
    {| Temp_Gauge.value := 0; Temp_Gauge.max_value := 0 |} = Raise ZeroDivisionError /\
  Fuel_Gauge.paintEvent 400 300
    {| Fuel_Gauge.value := 0; Fuel_Gauge.max_value := 0 |} = Raise ZeroDivisionError /\
  Speedometer.paintEvent 400 300
    {| Speedometer.value := 0; Speedometer.max_value := 0 |}
  = Ok [SetPen (Solid (RGB 255 255 255)); DrawText (Int 0 ""); DrawText (Str "MPH")] /\
  Speedometer.paintEvent 400 300
    {| Speedometer.value := 10 ^ 4300; Speedometer.max_value := 10 ^ 4301 |}
  = Raise ValueError.
Proof.
  destruct (paint_with_zero_max 400 300 0 ltac:(lia) ltac:(lia)) as (Ht & Hf & Hs).
  split; [|split; [exact Hf|split]].
  - apply Ht. lia.
  - apply (Hs 0). vm_compute. reflexivity.
  - destruct (paint_with_zero_max 400 300 (10 ^ 4300) ltac:(lia) ltac:(lia))
      as (_ & _ & Hbig).
    apply (Hbig (10 ^ 4301)). vm_compute. discriminate.
Defined.

(** ** The arc of the fuel gauge *)

(** Rounding does not cross an integer: a number below the integer [B],
    rounded at a unit that divides 1, is at most [B]. *)
Lemma binary_round_aux_le_int (mx ex : Z) (l : location) (B : Z) :
  0 <= mx ->
  ex <= fexp64 (magnitude mx ex) ->
  fexp64 (magnitude mx ex) <= 0 ->
  0 < B -> Zdigits2 B <= 1000 ->
  mx < B * 2 ^ (- ex) ->
  compare_float_int (binary_round_aux 53 1024 false mx ex l) B = Some Lt \/
  compare_float_int (binary_round_aux 53 1024 false mx ex l) B = Some Eq.
Proof.
  intros Hmx Hprec Hunit HB HdB Hlt.
  destruct (binary_round_aux_cases false mx ex l Hmx) as (m1 & Hm1 & ->).
  set (E := fexp64 (magnitude mx ex)) in *.
  replace (Z.max 0 (E - ex)) with (E - ex) in * by lia.
  replace (ex + (E - ex)) with E in * by lia.
  set (T2 := Z.max 0 (fexp64 (magnitude m1 E) - E)) in *.
  assert (HpT : 0 < 2 ^ (E - ex)) by (apply Z.pow_pos_nonneg; lia).
  assert (HpE : 0 < 2 ^ (- E)) by (apply Z.pow_pos_nonneg; lia).
  assert (Hm0 : mx / 2 ^ (E - ex) < B * 2 ^ (- E)).
  { apply Z.div_lt_upper_bound; [lia|].
    replace (- ex) with ((E - ex) + - E) in Hlt by lia.
    rewrite Z.pow_add_r in Hlt by lia. lia. }
  assert (Hm0' : 0 <= mx / 2 ^ (E - ex)) by (apply Z.div_pos; lia).
  assert (Hm1le : 0 <= m1 <= B * 2 ^ (- E)) by lia.
  assert (Hd1 : Zdigits2 m1 <= Zdigits2 B - E).
  { transitivity (Zdigits2 (B * 2 ^ (- E))).
    - apply Zdigits2_mono. lia.
    - rewrite Zdigits2_mul_pow2 by lia. lia. }
  assert (HT2 : 0 <= T2) by lia.
  assert (Hef : E + T2 <= 971).
  { unfold T2, magnitude, fexp64, fexp, emin. lia. }
  assert (HpT2 : 0 < 2 ^ T2) by (apply Z.pow_pos_nonneg; lia).
  pose proof (Z.mul_div_le m1 (2 ^ T2) HpT2) as Hfloor.
  assert (Hmf : 0 <= m1 / 2 ^ T2) by (apply Z.div_pos; lia).
  destruct (m1 / 2 ^ T2) as [|mf|mf] eqn:Emf; try lia.
  - simpl. left. destruct B; try lia. reflexivity.
  - unfold round_result.
    replace (E + T2 <=? 1024 - 53) with true by (symmetry; apply Z.leb_le; lia).
    rewrite (compare_float_int_scaled false mf (E + T2) B (- E)) by lia.
    replace (E + T2 + - E) with T2 by lia.
    destruct (Z.compare_spec (Zpos mf * 2 ^ T2) (B * 2 ^ (- E))); auto. lia.
Qed.

(** The quotient of a natural number by a larger one is at most 1. *)
Lemma f64_div_le_1 (a b : positive) :
  (a < b)%positive ->
  compare_float_int (f64_div (S754_finite false a 0) (S754_finite false b 0)) 1 = Some Lt \/
  compare_float_int (f64_div (S754_finite false a 0) (S754_finite false b 0)) 1 = Some Eq.
Proof.
  intros Hab. unfold f64_div, SFdiv.
  destruct (SFdiv_core_binary_spec a b 0 0) as (q & e' & l & E & Hq & Hprec & Hhi & _).
  destruct (SFdiv_core_binary_int a b) as (s & l' & Hs & E').
  rewrite E in E'. injection E' as Eq Ee _. rewrite E.
  change (xorb false false) with false.
  assert (Hda : Zdigits2 (Zpos a) <= Zdigits2 (Zpos b)) by (apply Zdigits2_mono; lia).
  unfold magnitude at 2 3 in Hhi. rewrite !Z.add_0_r in Hhi.
  apply binary_round_aux_le_int; try assumption; try lia.
  - unfold fexp64, fexp, emin in *. lia.
  - vm_compute. discriminate.
  - assert (0 < 2 ^ s) by (apply Z.pow_pos_nonneg; lia).
    rewrite Z.mul_1_l, Eq, Ee, Z.opp_involutive.
    apply Z.div_lt_upper_bound; [lia|]. nia.
Qed.

(** A number divided by itself is 1. *)
Lemma f64_div_self (a : positive) :
  f64_div (S754_finite false a 0) (S754_finite false a 0)
  = S754_finite false 4503599627370496 (-52).
Proof.
  unfold f64_div. simpl SFdiv. unfold SFdiv_core_binary.
  replace (Zdigits2 (Zpos a) + 0 - (Zdigits2 (Zpos a) + 0)) with 0 by lia.
  change (fexp 53 1024 0) with (-53).
  change (Z.min (-53) (0 - 0)) with (-53).
  change (0 - 0 - -53) with 53. cbv iota.
  rewrite Z.shiftl_mul_pow2 by lia.
  pose proof (Z_div_mod (Zpos a * 2 ^ 53) (Zpos a) ltac:(lia)) as Hdm.
  destruct (Z.div_eucl (Zpos a * 2 ^ 53) (Zpos a)) as [q r].
  destruct Hdm as [Hdm Hr].
  assert (q = 2 ^ 53 /\ r = 0) as [-> ->].
  { apply (Z.div_mod_unique (Zpos a)); lia. }
  unfold new_location, new_location_even, new_location_odd.
  destruct (Z.even (Zpos a)); reflexivity.
Qed.

(** The one float of the format that equals 1. *)
Lemma canonical_one (m : positive) (e : Z) :
  canonical (S754_finite false m e) ->
  compare_float_int (S754_finite false m e) 1 = Some Eq ->
  S754_finite false m e = S754_finite false 4503599627370496 (-52).
Proof.
  intros [Hc _] Hcmp.
  assert (Hd : 1 <= Zdigits2 (Zpos m)) by (apply Zdigits2_ge; simpl; lia).
  destruct (Z_le_gt_dec 0 e) as [He|He].
  - exfalso.
    rewrite (compare_float_int_scaled false m e 1 0) in Hcmp by lia.
    assert (Heq : Zpos m * 2 ^ (e + 0) = 1 * 2 ^ 0) by (apply Z.compare_eq_iff; congruence).
    assert (0 < 2 ^ (e + 0)) by (apply Z.pow_pos_nonneg; lia).
    assert (Hm1 : Zpos m = 1) by nia.
    rewrite Hm1 in Hc. change (Zdigits2 1) with 1 in Hd.
    unfold fexp64, fexp, emin, magnitude in Hc. change (Zdigits2 1) with 1 in Hc. lia.
  - rewrite (compare_float_int_scaled false m e 1 (- e)) in Hcmp by lia.
    assert (Heq : Zpos m * 2 ^ (e + - e) = 1 * 2 ^ (- e))
      by (apply Z.compare_eq_iff; congruence).
    replace (e + - e) with 0 in Heq by lia. rewrite Z.mul_1_r in Heq.
    assert (Hdm : Zdigits2 (Zpos m) = - e + 1).
    { rewrite Heq. rewrite Zdigits2_mul_pow2 by lia. change (Zdigits2 1) with 1. lia. }
    unfold fexp64, fexp, emin, magnitude in Hc. rewrite Hdm in Hc.
    assert (Hp : e = -52) by lia. subst e.
    change (1 * 2 ^ (- -52)) with (Zpos 4503599627370496) in Heq.
    injection Heq as ->. reflexivity.
Qed.

(** A float of at most 1, times 200, is at most 200. *)
Lemma f64_mul_200_le (m : positive) (e : Z) :
  canonical (S754_finite false m e) ->
  compare_float_int (S754_finite false m e) 1 = Some Lt \/
  compare_float_int (S754_finite false m e) 1 = Some Eq ->
  compare_float_int
    (f64_mul (S754_finite false m e) (S754_finite false 7036874417766400 (-45))) 200
  = Some Lt \/
  compare_float_int
    (f64_mul (S754_finite false m e) (S754_finite false 7036874417766400 (-45))) 200
  = Some Eq.
Proof.
  intros Hc [Hlt|Heq].
  - assert (He : e < 0).
    { destruct (Z_lt_le_dec e 0) as [|He]; [assumption|exfalso].
      rewrite (compare_float_int_scaled false m e 1 0) in Hlt by lia.
      assert (H : Zpos m * 2 ^ (e + 0) < 1 * 2 ^ 0) by (apply Z.compare_lt_iff; congruence).
      assert (0 < 2 ^ (e + 0)) by (apply Z.pow_pos_nonneg; lia). nia. }
    rewrite (compare_float_int_scaled false m e 1 (- e)) in Hlt by lia.
    assert (Hm : Zpos m * 2 ^ (e + - e) < 1 * 2 ^ (- e))
      by (apply Z.compare_lt_iff; congruence).
    replace (e + - e) with 0 in Hm by lia. rewrite Z.mul_1_r, Z.mul_1_l in Hm.
    unfold f64_mul. simpl SFmul. rewrite Pos2Z.inj_mul.
    assert (Hp : 0 < 2 ^ (- e)) by (apply Z.pow_pos_nonneg; lia).
    assert (Hbound : Zpos m * 7036874417766400 < 200 * 2 ^ (- (e + -45))).
    { replace (- (e + -45)) with (- e + 45) by lia. rewrite Z.pow_add_r by lia.
      change (2 ^ 45) with 35184372088832. nia. }
    assert (Hdlo : 53 <= Zdigits2 (Zpos m * 7036874417766400)).
    { apply Zdigits2_ge; [|lia]. change (2 ^ (53 - 1)) with 4503599627370496. nia. }
    assert (Hdhi : Zdigits2 (Zpos m * 7036874417766400) <= 8 - (e + -45)).
    { apply Zdigits2_le; [lia|]. split; [lia|].
      replace (8 - (e + -45)) with (8 + - (e + -45)) by lia.
      rewrite Z.pow_add_r by lia. change (2 ^ 8) with 256.
      assert (0 < 2 ^ (- (e + -45))) by (apply Z.pow_pos_nonneg; lia). lia. }
    apply binary_round_aux_le_int; try lia.
    + unfold fexp64, fexp, emin, magnitude. lia.
    + unfold fexp64, fexp, emin, magnitude. lia.
    + vm_compute. discriminate.
  - rewrite (canonical_one m e Hc Heq). right. vm_compute. reflexivity.
Qed.

(** [(value / max_value) * 200] for a value between 0 and the maximum. *)
Lemma fuel_arc_value_inv (g : Fuel_Gauge.t) (a : spec_float) :
  0 < Fuel_Gauge.max_value g ->
  0 <= Fuel_Gauge.value g <= Fuel_Gauge.max_value g ->
  Fuel_Gauge.arc_value g = Ok a ->
  is_finite a /\ has_sign false a /\ canonical a /\ magnitude_le a 11 /\
  (compare_float_int a 200 = Some Lt \/ compare_float_int a 200 = Some Eq) /\
  (Fuel_Gauge.value g = Fuel_Gauge.max_value g -> compare_float_int a 200 = Some Eq) /\
  (Fuel_Gauge.value g = 0 -> compare_float_int a 0 = Some Eq).
Proof.
  intros Hm Hv. unfold Fuel_Gauge.arc_value, float_mul_int. run_result.
  change (float_of_int 200) with (Ok (S754_finite false 7036874417766400 (-45))).
  destruct (int_truediv_ok (Fuel_Gauge.value g) (Fuel_Gauge.max_value g))
    as (q & Hdiv & Hf & Hs & Hc & Hmag); [lia|lia| |].
  { assert (0 <= Zdigits2 (Fuel_Gauge.value g)) by (apply Zdigits2_nonneg; lia).
    assert (Zdigits2 (Fuel_Gauge.value g) <= Zdigits2 (Fuel_Gauge.max_value g))
      by (apply Zdigits2_mono; lia).
    assert (1 <= Zdigits2 (Fuel_Gauge.max_value g)) by (apply Zdigits2_ge; simpl; lia).
    lia. }
  assert (Hdv : Zdigits2 (Fuel_Gauge.value g) <= Zdigits2 (Fuel_Gauge.max_value g))
    by (apply Zdigits2_mono; lia).
  rewrite Hdiv. cbv beta iota. intros E. injection E as <-.
  assert (Hq1 : Fuel_Gauge.value g <> 0 ->
                compare_float_int q 1 = Some Lt \/ compare_float_int q 1 = Some Eq).
  { intros Hnz. revert Hdiv. unfold int_truediv.
    destruct (decide _) as [|_]; [lia|].
    destruct (Fuel_Gauge.max_value g) as [|b|b] eqn:Eb; try lia.
    destruct (Fuel_Gauge.value g) as [|v|v] eqn:Ev; try lia.
    simpl exact_int.
    destruct (Z.eq_dec (Zpos v) (Zpos b)) as [Hvb|Hvb].
    - injection Hvb as ->. rewrite f64_div_self. intros Hdiv. injection Hdiv as <-.
      right. reflexivity.
    - pose proof (f64_div_le_1 v b ltac:(lia)) as Hle.
      destruct (f64_div (S754_finite false v 0) (S754_finite false b 0));
        intros Hdiv; try discriminate; injection Hdiv as <-; exact Hle. }
  assert (Hfull : Fuel_Gauge.value g = Fuel_Gauge.max_value g ->
                  q = S754_finite false 4503599627370496 (-52)).
  { intros Hfull. revert Hdiv. unfold int_truediv.
    destruct (decide _) as [|_]; [lia|].
    rewrite Hfull.
    destruct (Fuel_Gauge.max_value g) as [|b|b] eqn:Eb; try lia.
    simpl exact_int. rewrite f64_div_self. intros Hdiv. injection Hdiv as <-. reflexivity. }
  assert (Hzero : Fuel_Gauge.value g = 0 -> q = S754_zero false).
  { intros Hz. revert Hdiv. rewrite Hz. unfold int_truediv.
    destruct (decide _) as [|_]; [lia|].
    destruct (Fuel_Gauge.max_value g); try lia; simpl; intros Hdiv;
      injection Hdiv as <-; reflexivity. }
  destruct q as [s|s| |s mq eq]; simpl in Hf, Hs; try tauto; subst s.
  - (* the quotient is zero *)
    simpl. repeat split; auto.
    intros Hf1. specialize (Hfull Hf1). discriminate.
  - destruct (f64_mul_bounded false false mq 7036874417766400 eq (-45) Hc)
      as (Hf1 & Hc1 & Hm1).
    { split; vm_compute; congruence. }
    { simpl in Hmag. change (magnitude (Zpos 7036874417766400) (-45)) with 8. lia. }
    change (magnitude (Zpos 7036874417766400) (-45)) with 8 in Hm1.
    assert (Hvnz : Fuel_Gauge.value g <> 0).
    { intros Hz. specialize (Hzero Hz). discriminate. }
    split; [exact Hf1|]. split; [apply (f64_mul_sign_r false false); reflexivity|].
    split; [exact Hc1|].
    split; [apply (magnitude_le_weaken _ _ _ Hm1); simpl in Hmag; lia|].
    split; [apply f64_mul_200_le; auto|].
    split; [|intros Hz; contradiction].
    intros Hf2. rewrite (Hfull Hf2). vm_compute. reflexivity.
Qed.

(** The value arc in sixteenths of a degree. *)
Lemma fuel_span_inv (a span : spec_float) :
  is_finite a -> has_sign false a -> canonical a -> magnitude_le a 11 ->
  float_mul_int a 16 = Ok span ->
  forall n : Z, compare_float_int span (n * 16) = compare_float_int a n.
Proof.
  intros Hf Hs Hc Hm. unfold float_mul_int.
  change (float_of_int 16) with (Ok (S754_finite false 4503599627370496 (-48))).
  run_result. intros E. injection E as <-. intros n.
  destruct a as [s|s| |s m e]; simpl in Hf, Hs; try tauto; subst s.
  - simpl. f_equal. destruct n; reflexivity.
  - apply compare_float_int_mul_16; [assumption|]. simpl in Hm. lia.
Qed.

Lemma fuel_gauge_paintEvent_arc (width height : Z) (g : Fuel_Gauge.t) (cmds : list paint_cmd) :
  Fuel_Gauge.paintEvent width height g = Ok cmds ->
  exists a span,
    Fuel_Gauge.arc_value g = Ok a /\
    float_mul_int a 16 = Ok span /\
    arcs cmds = [FillArc (IntNum (170 * 16)) (FloatNum span)].
Proof.
  unfold Fuel_Gauge.paintEvent. run_result.
  destruct (int_truediv width 2) as [cx|]; [|discriminate].
  destruct (int_truediv height 2) as [cy|]; [|discriminate].
  destruct (int_truediv (Z.min width height) 2) as [half|]; [|discriminate].
  destruct (Fuel_Gauge.indicator_pen g) as [pen|]; [|discriminate].
  destruct (Fuel_Gauge.arc_value g) as [a|] eqn:Ea; [|discriminate].
  destruct (float_mul_int a 16) as [span|] eqn:Espan; [|discriminate].
  intros E. injection E as <-. exists a, span. repeat split. exact Espan.
Qed.

Lemma fuel_gauge_paintEvent_ok (width height : Z) (g : Fuel_Gauge.t) :
  0 <= width < 2 ^ 31 -> 0 <= height < 2 ^ 31 ->
  0 < Fuel_Gauge.max_value g < 2 ^ 1023 ->
  0 <= Fuel_Gauge.value g <= Fuel_Gauge.max_value g ->
  exists cmds, Fuel_Gauge.paintEvent width height g = Ok cmds.
Proof.
  intros Hw Hh Hm Hv.
  destruct (int_truediv_by_2 width Hw) as (cx & Ecx & _).
  destruct (int_truediv_by_2 height Hh) as (cy & Ecy & _).
  destruct (int_truediv_by_2 (Z.min width height) ltac:(lia)) as (half & Ehalf & _).
  destruct (float_of_int_nat (Fuel_Gauge.max_value g) ltac:(lia)) as (fm & Efm & _).
  assert (Hpen : exists pen, Fuel_Gauge.indicator_pen g = Ok pen).
  { unfold Fuel_Gauge.indicator_pen, int_mul_float. run_result. rewrite Efm.
    destruct (int_ge_float _ _); [eauto|].
    destruct (int_ge_float _ _); [eauto|].
    destruct (decide _); eauto. }
  destruct Hpen as (pen & Epen).
  destruct (int_truediv_ok (Fuel_Gauge.value g) (Fuel_Gauge.max_value g))
    as (q & Hdiv & _); [lia|lia| |].
  { assert (0 <= Zdigits2 (Fuel_Gauge.value g)) by (apply Zdigits2_nonneg; lia).
    assert (Zdigits2 (Fuel_Gauge.value g) <= Zdigits2 (Fuel_Gauge.max_value g))
      by (apply Zdigits2_mono; lia).
    assert (1 <= Zdigits2 (Fuel_Gauge.max_value g)) by (apply Zdigits2_ge; simpl; lia).
    lia. }
  unfold Fuel_Gauge.paintEvent, Fuel_Gauge.arc_value, float_mul_int. run_result.
  rewrite Ecx, Ecy, Ehalf, Epen, Hdiv.
  change (float_of_int 200) with (Ok (S754_finite false 7036874417766400 (-45))).
  change (float_of_int 16) with (Ok (S754_finite false 4503599627370496 (-48))).
  eexists. reflexivity.
Qed.

(** X18: for a fuel gauge with a positive maximum and a value between 0 and the
    maximum, every paint that returns draws one value arc, starting at 170
    degrees with the span [(value / max_value) * 200] degrees handed over in
    sixteenths; the span lies between 0 and 200 * 16 sixteenths, is exactly
    200 * 16 at [value = max_value] and exactly 0 at [value = 0]: rounding
    never carries the arc beyond the 200 degrees of the backing arc.  The
    paint does return for every maximum below 2^1023 on a widget of Qt's
    size. *)
Theorem fuel_arc_bounded (g : Fuel_Gauge.t)
    (Hmax : 0 < Fuel_Gauge.max_value g)
    (Hvalue : 0 <= Fuel_Gauge.value g <= Fuel_Gauge.max_value g) :
  (forall (width height : Z) (cmds : list paint_cmd),
     Fuel_Gauge.paintEvent width height g = Ok cmds ->
     exists span,
       arcs cmds = [FillArc (IntNum (170 * 16)) (FloatNum span)] /\
       in_interval 0 (200 * 16) (FloatNum span) /\
       (Fuel_Gauge.value g = Fuel_Gauge.max_value g ->
        compare_float_int span (200 * 16) = Some Eq) /\
       (Fuel_Gauge.value g = 0 -> compare_float_int span 0 = Some Eq)) /\
  (Fuel_Gauge.max_value g < 2 ^ 1023 ->
   forall width height : Z,
     0 <= width < 2 ^ 31 -> 0 <= height < 2 ^ 31 ->
     exists cmds, Fuel_Gauge.paintEvent width height g = Ok cmds).
Proof.
  split.
  - intros width height cmds Hpaint.
    destruct (fuel_gauge_paintEvent_arc width height g cmds Hpaint)
      as (a & span & Ea & Espan & Harcs).
    destruct (fuel_arc_value_inv g a Hmax Hvalue Ea)
      as (Hf & Hs & Hc & Hm & Hle & Hfull & Hzero).
    pose proof (fuel_span_inv a span Hf Hs Hc Hm Espan) as Hcmp.
    exists span. split; [exact Harcs|].
    unfold in_interval, compare_num_int.
    rewrite (Hcmp 200). change 0 with (0 * 16). rewrite (Hcmp 0).
    split; [split|split].
    + pose proof (compare_nonnegative a Hs) as Hge. unfold float_ge_int in Hge.
      destruct (compare_float_int a 0) as [[]|]; auto; discriminate.
    + exact Hle.
    + exact Hfull.
    + exact Hzero.
  - intros Hfit width height Hw Hh.
    apply fuel_gauge_paintEvent_ok; auto; lia.
Qed.

Lemma fuel_arc_bounded_witness :
  exists cmds span,
    Fuel_Gauge.paintEvent 400 300
      {| Fuel_Gauge.value := 100; Fuel_Gauge.max_value := 100 |} = Ok cmds /\
    arcs cmds = [FillArc (IntNum (170 * 16)) (FloatNum span)] /\
    compare_float_int span (200 * 16) = Some Eq.
Proof.
  destruct (fuel_arc_bounded
    {| Fuel_Gauge.value := 100; Fuel_Gauge.max_value := 100 |}) as [Hspan Hok].
  - simpl. lia.
  - simpl. lia.
  - destruct (Hok ltac:(simpl; lia) 400 300 ltac:(lia) ltac:(lia)) as (cmds & E).
    destruct (Hspan 400 300 cmds E) as (span & Harcs & _ & Hfull & _).
    exists cmds, span. split; [exact E|]. split; [exact Harcs|]. apply Hfull. reflexivity.
Defined.

(** ** Runs of the two-step panel *)

Ltac bounds_line_goal :=
  first
    [ solve [apply List.Forall_nil]
    | solve [apply List.Forall_cons; [|apply List.Forall_nil];
             eexists _, _; split; [reflexivity|];
             repeat match goal with
                    | H : Forall _ (_ :: _) |- _ => inversion_clear H
                    end; lia] ].

(** One call keeps the session, keeps the stored upper bound within four
    digits, and prints nothing but a pair of bounds in order. *)
Lemma run_op_safe (o : op) (s : t) :
  session s -> 0 <= captured_upper s <= 9999 ->
  exists s' log,
    run_op o s = Ok (tt, s', log) /\
    session s' /\ 0 <= captured_upper s' <= 9999 /\
    Forall valid_bounds_line (printed log).
Proof.
  intros Hs Hu. pose proof Hs as Hs0.
  destruct o as [value| |new_widget].
  - open_session s Hs. unfold captured_upper in *. simpl in Hu.
    cursor_cases Hs_cursor; run_method;
      (eexists _, _; split; [reflexivity|]; split; [split; simpl; session_goal|];
       split; [simpl; lia|bounds_line_goal]).
  - open_session s Hs. unfold captured_upper in *. simpl in Hu.
    cursor_cases Hs_cursor; destruct Hs_phase as [-> | ->]; run_method;
      try (eexists _, _; split; [reflexivity|]; split; [split; simpl; session_goal|];
           split; [simpl; lia|bounds_line_goal]).
    + eexists _, _; split; [reflexivity|]; split; [split; simpl; session_goal|].
      split; [|bounds_line_goal]. simpl.
      repeat match goal with
             | H : Forall _ (_ :: _) |- _ => inversion_clear H
             end; lia.
    + destruct (decide _); simpl;
        (eexists _, _; split; [reflexivity|]; split; [split; simpl; session_goal|];
         split; [simpl; lia|bounds_line_goal]).
  - open_session s Hs. unfold captured_upper in *. simpl in Hu. run_method.
    destruct (decide (new_widget = "Two-Step")); simpl;
      (eexists _, _; split; [reflexivity|]; split; [split; simpl; session_goal|];
       split; [simpl; lia|bounds_line_goal]).
Qed.

Lemma printed_app (l1 l2 : list event) : printed (l1 ++ l2) = printed l1 ++ printed l2.
Proof. apply List.filter_app. Qed.

Lemma run_ops_safe (os : list op) : forall s : t,
  session s -> 0 <= captured_upper s <= 9999 ->
  exists s' log,
    run_ops os s = Ok (tt, s', log) /\
    session s' /\ 0 <= captured_upper s' <= 9999 /\
    Forall valid_bounds_line (printed log).
Proof.
  induction os as [|o os IH]; intros s Hs Hu.
  - exists s, []. split; [reflexivity|]. split; [assumption|].
    split; [lia|apply List.Forall_nil].
  - destruct (run_op_safe o s Hs Hu) as (s1 & log1 & E1 & Hs1 & Hu1 & Hp1).
    destruct (IH s1 Hs1 Hu1) as (s2 & log2 & E2 & Hs2 & Hu2 & Hp2).
    exists s2, (log1 ++ log2). split.
    + simpl. unfold mbind, M_bind. rewrite E1, E2. reflexivity.
    + split; [assumption|]. split; [lia|].
      rewrite printed_app. apply Forall_app. auto.
Qed.

(** X5: from construction on, no sequence of [change_widget],
    [update_two_step] and [move_two_step] calls raises; it keeps the
    session well formed (four digits between 0 and 9, the cursor on one of
    the five positions, the phase Upper or Lower), and every line it prints
    is a pair of bounds with [0 <= lower < upper <= 9999]: the error lines
    of the two methods are never printed. *)
Theorem panel_runs_are_safe (os : list op) :
  exists s' log,
    run_ops os initial = Ok (tt, s', log) /\
    session s' /\
    Forall valid_bounds_line (printed log).
Proof.
  destruct (run_ops_safe os initial) as (s' & log & E & Hs & _ & Hp).
  - apply session_initial.
  - unfold captured_upper. simpl. lia.
  - exists s', log. auto.
Qed.

Lemma run_ops_app (os1 os2 : list op) : forall (s s1 s2 : t) (log1 log2 : list event),
  run_ops os1 s = Ok (tt, s1, log1) ->
  run_ops os2 s1 = Ok (tt, s2, log2) ->
  run_ops (os1 ++ os2) s = Ok (tt, s2, log1 ++ log2).
Proof.
  induction os1 as [|o os1 IH]; intros s s1 s2 log1 log2 E1 E2.
  - simpl in E1. injection E1 as <- <-. exact E2.
  - simpl in E1 |- *. unfold mbind, M_bind in E1 |- *.
    destruct (run_op o s) as [[[[] s0] log0]|]; [|discriminate].
    destruct (run_ops os1 s0) as [[[[] s0'] log0']|] eqn:E0; [|discriminate].
    injection E1 as <- <-.
    rewrite (IH s0 s0' s2 log0' log2 E0 E2), app_assoc. reflexivity.
Qed.

Lemma printed_updates (n : nat) : printed (repeat Update n) = [].
Proof. induction n; simpl; auto. Qed.

(** Adjusting the digit under the cursor any number of times. *)
Lemma adjust_run (w : string) (b : list Z) (ph : string) (bad : bool) (ps : list Z) :
  forall d0 d1 d2 d3 : Z,
    0 <= d0 <= 9 -> 0 <= d1 <= 9 -> 0 <= d2 <= 9 -> 0 <= d3 <= 9 ->
    run_ops (map AdjustDigit ps) (entering w b "first_digit" ph [d0; d1; d2; d3] bad)
    = Ok (tt, entering w b "first_digit" ph
                [(d0 + foldr Z.add 0 ps) mod 10; d1; d2; d3] bad,
          repeat Update (length ps)) /\
    run_ops (map AdjustDigit ps) (entering w b "second_digit" ph [d0; d1; d2; d3] bad)
    = Ok (tt, entering w b "second_digit" ph
                [d0; (d1 + foldr Z.add 0 ps) mod 10; d2; d3] bad,
          repeat Update (length ps)) /\
    run_ops (map AdjustDigit ps) (entering w b "third_digit" ph [d0; d1; d2; d3] bad)
    = Ok (tt, entering w b "third_digit" ph
                [d0; d1; (d2 + foldr Z.add 0 ps) mod 10; d3] bad,
          repeat Update (length ps)) /\
    run_ops (map AdjustDigit ps) (entering w b "forth_digit" ph [d0; d1; d2; d3] bad)
    = Ok (tt, entering w b "forth_digit" ph
                [d0; d1; d2; (d3 + foldr Z.add 0 ps) mod 10] bad,
          repeat Update (length ps)).
Proof.
  induction ps as [|p ps IH]; intros d0 d1 d2 d3 H0 H1 H2 H3.
  - simpl. rewrite !Z.add_0_r, !Z.mod_small by lia. repeat split.
  - pose proof (mod10_range (d0 + p)). pose proof (mod10_range (d1 + p)).
    pose proof (mod10_range (d2 + p)). pose proof (mod10_range (d3 + p)).
    destruct (IH ((d0 + p) mod 10) d1 d2 d3) as (E0 & _); try lia.
    destruct (IH d0 ((d1 + p) mod 10) d2 d3) as (_ & E1 & _); try lia.
    destruct (IH d0 d1 ((d2 + p) mod 10) d3) as (_ & _ & E2 & _); try lia.
    destruct (IH d0 d1 d2 ((d3 + p) mod 10)) as (_ & _ & _ & E3); try lia.
    rewrite Zplus_mod_idemp_l, <- Z.add_assoc in E0, E1, E2, E3.
    change (foldr Z.add 0 (p :: ps)) with (p + foldr Z.add 0 ps).
    simpl map. simpl run_ops. unfold mbind, M_bind.
    repeat split.
    + change (update_two_step p (entering w b "first_digit" ph [d0; d1; d2; d3] bad))
        with (Ok (tt, entering w b "first_digit" ph [(d0 + p) mod 10; d1; d2; d3] bad,
                  [Update])).
      cbv beta iota. rewrite E0. reflexivity.
    + change (update_two_step p (entering w b "second_digit" ph [d0; d1; d2; d3] bad))
        with (Ok (tt, entering w b "second_digit" ph [d0; (d1 + p) mod 10; d2; d3] bad,
                  [Update])).
      cbv beta iota. rewrite E1. reflexivity.
    + change (update_two_step p (entering w b "third_digit" ph [d0; d1; d2; d3] bad))
        with (Ok (tt, entering w b "third_digit" ph [d0; d1; (d2 + p) mod 10; d3] bad,
                  [Update])).
      cbv beta iota. rewrite E2. reflexivity.
    + change (update_two_step p (entering w b "forth_digit" ph [d0; d1; d2; d3] bad))
        with (Ok (tt, entering w b "forth_digit" ph [d0; d1; d2; (d3 + p) mod 10] bad,
                  [Update])).
      cbv beta iota. rewrite E3. reflexivity.
Qed.

(** Entering one digit: the adjustments, then the advance. *)
Lemma enter_digit_run (w : string) (b : list Z) (ph : string) (bad : bool) (ps : list Z)
    (d0 d1 d2 d3 : Z) :
  0 <= d0 <= 9 -> 0 <= d1 <= 9 -> 0 <= d2 <= 9 -> 0 <= d3 <= 9 ->
  run_ops (enter_digit ps) (entering w b "first_digit" ph [d0; d1; d2; d3] bad)
  = Ok (tt, entering w b "second_digit" ph
              [(d0 + foldr Z.add 0 ps) mod 10; d1; d2; d3] bad,
        repeat Update (length ps) ++ [Update]) /\
  run_ops (enter_digit ps) (entering w b "second_digit" ph [d0; d1; d2; d3] bad)
  = Ok (tt, entering w b "third_digit" ph
              [d0; (d1 + foldr Z.add 0 ps) mod 10; d2; d3] bad,
        repeat Update (length ps) ++ [Update]) /\
  run_ops (enter_digit ps) (entering w b "third_digit" ph [d0; d1; d2; d3] bad)
  = Ok (tt, entering w b "forth_digit" ph
              [d0; d1; (d2 + foldr Z.add 0 ps) mod 10; d3] bad,
        repeat Update (length ps) ++ [Update]) /\
  run_ops (enter_digit ps) (entering w b "forth_digit" ph [d0; d1; d2; d3] bad)
  = Ok (tt, entering w b "rmp_digit" ph
              [d0; d1; d2; (d3 + foldr Z.add 0 ps) mod 10] bad,
        repeat Update (length ps) ++ [Update]).
Proof.
  intros H0 H1 H2 H3.
  destruct (adjust_run w b ph bad ps d0 d1 d2 d3 H0 H1 H2 H3) as (E0 & E1 & E2 & E3).
  unfold enter_digit.
  repeat split;
    (eapply run_ops_app; [eassumption|]; reflexivity).
Qed.

Lemma printed_entry (n : nat) (log : list event) :
  printed ((repeat Update n ++ [Update]) ++ log) = printed log.
Proof. rewrite !printed_app, printed_updates. reflexivity. Qed.

(** Entering four digits from a cleared entry. *)
Lemma enter_digits_run (w : string) (b : list Z) (ph : string) (bad : bool)
    (p0 p1 p2 p3 : list Z) :
  exists log,
    run_ops (enter_digit p0 ++ enter_digit p1 ++ enter_digit p2 ++ enter_digit p3)
      (entering w b "first_digit" ph [0; 0; 0; 0] bad)
    = Ok (tt, entering w b "rmp_digit" ph
                [digit_entered p0; digit_entered p1; digit_entered p2; digit_entered p3] bad,
          log) /\
    printed log = [].
Proof.
  pose proof (mod10_range (foldr Z.add 0 p0)) as R0.
  pose proof (mod10_range (foldr Z.add 0 p1)) as R1.
  pose proof (mod10_range (foldr Z.add 0 p2)) as R2.
  destruct (enter_digit_run w b ph bad p0 0 0 0 0) as (E0 & _); try lia.
  destruct (enter_digit_run w b ph bad p1 (digit_entered p0) 0 0 0) as (_ & E1 & _);
    try (unfold digit_entered; lia).
  destruct (enter_digit_run w b ph bad p2 (digit_entered p0) (digit_entered p1) 0 0)
    as (_ & _ & E2 & _); try (unfold digit_entered; lia).
  destruct (enter_digit_run w b ph bad p3 (digit_entered p0) (digit_entered p1)
              (digit_entered p2) 0) as (_ & _ & _ & E3); try (unfold digit_entered; lia).
  simpl Z.add in E0, E1, E2, E3. fold (digit_entered p0) in E0.
  fold (digit_entered p1) in E1. fold (digit_entered p2) in E2.
  fold (digit_entered p3) in E3.
  eexists. split.
  - eapply run_ops_app; [exact E0|].
    eapply run_ops_app; [exact E1|].
    eapply run_ops_app; [exact E2|exact E3].
  - rewrite !printed_entry, printed_app, printed_updates. reflexivity.
Qed.

(** X6: the whole entry: opening the two-step screen, entering and confirming
    an upper number, entering and confirming a lower number.  Each digit is
    the sum of its adjustments modulo 10.  When the lower number is below
    the upper one the run commits exactly the pair entered; otherwise it
    prints nothing, raises the bad-input flag and stays on the two-step
    screen with the rejected pair stored. *)
Theorem entering_two_numbers (s : t)
    (u0 u1 u2 u3 l0 l1 l2 l3 : list Z)
    (Hs : session s) :
  let upper := number_entered u0 u1 u2 u3 in
  let lower := number_entered l0 l1 l2 l3 in
  let out := run_ops (ChangeWidget "Two-Step"
                      :: enter_number u0 u1 u2 u3 ++ enter_number l0 l1 l2 l3) s in
  (lower < upper -> commits out upper lower) /\
  (lower >= upper ->
   exists s' log,
     out = Ok (tt, s', log) /\
     printed log = [] /\
     two_step_bad_input s' = true /\
     current_widget s' = "Two-Step" /\
     new_two_step_bounds s' = [upper; lower]).
Proof.
  intros upper lower out.
  assert (E0 : run_op (ChangeWidget "Two-Step") s
               = Ok (tt, entering "Two-Step" [0; 0] "first_digit" "Upper" [0; 0; 0; 0] false,
                     [Update])).
  { destruct Hs as [Hn _ _ _ _ _]. destruct s. simpl in Hn. subst. reflexivity. }
  destruct (enter_digits_run "Two-Step" [0; 0] "Upper" false u0 u1 u2 u3) as (logu & Eu & Hu).
  destruct (enter_digits_run "Two-Step" [upper; 0] "Lower" false l0 l1 l2 l3)
    as (logl & El & Hl).
  assert (Ec : run_ops [Advance]
                 (entering "Two-Step" [0; 0] "rmp_digit" "Upper"
                    [digit_entered u0; digit_entered u1; digit_entered u2; digit_entered u3]
                    false)
               = Ok (tt, entering "Two-Step" [upper; 0] "first_digit" "Lower" [0; 0; 0; 0] false,
                     [Update])) by reflexivity.
  pose proof (run_ops_app _ _ _ _ _ _ _ Eu Ec) as Eupper.
  rewrite <- !app_assoc in Eupper. fold (enter_number u0 u1 u2 u3) in Eupper.
  assert (Hrun : forall s' log,
            run_ops [Advance]
              (entering "Two-Step" [upper; 0] "rmp_digit" "Lower"
                 [digit_entered l0; digit_entered l1; digit_entered l2; digit_entered l3]
                 false) = Ok (tt, s', log) ->
            out = Ok (tt, s', [Update] ++ (logu ++ [Update]) ++ logl ++ log)).
  { intros s' log Ed.
    pose proof (run_ops_app _ _ _ _ _ _ _ El Ed) as Elower.
    rewrite <- !app_assoc in Elower. fold (enter_number l0 l1 l2 l3) in Elower.
    pose proof (run_ops_app _ _ _ _ _ _ _ Eupper Elower) as Eall.
    subst out.
    change (run_ops (ChangeWidget "Two-Step"
                     :: enter_number u0 u1 u2 u3 ++ enter_number l0 l1 l2 l3) s)
      with ((run_op (ChangeWidget "Two-Step");;
             run_ops (enter_number u0 u1 u2 u3 ++ enter_number l0 l1 l2 l3)) s).
    unfold mbind, M_bind. rewrite E0, Eall. reflexivity. }
  assert (Hp : forall log, printed ([Update] ++ (logu ++ [Update]) ++ logl ++ log)
                           = printed log).
  { intros log. rewrite !printed_app, Hu, Hl. reflexivity. }
  split.
  - intros Hlt. eexists _, _. split; [apply Hrun|].
    + simpl run_ops. run_method.
      fold upper. fold lower. unfold number_entered in upper, lower.
      destruct (decide _) as [Hge|_]; [subst upper lower; lia|]. reflexivity.
    + rewrite Hp. split; reflexivity.
  - intros Hge. eexists _, _. split; [apply Hrun|].
    + simpl run_ops. run_method.
      destruct (decide _) as [_|Hlt]; [|subst upper lower; unfold number_entered in *; lia].
      reflexivity.
    + rewrite Hp. repeat split.
Qed.

Lemma entering_two_numbers_witness :
  commits
    (run_ops (ChangeWidget "Two-Step"
              :: enter_number [1; 1; 1] [] [-1] [10] ++ enter_number [] [1] [1; 1] [-3])
       initial)
    3090 127.
Proof.
  exact (proj1 (entering_two_numbers initial [1; 1; 1] [] [-1] [10] [] [1] [1; 1] [-3]
                  (proj2 session_initial)) ltac:(vm_compute; reflexivity)).
Defined.

(** X7: two [update_two_step] calls in a row are one call with the sum of the
    two arguments, apart from the second redraw request; so a call with
    [- value] undoes a call with [value]. *)
Theorem update_two_step_composes (s : t) (a b : Z) (Hs : session s) :
  exists s1 s2,
    update_two_step a s = Ok (tt, s1, [Update]) /\
    update_two_step b s1 = Ok (tt, s2, [Update]) /\
    update_two_step (a + b) s = Ok (tt, s2, [Update]) /\
    (b = - a -> s2 = s).
Proof.
  open_session s Hs.
  repeat match goal with
         | H : Forall _ (_ :: _) |- _ => inversion_clear H
         end.
  cursor_cases Hs_cursor; run_method;
    (eexists _, _; split; [reflexivity|]; split; [reflexivity|]; split;
     [first [reflexivity | rewrite Zplus_mod_idemp_l, Z.add_assoc; reflexivity]
     |first [reflexivity
            |intros ->; rewrite Zplus_mod_idemp_l;
             match goal with
             | |- context [(?d + ?a + - ?a) mod 10] =>
                 replace (d + a + - a) with d by lia; rewrite (Z.mod_small d) by lia
             end; reflexivity]]).
Qed.

Lemma update_two_step_composes_witness :
  exists s1,
    update_two_step 4 (entering "Two-Step" [0; 0] "third_digit" "Upper" [1; 2; 8; 0] false)
      = Ok (tt, s1, [Update]) /\
    update_two_step (-4) s1
      = Ok (tt, entering "Two-Step" [0; 0] "third_digit" "Upper" [1; 2; 8; 0] false, [Update]).
Proof.
  destruct (update_two_step_composes
              (entering "Two-Step" [0; 0] "third_digit" "Upper" [1; 2; 8; 0] false) 4 (-4))
    as (s1 & s2 & E1 & E2 & _ & Hinv).
  - split; simpl; session_goal.
  - exists s1. split; [exact E1|]. rewrite <- (Hinv eq_refl). exact E2.
Defined.

(** X8: A commit does not clear the entry: the cursor stays on Confirm in the
    Lower phase with the digits and the pair in place.  So every further
    [move_two_step] call commits the same pair again, printing it once
    more and leaving the object as it is, and [update_two_step] changes
    nothing. *)
Theorem commit_is_repeatable (s : t)
    (Hs : session s)
    (Hcursor : selected_two_step_digit s = "rmp_digit")
    (Hphase : two_step_bound s = "Lower")
    (Hlt : entered_number s < captured_upper s) :
  exists s1,
    move_two_step s
      = Ok (tt, s1,
            [Update;
             PrintBounds "TWO STEP BOUNDS ARE: " [captured_upper s; entered_number s];
             Update]) /\
    new_two_step_bounds s1 = [captured_upper s; entered_number s] /\
    two_step_current_digit_values s1 = two_step_current_digit_values s /\
    move_two_step s1
      = Ok (tt, s1,
            [Update;
             PrintBounds "TWO STEP BOUNDS ARE: " [captured_upper s; entered_number s];
             Update]) /\
    (forall value : Z, update_two_step value s1 = Ok (tt, s1, [Update])).
Proof.
  open_session s Hs. subst.
  unfold entered_number, captured_upper, digit in *. simpl in Hlt |- *.
  run_method.
  destruct (decide _) as [Hge|_]; [lia|]. simpl.
  eexists. split; [reflexivity|]. split; [reflexivity|]. split; [reflexivity|].
  split; [|reflexivity].
  run_method. destruct (decide _) as [Hge|_]; [lia|]. reflexivity.
Qed.

Lemma commit_is_repeatable_witness :
  exists s1,
    move_two_step (entering "Two-Step" [100; 0] "rmp_digit" "Lower" [0; 0; 5; 0] false)
      = Ok (tt, s1, [Update; PrintBounds "TWO STEP BOUNDS ARE: " [100; 50]; Update]) /\
    move_two_step s1
      = Ok (tt, s1, [Update; PrintBounds "TWO STEP BOUNDS ARE: " [100; 50]; Update]).
Proof.
  destruct (commit_is_repeatable
              (entering "Two-Step" [100; 0] "rmp_digit" "Lower" [0; 0; 5; 0] false))
    as (s1 & E1 & _ & _ & E2 & _).
  - split; simpl; session_goal.
  - reflexivity.
  - reflexivity.
  - vm_compute. reflexivity.
  - exists s1. split; [exact E1|exact E2].
Defined.

(** ** The straight section of the tachometer *)

(** [value > max_value*.5] for a maximum below 2^53: the half is exact, so
    the comparison is that of the integers [2 * value] and [max_value]. *)
Lemma above_half_exact (value max_value : Z) (half : spec_float) :
  0 < max_value < 2 ^ 53 ->
  int_mul_float max_value (decimal 5 1) = Ok half ->
  int_gt_float value half = bool_decide (max_value < 2 * value).
Proof.
  intros Hm Eh.
  destruct (half_max_inv max_value half ltac:(lia) Eh) as (m & e & Ef & _ & _ & ->).
  destruct max_value as [|p|p] eqn:Ep; try lia.
  assert (Hd : Zdigits2 (Zpos p) <= 53) by (apply Zdigits2_le; lia).
  assert (Hd1 : 1 <= Zdigits2 (Zpos p)) by (apply Zdigits2_ge; simpl; lia).
  unfold float_of_int in Ef. rewrite (f64_of_exact p Hd) in Ef.
  injection Ef as <- <-.
  change (Z.pos (digits2_pos p)) with (Zdigits2 (Zpos p)) in *.
  remember (53 - Zdigits2 (Zpos p)) as k eqn:Hk.
  assert (Hpk : 0 < 2 ^ k) by (apply Z.pow_pos_nonneg; lia).
  unfold int_gt_float.
  rewrite (compare_float_int_scaled false _ (Zdigits2 (Zpos p) - 53 - 1) value (k + 1))
    by lia.
  replace (Zdigits2 (Zpos p) - 53 - 1 + (k + 1)) with 0 by lia.
  rewrite Z2Pos.id by nia. rewrite Z.mul_1_r.
  rewrite Z.pow_add_r by lia. change (2 ^ 1) with 2.
  replace (value * (2 ^ k * 2)) with (2 * value * 2 ^ k) by lia.
  rewrite compare_scale by lia.
  destruct (bool_decide_reflect (Zpos p < 2 * value)) as [Hlt|Hge].
  - apply Z.compare_lt_iff in Hlt. rewrite Hlt. reflexivity.
  - destruct (Z.compare_spec (Zpos p) (2 * value)); try reflexivity. lia.
Qed.

(** The fills of a tachometer paint: the arc, then the line if any. *)
Lemma tachometer_paintEvent_fills (width height : Z) (g : Tachometer.t)
    (cmds : list paint_cmd) :
  Tachometer.paintEvent width height g = Ok cmds ->
  exists span half line,
    Tachometer.fill_arc g = Ok (FillArc (IntNum (180 * 16)) span) /\
    int_truediv (Z.min width height) 2 = Ok half /\
    Tachometer.fill_line g (f64_mul half (decimal 8 1)) = Ok line /\
    fills cmds = FillArc (IntNum (180 * 16)) span :: fills line.
Proof.
  unfold Tachometer.paintEvent. run_result.
  destruct (int_truediv width 2) as [cx|]; [|discriminate].
  destruct (int_truediv height 2) as [cy|]; [|discriminate].
  destruct (int_truediv (Z.min width height) 2) as [half|]; [|discriminate].
  destruct (Tachometer.fill_arc g) as [arc|] eqn:Earc; [|discriminate].
  destruct (Tachometer.fill_line g (f64_mul half (decimal 8 1))) as [line|] eqn:El;
    [|discriminate].
  destruct (Tachometer.tick_label g 4) as [l4|]; [|discriminate].
  destruct (Tachometer.tick_label g 3) as [l3|]; [|discriminate].
  destruct (Tachometer.tick_label g 2) as [l2|]; [|discriminate].
  destruct (Tachometer.tick_label g 1) as [l1|]; [|discriminate].
  intros E. injection E as <-.
  destruct (tachometer_fill_arc_shape g arc Earc) as (span & ->).
  exists span, half, line. repeat split; [exact El|].
  unfold fills. simpl. rewrite List.filter_app. simpl. rewrite app_nil_r. reflexivity.
Qed.

(** X19: for a tachometer whose maximum is positive and below 2^53, the straight
    section of the fill is drawn exactly when twice the value exceeds the
    maximum: the float [max_value*.5] is exact, so no value at or below the
    half draws the line and every value above it does.  A paint that
    returns has the arc as its one fill at or below the half, and the arc
    followed by the line above it.  The paint does return for every value
    between 0 and the maximum on a widget of Qt's size. *)
Theorem tachometer_line_above_half (g : Tachometer.t)
    (Hmax : 0 < Tachometer.max_value g < 2 ^ 53) :
  (forall (width height : Z) (cmds : list paint_cmd),
     Tachometer.paintEvent width height g = Ok cmds ->
     exists span,
       Tachometer.fill_arc g = Ok (FillArc (IntNum (180 * 16)) span) /\
       (2 * Tachometer.value g <= Tachometer.max_value g ->
        fills cmds = [FillArc (IntNum (180 * 16)) span]) /\
       (Tachometer.max_value g < 2 * Tachometer.value g ->
        exists length,
          fills cmds = [FillArc (IntNum (180 * 16)) span; FillLine length])) /\
  (0 <= Tachometer.value g <= Tachometer.max_value g ->
   forall width height : Z,
     0 <= width < 2 ^ 31 -> 0 <= height < 2 ^ 31 ->
     exists cmds, Tachometer.paintEvent width height g = Ok cmds).
Proof.
  split.
  - intros width height cmds Hpaint.
    destruct (tachometer_paintEvent_fills width height g cmds Hpaint)
      as (span & half & line & Earc & _ & Eline & Hfills).
    exists span. split; [exact Earc|].
    revert Eline. unfold Tachometer.fill_line. run_result.
    destruct (int_mul_float (Tachometer.max_value g) (decimal 5 1)) as [hm|] eqn:Eh;
      [|discriminate].
    rewrite (above_half_exact (Tachometer.value g) (Tachometer.max_value g) hm Hmax Eh).
    destruct (bool_decide_reflect (Tachometer.max_value g < 2 * Tachometer.value g))
      as [Hlt|Hge].
    + destruct (int_sub_float (Tachometer.value g) hm) as [above|]; [|discriminate].
      destruct (float_truediv above hm) as [ratio|]; [|discriminate].
      intros E. injection E as <-. rewrite Hfills. simpl.
      split; [lia|]. intros _. eexists. reflexivity.
    + intros E. injection E as <-. rewrite Hfills. simpl.
      split; [reflexivity|]. lia.
  - intros Hv width height Hw Hh.
    apply tachometer_paintEvent_ok; try assumption.
    split; [lia|]. transitivity (2 ^ 53); [lia|]. apply Z.pow_lt_mono_r; lia.
Qed.

Lemma tachometer_line_above_half_witness :
  exists cmds span length,
    Tachometer.paintEvent 400 300
      {| Tachometer.value := 2501; Tachometer.max_value := 5000 |} = Ok cmds /\
    fills cmds = [FillArc (IntNum (180 * 16)) span; FillLine length].
Proof.
  destruct (tachometer_line_above_half
    {| Tachometer.value := 2501; Tachometer.max_value := 5000 |}) as [Hfills Hok].
  - simpl. lia.
  - destruct (Hok ltac:(simpl; lia) 400 300 ltac:(lia) ltac:(lia)) as (cmds & E).
    destruct (Hfills 400 300 cmds E) as (span & _ & _ & Hline).
    destruct (Hline ltac:(simpl; lia)) as (length & Hl).
    exists cmds, span, length. split; [exact E|exact Hl].
Defined.

(** ** Painting the panel and the menu *)

(** The float operations of the paint events return on a widget of Qt's
    size. *)
Lemma float_of_int_small (n : Z) :
  0 < n < 2 ^ 1023 ->
  exists m e, float_of_int n = Ok (S754_finite false m e).
Proof.
  intros Hn. destruct (float_of_int_nat n ltac:(lia)) as (x & E & _ & _ & _ & H).
  destruct (H ltac:(lia)) as (m & e & -> & _). eauto.
Qed.

Lemma float_div_int_ok (x : spec_float) (n : Z) :
  0 < n < 2 ^ 1023 -> exists y, float_div_int x n = Ok y.
Proof.
  intros Hn. destruct (float_of_int_small n Hn) as (m & e & E).
  unfold float_div_int. rewrite E. eexists. reflexivity.
Qed.

Lemma float_mul_int_ok (x : spec_float) (n : Z) :
  0 <= n < 2 ^ 1023 -> exists y, float_mul_int x n = Ok y.
Proof.
  intros Hn. destruct (float_of_int_nat n Hn) as (y & E & _).
  unfold float_mul_int. rewrite E. eexists. reflexivity.
Qed.

Lemma int_sub_float_ok (n : Z) (x : spec_float) :
  0 <= n < 2 ^ 1023 -> exists y, int_sub_float n x = Ok y.
Proof.
  intros Hn. destruct (float_of_int_nat n Hn) as (y & E & _).
  unfold int_sub_float. rewrite E. eexists. reflexivity.
Qed.

Lemma int_truediv_ok_qt (a b : Z) :
  0 <= a < 2 ^ 32 -> 0 < b < 2 ^ 31 -> exists q, int_truediv a b = Ok q.
Proof.
  intros Ha Hb.
  destruct (int_truediv_ok a b) as (q & E & _); [lia|lia| |eauto].
  assert (Zdigits2 a <= 32) by (apply Zdigits2_le; lia).
  assert (1 <= Zdigits2 b) by (apply Zdigits2_ge; simpl; lia).
  lia.
Qed.

Ltac run_painter :=
  cbv [mbind M_bind mret M_ret paint modify emit lift get put]; cbv beta iota.

(** The columns on a widget of Qt's size. *)
Lemma digit_columns_ok (width height : Z) (sf : spec_float) :
  0 <= width < 2 ^ 31 -> 0 <= height < 2 ^ 31 ->
  exists hh w5 x2 x3 x4,
    int_sub_float height (f64_mul sf (decimal 5 1)) = Ok hh /\
    int_truediv width 5 = Ok w5 /\
    float_mul_int w5 2 = Ok x2 /\
    float_mul_int w5 3 = Ok x3 /\
    float_mul_int w5 4 = Ok x4 /\
    (forall x, digit_rect x width height sf
               = Ok (QRect x (FloatNum (f64_mul sf (decimal 5 1))) (FloatNum w5) (FloatNum hh))) /\
    digit_columns width height sf
    = Ok (map (fun x => QRect x (FloatNum (f64_mul sf (decimal 5 1))) (FloatNum w5) (FloatNum hh))
            [IntNum 0; FloatNum w5; FloatNum x2; FloatNum x3; FloatNum x4]).
Proof.
  intros Hw Hh.
  destruct (int_sub_float_ok height (f64_mul sf (decimal 5 1)) ltac:(lia)) as (hh & Ehh).
  destruct (int_truediv_ok_qt width 5 ltac:(lia) ltac:(lia)) as (w5 & Ew5).
  destruct (float_mul_int_ok w5 2 ltac:(lia)) as (x2 & E2).
  destruct (float_mul_int_ok w5 3 ltac:(lia)) as (x3 & E3).
  destruct (float_mul_int_ok w5 4 ltac:(lia)) as (x4 & E4).
  exists hh, w5, x2, x3, x4.
  assert (Hrect : forall x, digit_rect x width height sf
               = Ok (QRect x (FloatNum (f64_mul sf (decimal 5 1))) (FloatNum w5) (FloatNum hh))).
  { intros x. unfold digit_rect. rewrite Ew5, Ehh. reflexivity. }
  repeat (split; [assumption|]).
  unfold digit_columns. run_result.
  repeat (first [rewrite Hrect | rewrite Ew5 | rewrite E2 | rewrite E3 | rewrite E4];
          cbv beta iota).
  reflexivity.
Qed.

(** What [draw_Two_Step] draws for a session. *)
Lemma draw_Two_Step_run (width height : Z) (sf : spec_float) (s : t) :
  session s ->
  0 <= width < 2 ^ 31 -> 0 <= height < 2 ^ 31 ->
  exists (p : painter) (c0 c1 c2 c3 c4 : rect) (d0 d1 d2 d3 : Z) (i : nat) (c : rect),
    draw_Two_Step width height sf s [] = Ok (tt, p, []) /\
    digit_columns width height sf = Ok [c0; c1; c2; c3; c4] /\
    two_step_current_digit_values s = [d0; d1; d2; d3] /\
    placed_texts p
    = [(title_rect width sf, Str (two_step_title s));
       (c4, Str "RPM");
       (c0, Int d0 ""); (c1, Int d1 ""); (c2, Int d2 ""); (c3, Int d3 "")] /\
    digit_names !! i = Some (selected_two_step_digit s) /\
    [c0; c1; c2; c3; c4] !! i = Some c /\
    outlined p = [c].
Proof.
  intros Hs Hw Hh.
  destruct (digit_columns_ok width height sf Hw Hh)
    as (hh & w5 & x2 & x3 & x4 & Ehh & Ew5 & E2 & E3 & E4 & Hrect & Hcols).
  rewrite Hcols.
  open_session s Hs.
  unfold draw_Two_Step, two_step_title. simpl two_step_bad_input. simpl two_step_bound.
  simpl selected_two_step_digit. simpl two_step_current_digit_values.
  run_painter. run_result.
  repeat (first [rewrite Hrect | rewrite Ehh | rewrite Ew5 | rewrite E2 | rewrite E3
                | rewrite E4];
          cbv beta iota).
  cursor_cases Hs_cursor; destruct Hs_phase as [-> | ->]; destruct bad;
    simpl;
    eexists _, _, _, _, _, _, _, _, _, _;
    [exists 0%nat|exists 0%nat|exists 0%nat|exists 0%nat
    |exists 1%nat|exists 1%nat|exists 1%nat|exists 1%nat
    |exists 2%nat|exists 2%nat|exists 2%nat|exists 2%nat
    |exists 3%nat|exists 3%nat|exists 3%nat|exists 3%nat
    |exists 4%nat|exists 4%nat|exists 4%nat|exists 4%nat];
    eexists;
    (split; [reflexivity|]); (split; [reflexivity|]); (split; [reflexivity|]);
    (split; [reflexivity|]); (split; [reflexivity|]); (split; reflexivity).
Qed.

(** The half of the smaller side, from which [paintEvent] takes the size
    factor. *)
Lemma paint_sizes_ok (width height : Z) :
  0 <= width < 2 ^ 31 -> 0 <= height < 2 ^ 31 ->
  exists cx cy half,
    int_truediv width 2 = Ok cx /\ int_truediv height 2 = Ok cy /\
    int_truediv (Z.min width height) 2 = Ok half.
Proof.
  intros Hw Hh.
  destruct (int_truediv_by_2 width Hw) as (cx & Ecx & _).
  destruct (int_truediv_by_2 height Hh) as (cy & Ecy & _).
  destruct (int_truediv_by_2 (Z.min width height) ltac:(lia)) as (half & Ehalf & _).
  eauto 10.
Qed.

Lemma paintEvent_two_step (width height : Z) (s : t) :
  current_widget s = "Two-Step" ->
  0 <= width < 2 ^ 31 -> 0 <= height < 2 ^ 31 ->
  exists half,
    int_truediv (Z.min width height) 2 = Ok half /\
    paintEvent width height s
    = match draw_Two_Step width height (f64_mul half (decimal 8 1)) s [] with
      | Ok (_, p, log) => Ok (f64_mul half (decimal 8 1), p, log)
      | Raise e => Raise e
      end.
Proof.
  intros Hcw Hw Hh.
  destruct (paint_sizes_ok width height Hw Hh) as (cx & cy & half & Ecx & Ecy & Ehalf).
  exists half. split; [assumption|].
  unfold paintEvent. run_result. rewrite Ecx, Ecy, Ehalf, Hcw. reflexivity.
Qed.

(** X9: on a session showing the two-step screen, a paint event on a widget of
    Qt's size returns and prints nothing.  It draws the title of the phase
    (or the bad-bounds notice), the RPM label in the fifth column and the
    four digits, each in its own column; and it outlines one column, the
    one at the position of the cursor, which for a digit is the column of
    the very digit [update_two_step] changes: every other digit is left
    alone. *)
Theorem two_step_screen_shows_entry (width height : Z) (s : t)
    (Hs : session s)
    (Hcw : current_widget s = "Two-Step")
    (Hw : 0 <= width < 2 ^ 31)
    (Hh : 0 <= height < 2 ^ 31) :
  exists (sf : spec_float) (p : painter) (c0 c1 c2 c3 c4 : rect) (d0 d1 d2 d3 : Z)
         (i : nat) (c : rect),
    paintEvent width height s = Ok (sf, p, []) /\
    digit_columns width height sf = Ok [c0; c1; c2; c3; c4] /\
    two_step_current_digit_values s = [d0; d1; d2; d3] /\
    placed_texts p
    = [(title_rect width sf, Str (two_step_title s));
       (c4, Str "RPM");
       (c0, Int d0 ""); (c1, Int d1 ""); (c2, Int d2 ""); (c3, Int d3 "")] /\
    digit_names !! i = Some (selected_two_step_digit s) /\
    [c0; c1; c2; c3; c4] !! i = Some c /\
    outlined p = [c] /\
    (forall value : Z, exists s',
       update_two_step value s = Ok (tt, s', [Update]) /\
       forall j : nat, j <> i ->
         two_step_current_digit_values s' !! j = two_step_current_digit_values s !! j).
Proof.
  destruct (paintEvent_two_step width height s Hcw Hw Hh) as (half & _ & Ep).
  destruct (draw_Two_Step_run width height (f64_mul half (decimal 8 1)) s Hs Hw Hh)
    as (p & c0 & c1 & c2 & c3 & c4 & d0 & d1 & d2 & d3 & i & c
        & Ed & Ecols & Eds & Ht & Hi & Hc & Ho).
  rewrite Ed in Ep.
  exists (f64_mul half (decimal 8 1)), p, c0, c1, c2, c3, c4, d0, d1, d2, d3, i, c.
  repeat (split; [assumption|]).
  intros value. clear Ep Ed Ht Ho Ecols Hc.
  open_session s Hs. simpl in Hi.
  cursor_cases Hs_cursor; run_method;
    (eexists; split; [reflexivity|]);
    intros j Hj; simpl;
    destruct i as [|[|[|[|[|i]]]]]; try discriminate Hi;
    destruct j as [|[|[|[|j]]]]; try reflexivity; congruence.
Qed.

Lemma two_step_screen_shows_entry_witness :
  exists (sf : spec_float) (p : painter) (c : rect),
    paintEvent 400 300 (entering "Two-Step" [0; 0] "third_digit" "Upper" [1; 2; 8; 0] false)
      = Ok (sf, p, []) /\
    outlined p = [c] /\
    In (c, Int 8 "") (placed_texts p).
Proof.
  destruct (two_step_screen_shows_entry 400 300
              (entering "Two-Step" [0; 0] "third_digit" "Upper" [1; 2; 8; 0] false))
    as (sf & p & c0 & c1 & c2 & c3 & c4 & d0 & d1 & d2 & d3 & i & c
        & Ep & _ & Eds & Ht & Hi & Hc & Ho & _).
  - split; simpl; session_goal.
  - reflexivity.
  - lia.
  - lia.
  - exists sf, p, c. split; [exact Ep|]. split; [exact Ho|].
    rewrite Ht. simpl in Eds. injection Eds as <- <- <- <-.
    destruct i as [|[|[|[|[|i]]]]]; vm_compute in Hi; try discriminate Hi.
    simpl in Hc. injection Hc as <-. simpl. auto 10.
Defined.

(** X10: what a paint event draws outside the two-step screen, on a widget of
    Qt's size: nothing at all for the widgets Competition, Rear Steer and
    Lap Time; the manual for Startup; and for every name that is none of
    the five widget types (a misspelt or differently cased name included)
    the error text, over the whole widget.  Nothing is printed. *)
Theorem panel_paint_dispatch (width height : Z) (s : t)
    (Hw : 0 <= width < 2 ^ 31)
    (Hh : 0 <= height < 2 ^ 31) :
  exists (sf : spec_float),
    (current_widget s ∈ ["Competition"; "Rear Steer"; "Lap Time"] ->
     paintEvent width height s = Ok (sf, [], [])) /\
    (current_widget s = "Startup" ->
     exists p,
       paintEvent width height s = Ok (sf, p, []) /\
       placed_texts p
       = [(QRect (IntNum 0) (IntNum 0) (IntNum width) (IntNum height), Str startup_string)]) /\
    (current_widget s ∉ widget_types ->
     exists p,
       paintEvent width height s = Ok (sf, p, []) /\
       placed_texts p
       = [(QRect (IntNum 0) (IntNum 0) (IntNum width) (IntNum height), Str error_string)]).
Proof.
  destruct (paint_sizes_ok width height Hw Hh) as (cx & cy & half & Ecx & Ecy & Ehalf).
  exists (f64_mul half (decimal 8 1)).
  destruct (float_div_int_ok (f64_mul half (decimal 8 1)) 13 ltac:(lia)) as (f13 & E13).
  destruct (float_div_int_ok (f64_mul half (decimal 8 1)) 12 ltac:(lia)) as (f12 & E12).
  unfold paintEvent. run_result. rewrite Ecx, Ecy, Ehalf.
  split; [|split].
  - intros Hin. apply list_elem_of_In in Hin. simpl in Hin.
    destruct Hin as [<-|[<-|[<-|[]]]]; reflexivity.
  - intros Hc. rewrite Hc.
    destruct (decide ("Startup" = "Startup")) as [_|Hn]; [|congruence].
    unfold draw_Startup. run_painter. rewrite E13.
    eexists. split; reflexivity.
  - intros Hnot. unfold widget_types in Hnot.
    repeat (destruct (decide _) as [Heq|_];
            [exfalso; apply Hnot; rewrite Heq; apply list_elem_of_In; simpl; auto 10|]).
    unfold draw_Error. run_painter. rewrite E12.
    eexists. split; reflexivity.
Qed.

Lemma panel_paint_dispatch_witness :
  exists sf p,
    paintEvent 400 300 (set_current_widget "competition" initial) = Ok (sf, p, []) /\
    placed_texts p
    = [(QRect (IntNum 0) (IntNum 0) (IntNum 400) (IntNum 300), Str error_string)].
Proof.
  destruct (panel_paint_dispatch 400 300 (set_current_widget "competition" initial)
              ltac:(lia) ltac:(lia)) as (sf & _ & _ & He).
  destruct He as (p & Ep & Ht).
  - unfold widget_types. simpl. intros Hin. apply list_elem_of_In in Hin. simpl in Hin.
    destruct Hin as [H|[H|[H|[H|[H|[]]]]]]; discriminate H.
  - exists sf, p. split; [exact Ep|exact Ht].
Defined.

(** X11: after a rejected confirm on the two-step screen, whatever digit
    adjustments and advances follow, every paint event shows the notice
    BAD BOUNDS REOPEN FROM MENU in the title bar, with the rejected digits
    still in their columns; re-entering the screen through
    [change_widget("Two-Step")] restores the title of the Upper phase. *)
Theorem rejected_pair_is_shown (width height : Z) (s : t) (os : list op)
    (Hs : session s)
    (Hcw : current_widget s = "Two-Step")
    (Hcursor : selected_two_step_digit s = "rmp_digit")
    (Hphase : two_step_bound s = "Lower")
    (Hbad : entered_number s >= captured_upper s)
    (Hos : Forall entry_op os)
    (Hw : 0 <= width < 2 ^ 31)
    (Hh : 0 <= height < 2 ^ 31) :
  exists (s1 : t) (log : list event) (sf : spec_float) (p : painter),
    run_ops (Advance :: os) s = Ok (tt, s1, log) /\
    printed log = [] /\
    paintEvent width height s1 = Ok (sf, p, []) /\
    head (placed_texts p) = Some (title_rect width sf, Str "BAD BOUNDS REOPEN FROM MENU") /\
    (exists d0 d1 d2 d3,
       two_step_current_digit_values s = [d0; d1; d2; d3] /\
       map snd (drop 2 (placed_texts p)) = [Int d0 ""; Int d1 ""; Int d2 ""; Int d3 ""]) /\
    (exists s2 sf' p',
       change_widget "Two-Step" s1 = Ok (tt, s2, [Update]) /\
       paintEvent width height s2 = Ok (sf', p', []) /\
       head (placed_texts p') = Some (title_rect width sf', Str "Upper 2-Step Bound")).
Proof.
  destruct (lower_confirm s Hs Hcursor Hphase)
    as (s1 & log1 & E1 & Hu1 & Hl1 & Hn1 & Hc1 & Hp1 & Hd1 & _ & _ & Hge).
  destruct (Hge Hbad) as (-> & Hcw1 & Hb1).
  destruct (run_op_session Advance s Hs) as (s1' & log' & E' & Hs1).
  simpl in E'. rewrite E1 in E'. injection E' as <- _.
  assert (He : entered_number s1 = entered_number s)
    by (unfold entered_number, digit; rewrite Hd1; reflexivity).
  destruct (rejected_run s1 os Hs1 Hc1 Hp1 ltac:(lia) ltac:(lia) Hb1 Hos) as (log2 & E2 & Hlog2).
  rewrite Hcw in Hcw1.
  destruct (paintEvent_two_step width height s1 Hcw1 Hw Hh) as (half & _ & Ep).
  destruct (draw_Two_Step_run width height (f64_mul half (decimal 8 1)) s1 Hs1 Hw Hh)
    as (p & c0 & c1 & c2 & c3 & c4 & d0 & d1 & d2 & d3 & i & c
        & Ed & Ecols & Eds & Ht & Hi & Hc & Ho).
  rewrite Ed in Ep.
  exists s1, ([Update] ++ log2), (f64_mul half (decimal 8 1)), p.
  split; [|split; [|split; [|split; [|split]]]].
  - simpl. unfold mbind, M_bind. rewrite E1, E2. reflexivity.
  - simpl. exact Hlog2.
  - exact Ep.
  - rewrite Ht. unfold two_step_title. rewrite Hb1. reflexivity.
  - exists d0, d1, d2, d3. split; [congruence|]. rewrite Ht. reflexivity.
  - destruct (run_op_session (ChangeWidget "Two-Step") s1 Hs1) as (s2 & log3 & E3 & Hs2).
    assert (E3' : change_widget "Two-Step" s1 = Ok (tt, s2, [Update]) /\
                  current_widget s2 = "Two-Step" /\
                  two_step_bad_input s2 = false /\ two_step_bound s2 = "Upper").
    { revert E3. destruct s1. run_method. intros E3. injection E3 as <- <-. repeat split. }
    destruct E3' as (E3' & Hcw2 & Hb2 & Hp2).
    destruct (paintEvent_two_step width height s2 Hcw2 Hw Hh) as (half' & _ & Ep').
    destruct (draw_Two_Step_run width height (f64_mul half' (decimal 8 1)) s2 Hs2 Hw Hh)
      as (p' & c0' & c1' & c2' & c3' & c4' & d0' & d1' & d2' & d3' & i' & c'
          & Ed' & _ & _ & Ht' & _).
    rewrite Ed' in Ep'.
    exists s2, (f64_mul half' (decimal 8 1)), p'.
    split; [exact E3'|]. split; [exact Ep'|].
    rewrite Ht'. unfold two_step_title. rewrite Hb2, Hp2. reflexivity.
Qed.

Lemma rejected_pair_is_shown_witness :
  exists (s1 : t) (log : list event) (sf : spec_float) (p : painter),
    run_ops [Advance; AdjustDigit 1; Advance]
      (entering "Two-Step" [100; 0] "rmp_digit" "Lower" [0; 5; 0; 0] false)
      = Ok (tt, s1, log) /\
    paintEvent 400 300 s1 = Ok (sf, p, []) /\
    head (placed_texts p) = Some (title_rect 400 sf, Str "BAD BOUNDS REOPEN FROM MENU").
Proof.
  destruct (rejected_pair_is_shown 400 300
              (entering "Two-Step" [100; 0] "rmp_digit" "Lower" [0; 5; 0; 0] false)
              [AdjustDigit 1; Advance])
    as (s1 & log & sf & p & E & _ & Ep & Ht & _).
  - split; simpl; session_goal.
  - reflexivity.
  - reflexivity.
  - reflexivity.
  - vm_compute. discriminate.
  - repeat constructor.
  - lia.
  - lia.
  - exists s1, log, sf, p. split; [exact E|]. split; [exact Ep|exact Ht].
Defined.

(** ** The menu *)

(** [l.index(x)] is the first position of [x]; it raises exactly when [x]
    is not in the list. *)
Lemma py_index_Ok (x : string) (l : list string) (i : nat) :
  py_index x l = Ok i ->
  l !! i = Some x /\ (i < length l)%nat /\ forall j, (j < i)%nat -> l !! j <> Some x.
Proof.
  revert i. induction l as [|y l IH]; intros i; simpl; [discriminate|].
  destruct (decide (y = x)) as [->|Hne].
  - intros E. injection E as <-. simpl. repeat split; [lia|]. intros j Hj. lia.
  - destruct (py_index x l) as [k|] eqn:Ek; [|discriminate].
    intros E. injection E as <-. destruct (IH k eq_refl) as (Hk & Hlen & Hfirst).
    simpl. repeat split; [assumption|lia|].
    intros [|j] Hj; simpl; [congruence|]. apply Hfirst. lia.
Qed.

Lemma py_index_elem_of (x : string) (l : list string) :
  x ∈ l -> exists i, py_index x l = Ok i.
Proof.
  induction l as [|y l IH]; intros Hin; [inversion Hin|].
  simpl. destruct (decide (y = x)) as [|Hne]; [eauto|].
  destruct IH as [i Ei].
  - apply elem_of_cons in Hin. destruct Hin; [congruence|assumption].
  - rewrite Ei. eauto.
Qed.

Lemma py_index_not_elem_of (x : string) (l : list string) :
  x ∉ l -> py_index x l = Raise ValueError.
Proof.
  induction l as [|y l IH]; intros Hnot; [reflexivity|].
  simpl. destruct (decide (y = x)) as [->|Hne].
  - exfalso. apply Hnot. left.
  - rewrite IH; [reflexivity|]. intros Hin. apply Hnot. right. assumption.
Qed.

Lemma py_index_NoDup (l : list string) (i : nat) (x : string) :
  NoDup l -> l !! i = Some x -> py_index x l = Ok i.
Proof.
  intros Hnd Hi.
  destruct (py_index_elem_of x l) as [k Ek].
  { eapply list_elem_of_lookup_2. eassumption. }
  destruct (py_index_Ok x l k Ek) as (Hk & _).
  rewrite Ek. f_equal. eapply NoDup_lookup; eassumption.
Qed.

(** Indexing with an integer that is in range on either side. *)
Lemma py_getitem_mod {A} (l : list A) (k : Z) :
  - Z.of_nat (length l) <= k < Z.of_nat (length l) ->
  exists x,
    l !! Z.to_nat (k mod Z.of_nat (length l)) = Some x /\ py_getitem l k = Ok x.
Proof.
  intros Hk. unfold py_getitem, getitem.
  destruct (decide (0 <= k)) as [Hpos|Hneg].
  - rewrite Z.mod_small by lia.
    destruct (l !! Z.to_nat k) as [x|] eqn:E; [eauto|].
    apply lookup_ge_None in E. lia.
  - destruct (decide _) as [_|]; [|lia].
    replace (k mod Z.of_nat (length l)) with (Z.of_nat (length l) + k).
    + destruct (l !! Z.to_nat (Z.of_nat (length l) + k)) as [x|] eqn:E; [eauto|].
      apply lookup_ge_None in E. lia.
    + apply (Z.mod_unique_pos _ _ (-1)); lia.
Qed.

Lemma py_getitem_below {A} (l : list A) (k : Z) :
  k < - Z.of_nat (length l) -> py_getitem l k = Raise IndexError.
Proof.
  intros Hk. unfold py_getitem.
  destruct (decide (0 <= k)); [lia|]. destruct (decide _); [lia|reflexivity].
Qed.

Ltac run_menu :=
  unfold Menu.update_value;
  cbv [mbind M_bind mret M_ret get put modify emit lift]; cbv beta iota.

(** [update_value] once [index] has found the state: one lookup, at the
    target position or at 0. *)
Lemma update_value_eq (self : Menu.t) (move_value : Z) (i : nat) :
  py_index (Menu.state self) (Menu.modes self) = Ok i ->
  Menu.update_value move_value self
  = match py_getitem (Menu.modes self)
            (if decide (Z.of_nat i + move_value < Menu.num_of_modes self)
             then Z.of_nat i + move_value else 0)
    with
    | Ok x => Ok (tt, Menu.set_state x self, [Update])
    | Raise e => Raise e
    end.
Proof.
  intros Hidx. run_menu. rewrite Hidx. cbv beta iota.
  destruct (decide (Z.of_nat i + move_value < Menu.num_of_modes self)); cbv beta iota;
    destruct (py_getitem _ _); reflexivity.
Qed.

(** X12: [update_value] on a menu whose state is listed at first position [i],
    with [n] modes: a move to a position from [-n] up to [n - 1] selects
    the mode there, counted cyclically (so one step left of the first mode
    is the last mode); a move to [n] or beyond selects the first mode,
    whatever the overshoot; a move below [-n] raises [IndexError].  The
    list and the stored length never change. *)
Theorem menu_update_value_selects (self : Menu.t) (move_value : Z) (i : nat)
    (Hwf : Menu.well_formed self)
    (Hidx : py_index (Menu.state self) (Menu.modes self) = Ok i) :
  let n := Menu.num_of_modes self in
  let target := Z.of_nat i + move_value in
  (target < - n -> Menu.update_value move_value self = Raise IndexError) /\
  (- n <= target < n ->
   exists x,
     Menu.mode_at self target = Some x /\
     Menu.update_value move_value self = Ok (tt, Menu.set_state x self, [Update])) /\
  (n <= target ->
   exists x,
     Menu.modes self !! 0%nat = Some x /\
     Menu.update_value move_value self = Ok (tt, Menu.set_state x self, [Update])).
Proof.
  intros n target. unfold Menu.well_formed in Hwf. fold n in Hwf.
  destruct (py_index_Ok _ _ _ Hidx) as (Hi & Hlen & _).
  rewrite (update_value_eq self move_value i Hidx). fold target. fold n.
  split; [|split].
  - intros Hlow. destruct (decide (target < n)) as [_|]; [|lia].
    rewrite py_getitem_below by lia. reflexivity.
  - intros Hin. destruct (decide (target < n)) as [_|]; [|lia].
    destruct (py_getitem_mod (Menu.modes self) target ltac:(lia)) as (x & Hx & Ex).
    exists x. unfold Menu.mode_at. rewrite Ex. split; [assumption|reflexivity].
  - intros Hhigh. destruct (decide (target < n)) as [|_]; [lia|].
    destruct (py_getitem_mod (Menu.modes self) 0 ltac:(lia)) as (x & Hx & Ex).
    rewrite Z.mod_0_l in Hx by lia.
    exists x. rewrite Ex. split; [assumption|reflexivity].
Qed.

Lemma menu_update_value_selects_witness :
  Menu.update_value (-1)
    {| Menu.modes := ["Startup"; "Competition"; "Two-Step"]; Menu.num_of_modes := 3;
       Menu.state := "Startup" |}
  = Ok (tt, {| Menu.modes := ["Startup"; "Competition"; "Two-Step"]; Menu.num_of_modes := 3;
               Menu.state := "Two-Step" |}, [Update]).
Proof.
  destruct (menu_update_value_selects
              {| Menu.modes := ["Startup"; "Competition"; "Two-Step"]; Menu.num_of_modes := 3;
                 Menu.state := "Startup" |} (-1) 0 eq_refl eq_refl) as (_ & H & _).
  destruct (H ltac:(simpl; lia)) as (x & Hx & E).
  vm_compute in Hx. injection Hx as <-. exact E.
Defined.

Lemma set_state_state (self : Menu.t) : Menu.set_state (Menu.state self) self = self.
Proof. destruct self; reflexivity. Qed.

(** One step right and one step left on a menu without repeated names. *)
Lemma menu_step (self : Menu.t) (i : nat) :
  Menu.well_formed self ->
  Menu.modes self !! i = Some (Menu.state self) ->
  NoDup (Menu.modes self) ->
  let n := Z.of_nat (length (Menu.modes self)) in
  (exists x,
     Menu.modes self !! Z.to_nat ((Z.of_nat i + 1) mod n) = Some x /\
     Menu.update_value 1 self = Ok (tt, Menu.set_state x self, [Update])) /\
  (exists x,
     Menu.modes self !! Z.to_nat ((Z.of_nat i - 1) mod n) = Some x /\
     Menu.update_value (-1) self = Ok (tt, Menu.set_state x self, [Update])).
Proof.
  intros Hwf Hi Hnd n.
  pose proof (py_index_NoDup _ _ _ Hnd Hi) as Hidx.
  pose proof (lookup_lt_Some _ _ _ Hi) as Hlen.
  unfold Menu.well_formed in Hwf.
  rewrite !(update_value_eq self _ i Hidx), Hwf. fold n.
  split.
  - destruct (decide (Z.of_nat i + 1 < n)) as [Hlt|Hge].
    + destruct (py_getitem_mod (Menu.modes self) (Z.of_nat i + 1) ltac:(lia))
        as (x & Hx & Ex).
      exists x. rewrite Ex. split; [exact Hx|reflexivity].
    + destruct (py_getitem_mod (Menu.modes self) 0 ltac:(lia)) as (x & Hx & Ex).
      exists x. rewrite Ex. split; [|reflexivity]. fold n in Hx.
      replace (Z.of_nat i + 1) with n by lia. rewrite Z.mod_same by lia.
      rewrite Z.mod_0_l in Hx by lia. exact Hx.
  - destruct (decide (Z.of_nat i + -1 < n)) as [_|]; [|lia].
    destruct (py_getitem_mod (Menu.modes self) (Z.of_nat i + -1) ltac:(lia))
      as (x & Hx & Ex).
    exists x. rewrite Ex. split; [exact Hx|reflexivity].
Qed.

Lemma menu_steps_right (k : nat) : forall (self : Menu.t) (i : nat),
  Menu.well_formed self ->
  Menu.modes self !! i = Some (Menu.state self) ->
  NoDup (Menu.modes self) ->
  exists x,
    Menu.modes self !! Z.to_nat ((Z.of_nat i + Z.of_nat k)
                                 mod Z.of_nat (length (Menu.modes self))) = Some x /\
    Menu.update_all (repeat 1 k) self = Ok (tt, Menu.set_state x self, repeat Update k).
Proof.
  induction k as [|k IH]; intros self i Hwf Hi Hnd.
  - pose proof (lookup_lt_Some _ _ _ Hi) as Hlen.
    exists (Menu.state self). rewrite Z.add_0_r, Z.mod_small, Nat2Z.id by lia.
    split; [exact Hi|]. rewrite set_state_state. reflexivity.
  - pose proof (lookup_lt_Some _ _ _ Hi) as Hlen.
    destruct (menu_step self i Hwf Hi Hnd) as ((x & Hx & E) & _).
    set (n := Z.of_nat (length (Menu.modes self))) in *.
    pose proof (Z.mod_pos_bound (Z.of_nat i + 1) n ltac:(lia)) as Hj.
    destruct (IH (Menu.set_state x self) (Z.to_nat ((Z.of_nat i + 1) mod n)))
      as (y & Hy & E'); [exact Hwf|exact Hx|exact Hnd|].
    exists y. split.
    + simpl Menu.modes in Hy. fold n in Hy. rewrite Z2Nat.id in Hy by lia.
      rewrite Zplus_mod_idemp_l in Hy.
      replace (Z.of_nat i + Z.of_nat (S k)) with (Z.of_nat i + 1 + Z.of_nat k) by lia.
      exact Hy.
    + simpl. unfold mbind, M_bind. rewrite E, E'. reflexivity.
Qed.

(** X13: on a menu whose names are all different, one step right followed by
    one step left gives the menu back, and so does one step left followed
    by one step right; as many steps right as there are modes go round
    once and give the menu back. *)
Theorem menu_navigation_cycles (self : Menu.t)
    (Hwf : Menu.well_formed self)
    (Hnd : NoDup (Menu.modes self))
    (Hin : Menu.state self ∈ Menu.modes self) :
  (exists r,
     Menu.update_value 1 self = Ok (tt, r, [Update]) /\
     Menu.update_value (-1) r = Ok (tt, self, [Update])) /\
  (exists l,
     Menu.update_value (-1) self = Ok (tt, l, [Update]) /\
     Menu.update_value 1 l = Ok (tt, self, [Update])) /\
  Menu.update_all (repeat 1 (length (Menu.modes self))) self
  = Ok (tt, self, repeat Update (length (Menu.modes self))).
Proof.
  apply list_elem_of_lookup_1 in Hin. destruct Hin as [i Hi].
  pose proof (lookup_lt_Some _ _ _ Hi) as Hlen.
  set (n := Z.of_nat (length (Menu.modes self))).
  destruct (menu_step self i Hwf Hi Hnd) as ((r & Hr & Er) & (l & Hl & El)).
  fold n in Hr, Hl.
  pose proof (Z.mod_pos_bound (Z.of_nat i + 1) n ltac:(lia)) as Hjr.
  pose proof (Z.mod_pos_bound (Z.of_nat i - 1) n ltac:(lia)) as Hjl.
  split; [|split].
  - exists (Menu.set_state r self). split; [exact Er|].
    destruct (menu_step (Menu.set_state r self) (Z.to_nat ((Z.of_nat i + 1) mod n)))
      as (_ & (x & Hx & E)); [exact Hwf|exact Hr|exact Hnd|].
    simpl Menu.modes in Hx. fold n in Hx. rewrite Z2Nat.id in Hx by lia.
    rewrite Zminus_mod_idemp_l in Hx.
    replace (Z.of_nat i + 1 - 1) with (Z.of_nat i) in Hx by lia.
    rewrite Z.mod_small, Nat2Z.id in Hx by lia.
    rewrite E. assert (x = Menu.state self) by congruence. subst x.
    destruct self; reflexivity.
  - exists (Menu.set_state l self). split; [exact El|].
    destruct (menu_step (Menu.set_state l self) (Z.to_nat ((Z.of_nat i - 1) mod n)))
      as ((x & Hx & E) & _); [exact Hwf|exact Hl|exact Hnd|].
    simpl Menu.modes in Hx. fold n in Hx. rewrite Z2Nat.id in Hx by lia.
    rewrite Zplus_mod_idemp_l in Hx.
    replace (Z.of_nat i - 1 + 1) with (Z.of_nat i) in Hx by lia.
    rewrite Z.mod_small, Nat2Z.id in Hx by lia.
    rewrite E. assert (x = Menu.state self) by congruence. subst x.
    destruct self; reflexivity.
  - destruct (menu_steps_right (length (Menu.modes self)) self i Hwf Hi Hnd) as (x & Hx & E).
    fold n in Hx. replace (Z.of_nat i + n) with (Z.of_nat i + 1 * n) in Hx by lia.
    rewrite Z_mod_plus_full in Hx.
    rewrite E. assert (x = Menu.state self); [|subst x; rewrite set_state_state; reflexivity].
    rewrite Z.mod_small, Nat2Z.id in Hx by lia. congruence.
Qed.

Lemma menu_navigation_cycles_witness :
  Menu.update_all [1; 1; 1]
    {| Menu.modes := ["Startup"; "Competition"; "Two-Step"]; Menu.num_of_modes := 3;
       Menu.state := "Competition" |}
  = Ok (tt, {| Menu.modes := ["Startup"; "Competition"; "Two-Step"]; Menu.num_of_modes := 3;
               Menu.state := "Competition" |}, [Update; Update; Update]).
Proof.
  refine (proj2 (proj2 (menu_navigation_cycles
    {| Menu.modes := ["Startup"; "Competition"; "Two-Step"]; Menu.num_of_modes := 3;
       Menu.state := "Competition" |} eq_refl _ _))).
  - repeat (apply NoDup_cons_2;
            [rewrite ?elem_of_cons, elem_of_nil; intuition discriminate|]).
    apply NoDup_nil_2.
  - simpl. rewrite !elem_of_cons. auto.
Defined.

(** The geometry of the menu bar on a widget of Qt's size. *)
Lemma menu_geometry_ok (width height : Z) :
  0 <= width < 2 ^ 31 -> 0 <= height < 2 ^ 31 ->
  exists cx y cy half w3 h15 x2 size,
    int_truediv width 2 = Ok cx /\
    Menu.bar_top height = Ok y /\
    float_div_int y 2 = Ok cy /\
    int_truediv (Z.min width height) 2 = Ok half /\
    int_truediv width 3 = Ok w3 /\
    int_truediv height 15 = Ok h15 /\
    int_truediv (width * 2) 3 = Ok x2 /\
    float_div_int (f64_mul half (decimal 8 1)) 10 = Ok size /\
    forall x, Menu.item_rect x width height
              = Ok (QRect x (FloatNum y) (FloatNum w3) (FloatNum h15)).
Proof.
  intros Hw Hh.
  destruct (paint_sizes_ok width height Hw Hh) as (cx & _ & half & Ecx & _ & Ehalf).
  destruct (int_truediv_ok_qt 14 15 ltac:(lia) ltac:(lia)) as (f & Ef).
  destruct (float_mul_int_ok f height ltac:(lia)) as (y & Ey).
  destruct (float_div_int_ok y 2 ltac:(lia)) as (cy & Ecy).
  destruct (int_truediv_ok_qt width 3 ltac:(lia) ltac:(lia)) as (w3 & Ew3).
  destruct (int_truediv_ok_qt height 15 ltac:(lia) ltac:(lia)) as (h15 & Eh15).
  destruct (int_truediv_ok_qt (width * 2) 3 ltac:(lia) ltac:(lia)) as (x2 & Ex2).
  destruct (float_div_int_ok (f64_mul half (decimal 8 1)) 10 ltac:(lia)) as (size & Esize).
  assert (Ebar : Menu.bar_top height = Ok y).
  { unfold Menu.bar_top. rewrite Ef. run_result. exact Ey. }
  exists cx, y, cy, half, w3, h15, x2, size.
  repeat (split; [assumption|]).
  intros x. unfold Menu.item_rect. rewrite Ebar, Ew3, Eh15. reflexivity.
Qed.

(** The paint event of the menu, once the geometry is computed: what is
    left is the lookup of the neighbours. *)
Lemma menu_paintEvent_eq (width height : Z) (self : Menu.t) :
  0 <= width < 2 ^ 31 -> 0 <= height < 2 ^ 31 ->
  exists (bg rl rs rr : rect) (size : spec_float),
    rect_x rl = IntNum 0 /\
    (exists x, int_truediv width 3 = Ok x /\ rect_x rs = FloatNum x) /\
    (exists x, int_truediv (width * 2) 3 = Ok x /\ rect_x rr = FloatNum x) /\
    Menu.paintEvent width height self
    = match py_index (Menu.state self) (Menu.modes self) with
      | Raise e => Raise e
      | Ok i =>
          match py_getitem (Menu.modes self) (Z.of_nat i - 1) with
          | Raise e => Raise e
          | Ok prev =>
              match
                (if decide (Z.of_nat i + 1 < Menu.num_of_modes self)
                 then py_getitem (Menu.modes self) (Z.of_nat i + 1)
                 else py_getitem (Menu.modes self) 0)
              with
              | Raise e => Raise e
              | Ok next =>
                  Ok (tt,
                      [setPen (RGB 0 0 0) (Some (IntNum 10));
                       fillRect bg (RGB 255 255 255);
                       setFont "Sans Sariff" size true;
                       drawText rs AlignCenter (Str (Menu.state self));
                       drawText rl AlignCenter (Str prev);
                       drawText rr AlignCenter (Str next)],
                      [])
              end
          end
      end.
Proof.
  intros Hw Hh.
  destruct (menu_geometry_ok width height Hw Hh)
    as (cx & y & cy & half & w3 & h15 & x2 & size
        & Ecx & Ey & Ecy & Ehalf & Ew3 & Eh15 & Ex2 & Esize & Hrect).
  eexists (QRect (IntNum 0) (FloatNum y) (IntNum width) (FloatNum h15)),
    (QRect (IntNum 0) (FloatNum y) (FloatNum w3) (FloatNum h15)),
    (QRect (FloatNum w3) (FloatNum y) (FloatNum w3) (FloatNum h15)),
    (QRect (FloatNum x2) (FloatNum y) (FloatNum w3) (FloatNum h15)), size.
  split; [reflexivity|]. split; [eauto|]. split; [eauto|].
  unfold Menu.paintEvent, Menu.draw. run_painter. run_result.
  repeat (first [rewrite Hrect | rewrite Ecx | rewrite Ey | rewrite Ecy | rewrite Ehalf
                | rewrite Ew3 | rewrite Eh15 | rewrite Ex2 | rewrite Esize];
          cbv beta iota).
  destruct (py_index (Menu.state self) (Menu.modes self)) as [i|]; [|reflexivity].
  cbv beta iota.
  destruct (py_getitem (Menu.modes self) (Z.of_nat i - 1)) as [prev|]; [|reflexivity].
  cbv beta iota.
  destruct (decide (Z.of_nat i + 1 < Menu.num_of_modes self)); cbv beta iota.
  - destruct (py_getitem (Menu.modes self) (Z.of_nat i + 1)); reflexivity.
  - destruct (py_getitem (Menu.modes self) 0); reflexivity.
Qed.

(** X14: A menu built from a list without the name Startup is stuck: its state
    is Startup, which [index] does not find, so every [update_value] call
    and every paint event raises [ValueError].  The default list, the empty
    one, is such a list. *)
Theorem menu_without_startup (modes : list string)
    (Hnot : "Startup" ∉ modes) :
  exists self,
    Menu.__init__ modes = Ok self /\
    (forall move_value : Z, Menu.update_value move_value self = Raise ValueError) /\
    (forall width height : Z,
       0 <= width < 2 ^ 31 -> 0 <= height < 2 ^ 31 ->
       Menu.paintEvent width height self = Raise ValueError).
Proof.
  eexists. split; [reflexivity|].
  pose proof (py_index_not_elem_of _ _ Hnot) as Hidx.
  split.
  - intros move_value. run_menu. simpl Menu.state. simpl Menu.modes.
    rewrite Hidx. reflexivity.
  - intros width height Hw Hh.
    destruct (menu_paintEvent_eq width height
                {| Menu.modes := modes; Menu.num_of_modes := Z.of_nat (length modes);
                   Menu.state := "Startup" |} Hw Hh)
      as (bg & rl & rs & rr & size & _ & _ & _ & E).
    rewrite E. simpl Menu.state. simpl Menu.modes. rewrite Hidx. reflexivity.
Qed.

Lemma menu_without_startup_witness :
  exists self,
    Menu.__init__ Menu.default_modes = Ok self /\
    Menu.update_value 1 self = Raise ValueError /\
    Menu.paintEvent 400 300 self = Raise ValueError.
Proof.
  destruct (menu_without_startup Menu.default_modes) as (self & E & Hu & Hp).
  - apply not_elem_of_nil.
  - exists self. split; [exact E|]. split; [apply Hu|apply Hp; lia].
Defined.

(** X15: on a menu whose state is listed, a paint event on a widget of Qt's
    size returns and prints nothing; it draws three texts: the state in the
    middle slot, in the left slot the mode one step left and in the right
    slot the mode one step right, each being exactly the mode that
    [update_value(-1)] and [update_value(1)] select. *)
Theorem menu_paint_shows_neighbours (width height : Z) (self : Menu.t)
    (Hwf : Menu.well_formed self)
    (Hin : Menu.state self ∈ Menu.modes self)
    (Hw : 0 <= width < 2 ^ 31)
    (Hh : 0 <= height < 2 ^ 31) :
  exists (p : painter) (rs rl rr : rect) (prev next : string),
    Menu.paintEvent width height self = Ok (tt, p, []) /\
    placed_texts p = [(rs, Str (Menu.state self)); (rl, Str prev); (rr, Str next)] /\
    rect_x rl = IntNum 0 /\
    (exists x, int_truediv width 3 = Ok x /\ rect_x rs = FloatNum x) /\
    (exists x, int_truediv (width * 2) 3 = Ok x /\ rect_x rr = FloatNum x) /\
    Menu.update_value (-1) self = Ok (tt, Menu.set_state prev self, [Update]) /\
    Menu.update_value 1 self = Ok (tt, Menu.set_state next self, [Update]).
Proof.
  destruct (py_index_elem_of _ _ Hin) as [i Hidx].
  destruct (py_index_Ok _ _ _ Hidx) as (_ & Hlen & _).
  destruct (menu_paintEvent_eq width height self Hw Hh)
    as (bg & rl & rs & rr & size & Hl & Hs & Hr & E).
  unfold Menu.well_formed in Hwf.
  rewrite E, Hidx. clear E.
  destruct (py_getitem_mod (Menu.modes self) (Z.of_nat i - 1) ltac:(lia)) as (prev & _ & El).
  rewrite El.
  assert (Er : exists next,
             (if decide (Z.of_nat i + 1 < Menu.num_of_modes self)
              then py_getitem (Menu.modes self) (Z.of_nat i + 1)
              else py_getitem (Menu.modes self) 0) = Ok next).
  { destruct (decide _).
    - destruct (py_getitem_mod (Menu.modes self) (Z.of_nat i + 1) ltac:(lia)) as (x & _ & Ex).
      eauto.
    - destruct (py_getitem_mod (Menu.modes self) 0 ltac:(lia)) as (x & _ & Ex). eauto. }
  destruct Er as (next & Er). rewrite Er.
  eexists _, rs, rl, rr, prev, next.
  split; [reflexivity|]. split; [reflexivity|].
  split; [exact Hl|]. split; [exact Hs|]. split; [exact Hr|].
  run_menu. rewrite Hidx. cbv beta iota.
  split.
  - destruct (decide (Z.of_nat i + -1 < Menu.num_of_modes self)) as [_|]; [|lia].
    cbv beta iota. change (Z.of_nat i + -1) with (Z.of_nat i - 1). rewrite El. reflexivity.
  - destruct (decide (Z.of_nat i + 1 < Menu.num_of_modes self)); cbv beta iota;
      rewrite Er; reflexivity.
Qed.

Lemma menu_paint_shows_neighbours_witness :
  exists (p : painter) (rs rl rr : rect),
    Menu.paintEvent 400 300
      {| Menu.modes := ["Startup"; "Competition"; "Two-Step"]; Menu.num_of_modes := 3;
         Menu.state := "Startup" |} = Ok (tt, p, []) /\
    placed_texts p = [(rs, Str "Startup"); (rl, Str "Two-Step"); (rr, Str "Competition")].
Proof.
  destruct (menu_paint_shows_neighbours 400 300
              {| Menu.modes := ["Startup"; "Competition"; "Two-Step"]; Menu.num_of_modes := 3;
                 Menu.state := "Startup" |} eq_refl)
    as (p & rs & rl & rr & prev & next & Ep & Ht & _ & _ & _ & El & Er).
  - simpl. rewrite !elem_of_cons. auto.
  - lia.
  - lia.
  - vm_compute in El. injection El as <-. vm_compute in Er. injection Er as <-.
    exists p, rs, rl, rr. split; [exact Ep|exact Ht].
Defined.

(** ** The rotating image *)

Lemma rescale_source (pixmap_bool : option Rotating_Image.pixmap -> bool)
    (l : Rotating_Image.QLabel) :
  option_map Rotating_Image.source
    (Rotating_Image.pixmap_of (Rotating_Image.rescale pixmap_bool l))
  = option_map Rotating_Image.source (Rotating_Image.pixmap_of l).
Proof.
  unfold Rotating_Image.rescale. destruct (pixmap_bool _); [|reflexivity].
  simpl. destruct (Rotating_Image.pixmap_of l); reflexivity.
Qed.

Lemma py_getitem_nat {A} (l : list A) (k : Z) :
  0 <= k < Z.of_nat (length l) ->
  exists x, l !! Z.to_nat k = Some x /\ py_getitem l k = Ok x.
Proof.
  intros Hk. destruct (py_getitem_mod l k ltac:(lia)) as (x & Hx & E).
  rewrite Z.mod_small in Hx by lia. eauto.
Qed.

Lemma path_bool_true (path : string) : path <> "" -> Rotating_Image.path_bool path = true.
Proof. intros H. unfold Rotating_Image.path_bool. apply bool_decide_eq_true. exact H. Qed.

Ltac run_image :=
  cbv [Rotating_Image.run_call Rotating_Image.change_image Rotating_Image.resizeEvent
       mbind M_bind mret M_ret get put modify emit lift];
  cbv beta iota.

(** One call of Qt on a widget that has seen [k] timeouts. *)
Lemma run_call_rotating (pixmap_bool : option Rotating_Image.pixmap -> bool)
    (paths : list string) (c : Rotating_Image.call) (k : Z) (self : Rotating_Image.t) :
  paths <> [] -> Forall (fun p => p <> "") paths -> 0 <= k ->
  Rotating_Image.after_timeouts paths k self ->
  exists self',
    Rotating_Image.run_call pixmap_bool c self = Ok (tt, self', []) /\
    Rotating_Image.after_timeouts paths (k + Rotating_Image.timeouts [c]) self'.
Proof.
  intros Hne Hall Hk (Hp & Hn & Hc & Hs).
  assert (Hlen : 0 < Z.of_nat (length paths)) by (destruct paths; [congruence|simpl; lia]).
  destruct self as [pp n cur ti lbl]. unfold Rotating_Image.shown in Hs. simpl in Hp, Hn, Hc, Hs.
  subst pp n cur.
  destruct c as [|width height].
  - pose proof (Z.mod_pos_bound (k + 1) (Z.of_nat (length paths)) Hlen) as Hnext.
    destruct (py_getitem_nat paths ((k + 1) mod Z.of_nat (length paths)) Hnext)
      as (path & Hpath & Epath).
    assert (Htrue : Rotating_Image.path_bool path = true).
    { apply path_bool_true. rewrite Forall_forall in Hall. apply Hall.
      eapply list_elem_of_lookup_2. exact Hpath. }
    run_image. simpl Rotating_Image.current_path. simpl Rotating_Image.num_of_paths.
    simpl Rotating_Image.png_paths. unfold py_mod.
    destruct (decide (Z.of_nat (length paths) = 0)) as [|_]; [lia|].
    repeat (first [rewrite Epath | rewrite Htrue
                  | progress cbn [Rotating_Image.png_paths Rotating_Image.set_current_path
                                  Rotating_Image.set_label]];
            cbv beta iota).
    eexists. split; [reflexivity|].
    unfold Rotating_Image.after_timeouts, Rotating_Image.shown. simpl.
    rewrite rescale_source. simpl. auto.
  - run_image. eexists. split; [reflexivity|].
    unfold Rotating_Image.after_timeouts, Rotating_Image.shown. simpl.
    rewrite rescale_source. simpl. rewrite Z.add_0_r. auto.
Qed.

Lemma timeouts_nonneg (cs : list Rotating_Image.call) : 0 <= Rotating_Image.timeouts cs.
Proof. induction cs as [|[|w h] cs IH]; simpl; lia. Qed.

Lemma run_calls_rotating (pixmap_bool : option Rotating_Image.pixmap -> bool)
    (paths : list string) (cs : list Rotating_Image.call) :
  forall (k : Z) (self : Rotating_Image.t),
    paths <> [] -> Forall (fun p => p <> "") paths -> 0 <= k ->
    Rotating_Image.after_timeouts paths k self ->
    exists self',
      Rotating_Image.run_calls pixmap_bool cs self = Ok (tt, self', []) /\
      Rotating_Image.after_timeouts paths (k + Rotating_Image.timeouts cs) self'.
Proof.
  induction cs as [|c cs IH]; intros k self Hne Hall Hk Hinv.
  - exists self. simpl. rewrite Z.add_0_r. auto.
  - destruct (run_call_rotating pixmap_bool paths c k self Hne Hall Hk Hinv)
      as (self1 & E1 & Hinv1).
    pose proof (timeouts_nonneg [c]).
    destruct (IH (k + Rotating_Image.timeouts [c]) self1 Hne Hall ltac:(lia) Hinv1)
      as (self2 & E2 & Hinv2).
    exists self2. split.
    + simpl. unfold mbind, M_bind. rewrite E1, E2. reflexivity.
    + replace (k + Rotating_Image.timeouts (c :: cs))
        with (k + Rotating_Image.timeouts [c] + Rotating_Image.timeouts cs);
        [exact Hinv2|].
      destruct c; simpl; lia.
Qed.

(** X16: construction raises [IndexError] exactly when the list of paths is
    empty, as the default list is; otherwise it returns a widget with the
    counter at 0 that shows the first image when its path is not empty. *)
Theorem rotating_image_needs_a_path (png_paths : list string)
    (height width image_time : Z) :
  (png_paths = [] ->
   Rotating_Image.__init__ png_paths height width image_time = Raise IndexError) /\
  (png_paths <> [] ->
   exists self,
     Rotating_Image.__init__ png_paths height width image_time = Ok self /\
     Rotating_Image.png_paths self = png_paths /\
     Rotating_Image.num_of_paths self = Z.of_nat (length png_paths) /\
     Rotating_Image.current_path self = 0 /\
     Rotating_Image.timer_interval self = image_time /\
     (forall first, head png_paths = Some first -> first <> "" ->
        Rotating_Image.shown self = Some first)).
Proof.
  split.
  - intros ->. reflexivity.
  - intros Hne. destruct png_paths as [|first rest]; [congruence|].
    unfold Rotating_Image.__init__. run_result.
    change (py_getitem (first :: rest) 0) with (Ok first). cbv beta iota.
    destruct (Rotating_Image.path_bool first) eqn:Hb;
      (eexists; split; [reflexivity|]); repeat split;
      intros f Hf Hfne; simpl in Hf; injection Hf as <-.
    + reflexivity.
    + rewrite path_bool_true in Hb by assumption. discriminate.
Qed.

Lemma rotating_image_needs_a_path_witness :
  Rotating_Image.__init__ Rotating_Image.default_png_paths 100 100 10000 = Raise IndexError /\
  exists self,
    Rotating_Image.__init__ ["a.png"; "b.png"] 100 100 10000 = Ok self /\
    Rotating_Image.shown self = Some "a.png".
Proof.
  split.
  - apply (rotating_image_needs_a_path Rotating_Image.default_png_paths 100 100 10000).
    reflexivity.
  - destruct (proj2 (rotating_image_needs_a_path ["a.png"; "b.png"] 100 100 10000))
      as (self & E & _ & _ & _ & _ & Hs).
    + discriminate.
    + exists self. split; [exact E|]. apply Hs; [reflexivity|discriminate].
Defined.

(** X17: A widget built from a list of paths none of which is empty answers
    every sequence of timeouts and resizes without raising.  Its counter
    is the number of timeouts so far, never wrapped; the image it shows is
    the one at that number modulo the length of the list, so the images
    come round in the order of the list, and a resize never changes which
    image is shown.  This holds whatever Qt answers for the truth of a
    pixmap. *)
Theorem rotating_image_cycles (pixmap_bool : option Rotating_Image.pixmap -> bool)
    (png_paths : list string) (height width image_time : Z)
    (calls : list Rotating_Image.call)
    (Hne : png_paths <> [])
    (Hall : Forall (fun p => p <> "") png_paths) :
  exists self0 self',
    Rotating_Image.__init__ png_paths height width image_time = Ok self0 /\
    Rotating_Image.run_calls pixmap_bool calls self0 = Ok (tt, self', []) /\
    Rotating_Image.png_paths self' = png_paths /\
    Rotating_Image.current_path self' = Rotating_Image.timeouts calls /\
    Rotating_Image.shown self'
    = png_paths !! Z.to_nat (Rotating_Image.timeouts calls mod Z.of_nat (length png_paths)).
Proof.
  destruct png_paths as [|first rest] eqn:Ep; [congruence|]. rewrite <- Ep in *.
  assert (Hfirst : first <> "").
  { rewrite Forall_forall in Hall. apply Hall. rewrite Ep. left. }
  assert (E0 : exists self0,
             Rotating_Image.__init__ png_paths height width image_time = Ok self0 /\
             Rotating_Image.after_timeouts png_paths 0 self0).
  { rewrite Ep. unfold Rotating_Image.__init__. run_result.
    change (py_getitem (first :: rest) 0) with (Ok first). cbv beta iota.
    rewrite (path_bool_true first Hfirst).
    eexists. split; [reflexivity|]. repeat split. }
  destruct E0 as (self0 & E0 & Hinv0).
  destruct (run_calls_rotating pixmap_bool png_paths calls 0 self0 Hne Hall ltac:(lia) Hinv0)
    as (self' & E & (Hp & _ & Hc & Hs)).
  exists self0, self'. simpl in Hc, Hs. auto.
Qed.

Lemma rotating_image_cycles_witness :
  exists self0 self',
    Rotating_Image.__init__ ["a.png"; "b.png"; "c.png"] 100 100 10000 = Ok self0 /\
    Rotating_Image.run_calls (fun p => bool_decide (p <> None))
      [Rotating_Image.Timeout; Rotating_Image.Resize 50 60; Rotating_Image.Timeout;
       Rotating_Image.Timeout; Rotating_Image.Timeout] self0 = Ok (tt, self', []) /\
    Rotating_Image.current_path self' = 4 /\
    Rotating_Image.shown self' = Some "b.png".
Proof.
  destruct (rotating_image_cycles (fun p => bool_decide (p <> None))
              ["a.png"; "b.png"; "c.png"] 100 100 10000
              [Rotating_Image.Timeout; Rotating_Image.Resize 50 60; Rotating_Image.Timeout;
               Rotating_Image.Timeout; Rotating_Image.Timeout])
    as (self0 & self' & E0 & E & _ & Hc & Hs).
  - discriminate.
  - repeat (apply List.Forall_cons; [discriminate|]). apply List.Forall_nil.
  - exists self0, self'. split; [exact E0|]. split; [exact E|]. split; [exact Hc|exact Hs].
Defined.
